(** * v8: the fork-per-connection gateway server (v8.c)

    A shallow embedding of the server core: the connection acceptor
    ([v8_handle_connection], [v8_fork]), the worker ([v8_child_exec],
    [v8_request_handler]) and the signal handler ([v8_handle_signal]).

    The C code runs against the operating system and against collaborators
    whose code lives in other files (log, dispatcher, scgi, request,
    response).  A process is modelled as a state-and-exit monad over
    - the server structure [struct v8_t],
    - [errno],
    - the part of the kernel the process talks to (pending connections,
      pending signal records, child table, descriptor table), and
    - the chronological trace of the calls it made. *)

From Stdlib Require Import ZArith List String Ascii Bool Lia.
Import ListNotations.

Local Open Scope string_scope.
Local Open Scope list_scope.
Local Open Scope Z_scope.

(** ** Constants of the system headers (Linux) *)

Definition SIGHUP  : Z := 1.
Definition SIGINT  : Z := 2.
Definition SIGQUIT : Z := 3.
Definition SIGTERM : Z := 15.
Definition SIGCHLD : Z := 17.

Definition ECHILD : Z := 10.
Definition EAGAIN : Z := 11.
Definition ECONNABORTED : Z := 103.

(** [sizeof(struct signalfd_siginfo)] *)
Definition SIGINFO_SIZE : Z := 128.

(** The wait-status macros of <sys/wait.h>, on the [int] status word. *)
Definition WEXITSTATUS (status : Z) : Z := Z.shiftr (Z.land status 65280) 8.
Definition WTERMSIG (status : Z) : Z := Z.land status 127.
Definition WSTOPSIG (status : Z) : Z := WEXITSTATUS status.
Definition WIFEXITED (status : Z) : bool := WTERMSIG status =? 0.
Definition WIFSIGNALED (status : Z) : bool :=
  let t := Z.land status 127 + 1 in
  let c := if t >=? 128 then t - 256 else t in   (* (signed char) *)
  Z.shiftr c 1 >? 0.
Definition WIFSTOPPED (status : Z) : bool := Z.land status 255 =? 127.
Definition WIFCONTINUED (status : Z) : bool := status =? 65535.

(** What the parent of a process observes of [exit(code)]. *)
Definition exit_status (code : Z) : Z := Z.land code 255.

(** ** C strings

    A [char *] to a NUL-terminated string is modelled by the characters
    before the terminator. *)

Fixpoint string_drop (n : nat) (s : string) : string :=
  match n, s with
  | O, _ => s
  | S _, EmptyString => EmptyString
  | S n', String _ s' => string_drop n' s'
  end.

(** [p + n] for a pointer [p] to the string [s]: the result points into the
    string (at most at its terminator) only when [0 <= n <= strlen(s)];
    reading a string through any other pointer is undefined ([None]). *)
Definition str_offset (s : string) (n : Z) : option string :=
  if (0 <=? n) && (n <=? Z.of_nat (String.length s))
  then Some (string_drop (Z.to_nat n) s)
  else None.

(** [strcmp]: negative, zero or positive. *)
Fixpoint strcmp (a b : string) : Z :=
  match a, b with
  | EmptyString, EmptyString => 0
  | EmptyString, String _ _ => -1
  | String _ _, EmptyString => 1
  | String c a', String d b' =>
      if Ascii.eqb c d then strcmp a' b'
      else if (N_of_ascii c <? N_of_ascii d)%N then -1 else 1
  end.

(** [int n = strlen(s)]: the length, converted from [size_t] to a 32-bit
    [int] with the wrap-around written out. *)
Definition int_of_size (n : Z) : Z :=
  let m := n mod 4294967296 in
  if m <? 2147483648 then m else m - 4294967296.

Definition strlen_int (s : string) : Z := int_of_size (Z.of_nat (String.length s)).

(** ** Requests, responses, handlers, route table *)

(** Modelled from the spec: v8/request.h is missing; the enumeration of
    request methods, of which the code names only [V8_METHOD_UNKNOWN]. *)
Inductive V8RequestMethod : Type :=
| V8_METHOD_UNKNOWN
| V8_METHOD_OPTIONS
| V8_METHOD_GET
| V8_METHOD_HEAD
| V8_METHOD_POST
| V8_METHOD_PUT
| V8_METHOD_DELETE.

Definition method_eqb (a b : V8RequestMethod) : bool :=
  match a, b with
  | V8_METHOD_UNKNOWN, V8_METHOD_UNKNOWN
  | V8_METHOD_OPTIONS, V8_METHOD_OPTIONS
  | V8_METHOD_GET, V8_METHOD_GET
  | V8_METHOD_HEAD, V8_METHOD_HEAD
  | V8_METHOD_POST, V8_METHOD_POST
  | V8_METHOD_PUT, V8_METHOD_PUT
  | V8_METHOD_DELETE, V8_METHOD_DELETE => true
  | _, _ => false
  end.

(** Modelled from the spec: v8/request.h is missing; a parsed request has a
    method, a path and named parameters. *)
Record V8Request : Type := mkRequest {
  req_method : V8RequestMethod;
  req_route : string;
  req_params : list (string * string)
}.

Definition v8_request_create : V8Request :=
  mkRequest V8_METHOD_UNKNOWN "" [].
Definition v8_request_method (r : V8Request) : V8RequestMethod := req_method r.
Definition v8_request_route (r : V8Request) : string := req_route r.

(** Modelled from the spec: v8/response.h is missing; a response is bound to
    a socket and accumulates a status code and a body; it starts with the
    default success status and no body. *)
Record V8Response : Type := mkResponse {
  resp_sock : Z;
  resp_status : Z;
  resp_body : string
}.

(** Modelled from the spec: the status codes of v8/response.h are missing;
    the default success status and the "not found" status. *)
Definition V8_STATUS_OK : Z := 200.
Definition V8_STATUS_NOT_FOUND : Z := 404.

Definition v8_response_create (request : V8Request) (sock : Z) : V8Response :=
  mkResponse sock V8_STATUS_OK "".
Definition v8_response_set_status (r : V8Response) (status : Z) : V8Response :=
  mkResponse (resp_sock r) status (resp_body r).

(** A handler is application code reached through a function pointer: its
    address and what it does to the response. *)
Record V8Handler : Type := mkHandler {
  h_addr : nat;
  h_code : V8Request -> V8Response -> V8Response
}.

(** A filter returns a handler, or NULL ([None]). *)
Record V8Filter : Type := mkFilter {
  f_addr : nat;
  f_code : V8Request -> option V8Handler
}.

(** [V8Action]: the fields the server reads.  Every pointer may be NULL. *)
Record V8Action : Type := mkAction {
  act_method : V8RequestMethod;
  act_route : option string;
  act_handler : option V8Handler;
  act_filter : option V8Filter
}.

(** [struct v8_t] *)
Record V8 : Type := mkV8 {
  sockfd : Z;
  sigfd : Z;
  base_size : Z;
  config : list (string * string);
  dispatcher : option nat;
  actions : list V8Action;
  app_data : Z;
  app_init : option (unit -> Z)
}.

(** ** The kernel as the process sees it *)

Inductive AcceptResult : Type :=
| Accepted (fd : nat)          (* a connection, returned as descriptor [fd] *)
| AcceptFailed (err : Z).      (* accept returns -1 with this errno *)

Inductive ForkResult : Type :=
| ForkParent (pid : positive)  (* fork returns the child's pid *)
| ForkChild                    (* fork returns 0: this is the child *)
| ForkFailed (err : Z).        (* fork returns -1 with this errno *)

Inductive SigRead : Type :=
| SigRecord (signo : Z)        (* a whole signalfd_siginfo record *)
| SigReadFailed (err : Z).     (* read returns -1 with this errno *)

Record Kernel : Type := mkKernel {
  k_backlog : list AcceptResult;    (* what successive accept calls yield;
                                       empty: -1 with EAGAIN *)
  k_fork : nat -> ForkResult;       (* what the n-th fork call yields *)
  k_nfork : nat;                    (* fork calls made so far *)
  k_sigq : list SigRead;            (* what successive reads of the signal
                                       descriptor yield; empty: EAGAIN *)
  k_zombies : list (positive * Z);  (* terminated children not yet waited
                                       for: pid and wait status *)
  k_running : list positive;        (* children still running *)
  k_sigunblock : option Z;          (* errno with which
                                       sigprocmask(SIG_UNBLOCK) fails *)
  k_blocked : list Z;               (* blocked signals *)
  k_scgi : Z * V8Request;           (* what v8_scgi_request_read returns
                                       and stores in the request *)
  k_fds : list Z                    (* open descriptors *)
}.

(** ** Trace *)

Inductive LogLevel : Type := LogDebug | LogInfo | LogWarn | LogError.

Inductive LogArg : Type :=
| LInt (n : Z)
| LStr (s : string)
| LMethod (m : V8RequestMethod).

Inductive Event : Type :=
| EvLog (lvl : LogLevel) (fmt : string) (args : list LogArg)
| EvAccept (fd : Z) (ret : Z)
| EvFork (ret : Z)
| EvClose (fd : Z)
| EvReadSignal (fd : Z) (sz : Z)
| EvWaitpid (ret : Z)
| EvDispatcherStop (d : option nat)
| EvDispatcherDestroy (d : option nat)
| EvSigUnblock (ret : Z)
| EvScgiRead (sock : Z) (ret : Z)
| EvAppInit
| EvFilter (addr : nat)
| EvHandler (addr : nat)
| EvSend (resp : V8Response)
| EvResponseDestroy
| EvRequestDestroy.

(** ** Process state and the monad *)

Record State : Type := mkState {
  st_v8 : V8;
  st_errno : Z;
  st_kernel : Kernel;
  st_trace : list Event
}.

Inductive Res (A : Type) : Type :=
| Ret (a : A)          (* the code returned *)
| Exit (code : Z)      (* the process called exit(code) *)
| Undef                (* undefined behaviour *)
| OutOfFuel.           (* the loop bound of the model is exhausted *)

Arguments Ret {A} a.
Arguments Exit {A} code.
Arguments Undef {A}.
Arguments OutOfFuel {A}.

Definition M (A : Type) : Type := State -> Res A * State.

Definition ret {A} (a : A) : M A := fun s => (Ret a, s).

Definition bind {A B} (m : M A) (k : A -> M B) : M B :=
  fun s =>
    match m s with
    | (Ret a, s') => k a s'
    | (Exit c, s') => (Exit c, s')
    | (Undef, s') => (Undef, s')
    | (OutOfFuel, s') => (OutOfFuel, s')
    end.

Notation "x <- c1 ;; c2" := (bind c1 (fun x => c2))
  (at level 61, c1 at next level, right associativity).
Notation "' pat <- c1 ;; c2" := (bind c1 (fun x => match x with pat => c2 end))
  (at level 61, pat pattern, c1 at next level, right associativity).
Notation "c1 ;; c2" := (bind c1 (fun _ => c2))
  (at level 61, right associativity).

Definition exit {A} (code : Z) : M A := fun s => (Exit code, s).
Definition undef {A} : M A := fun s => (Undef, s).
Definition out_of_fuel {A} : M A := fun s => (OutOfFuel, s).

Definition get_v8 : M V8 := fun s => (Ret (st_v8 s), s).
Definition get_errno : M Z := fun s => (Ret (st_errno s), s).

Definition set_v8 (f : V8 -> V8) : M unit :=
  fun s => (Ret tt, mkState (f (st_v8 s)) (st_errno s) (st_kernel s) (st_trace s)).

Definition emit (e : Event) : M unit :=
  fun s => (Ret tt, mkState (st_v8 s) (st_errno s) (st_kernel s) (st_trace s ++ [e])).

(** A system call: a transition of the kernel that may set errno. *)
Definition syscall {A} (f : Kernel -> A * option Z * Kernel) : M A :=
  fun s =>
    match f (st_kernel s) with
    | (a, e, k) =>
        (Ret a, mkState (st_v8 s)
                        (match e with Some n => n | None => st_errno s end)
                        k (st_trace s))
    end.

Definition lift_option {A} (o : option A) : M A :=
  match o with Some a => ret a | None => undef end.

Definition when (b : bool) (m : M unit) : M unit := if b then m else ret tt.

(** The logging functions of v8/log.h. *)
Definition v8_log_debug (fmt : string) (args : list LogArg) : M unit :=
  emit (EvLog LogDebug fmt args).
Definition v8_log_info (fmt : string) (args : list LogArg) : M unit :=
  emit (EvLog LogInfo fmt args).
Definition v8_log_warn (fmt : string) (args : list LogArg) : M unit :=
  emit (EvLog LogWarn fmt args).
Definition v8_log_error (fmt : string) (args : list LogArg) : M unit :=
  emit (EvLog LogError fmt args).

(** ** System calls *)

Definition set_backlog (k : Kernel) (q : list AcceptResult) (fds : list Z) : Kernel :=
  mkKernel q (k_fork k) (k_nfork k) (k_sigq k) (k_zombies k) (k_running k)
           (k_sigunblock k) (k_blocked k) (k_scgi k) fds.

Definition set_fds (k : Kernel) (fds : list Z) : Kernel :=
  set_backlog k (k_backlog k) fds.

Definition set_sigq (k : Kernel) (q : list SigRead) : Kernel :=
  mkKernel (k_backlog k) (k_fork k) (k_nfork k) q (k_zombies k) (k_running k)
           (k_sigunblock k) (k_blocked k) (k_scgi k) (k_fds k).

Definition set_children (k : Kernel) (n : nat) (zs : list (positive * Z))
           (rs : list positive) : Kernel :=
  mkKernel (k_backlog k) (k_fork k) n (k_sigq k) zs rs
           (k_sigunblock k) (k_blocked k) (k_scgi k) (k_fds k).

Definition set_blocked (k : Kernel) (b : list Z) : Kernel :=
  mkKernel (k_backlog k) (k_fork k) (k_nfork k) (k_sigq k) (k_zombies k)
           (k_running k) (k_sigunblock k) b (k_scgi k) (k_fds k).

(** [accept(fd, NULL, NULL)] on the non-blocking listening socket. *)
Definition sys_accept (fd : Z) : M Z :=
  r <- syscall (fun k =>
         match k_backlog k with
         | [] => (-1, Some EAGAIN, k)
         | Accepted c :: q =>
             (Z.of_nat c, None, set_backlog k q (Z.of_nat c :: k_fds k))
         | AcceptFailed e :: q => (-1, Some e, set_backlog k q (k_fds k))
         end) ;;
  emit (EvAccept fd r) ;;
  ret r.

Definition remove_fd (fd : Z) (fds : list Z) : list Z :=
  filter (fun x => negb (x =? fd)) fds.

(** [close(fd)] *)
Definition sys_close (fd : Z) : M unit :=
  syscall (fun k => (tt, None, set_fds k (remove_fd fd (k_fds k)))) ;;
  emit (EvClose fd).

(** [fork()].  A child starts without children of its own. *)
Definition sys_fork : M Z :=
  r <- syscall (fun k =>
         match k_fork k (k_nfork k) with
         | ForkParent pid =>
             (Z.pos pid, None,
              set_children k (S (k_nfork k)) (k_zombies k) (k_running k ++ [pid]))
         | ForkChild => (0, None, set_children k (S (k_nfork k)) [] [])
         | ForkFailed e =>
             (-1, Some e, set_children k (S (k_nfork k)) (k_zombies k) (k_running k))
         end) ;;
  emit (EvFork r) ;;
  ret r.

(** [read(fd, &siginfo, sizeof(struct signalfd_siginfo))] on the
    non-blocking signal descriptor: the size read and, for a whole record,
    its [ssi_signo]. *)
Definition sys_read_siginfo (fd : Z) (signo : option Z) : M (Z * option Z) :=
  r <- syscall (fun k =>
         match k_sigq k with
         | [] => ((-1, signo), Some EAGAIN, k)
         | SigRecord n :: q => ((SIGINFO_SIZE, Some n), None, set_sigq k q)
         | SigReadFailed e :: q => ((-1, signo), Some e, set_sigq k q)
         end) ;;
  emit (EvReadSignal fd (fst r)) ;;
  ret r.

(** [waitpid(-1, &status, WNOHANG)]: the return value and the status word
    after the call. *)
Definition sys_waitpid_nohang (status : option Z) : M (Z * option Z) :=
  r <- syscall (fun k =>
         match k_zombies k with
         | (pid, st) :: zs =>
             ((Z.pos pid, Some st), None, set_children k (k_nfork k) zs (k_running k))
         | [] =>
             match k_running k with
             | [] => ((-1, status), Some ECHILD, k)
             | _ :: _ => ((0, status), None, k)
             end
         end) ;;
  emit (EvWaitpid (fst r)) ;;
  ret r.

(** [sigprocmask(SIG_UNBLOCK, &mask, NULL)] *)
Definition sys_sigprocmask_unblock (mask : list Z) : M Z :=
  r <- syscall (fun k =>
         match k_sigunblock k with
         | Some e => (-1, Some e, k)
         | None =>
             (0, None,
              set_blocked k
                (filter (fun sg => negb (existsb (Z.eqb sg) mask)) (k_blocked k)))
         end) ;;
  emit (EvSigUnblock r) ;;
  ret r.

(** ** Collaborators *)

Definition v8_dispatcher_stop (d : option nat) : M unit := emit (EvDispatcherStop d).
Definition v8_dispatcher_destroy (d : option nat) : M unit := emit (EvDispatcherDestroy d).

(** [v8_scgi_request_read(sock, request)]: the return value and the request
    as filled in. *)
Definition v8_scgi_request_read (sock : Z) (request : V8Request) : M (Z * V8Request) :=
  r <- syscall (fun k => (k_scgi k, None, k)) ;;
  emit (EvScgiRead sock (fst r)) ;;
  ret r.

Definition v8_response_send (r : V8Response) : M unit := emit (EvSend r).
Definition v8_response_destroy (r : V8Response) : M unit := emit EvResponseDestroy.
Definition v8_request_destroy (r : V8Request) : M unit := emit EvRequestDestroy.

(** Calls through function pointers; a call through NULL is undefined. *)
Definition call_handler (h : option V8Handler) (request : V8Request)
           (response : V8Response) : M V8Response :=
  match h with
  | None => undef
  | Some f => emit (EvHandler (h_addr f)) ;; ret (h_code f request response)
  end.

Definition call_filter (f : V8Filter) (request : V8Request) : M (option V8Handler) :=
  emit (EvFilter (f_addr f)) ;; ret (f_code f request).

(** ** The worker: v8_request_handler, v8_child_exec *)

(** The test of the routing loop,
    [method == actions[i].method && actions[i].route != NULL
     && strcmp(route + v8->base_size, actions[i].route) == 0],
    with its short-circuit evaluation; [None] when it is undefined. *)
Definition action_matches (bsize : Z) (method : V8RequestMethod) (route : string)
           (a : V8Action) : option bool :=
  if method_eqb method (act_method a) then
    match act_route a with
    | None => Some false
    | Some r =>
        match str_offset route bsize with
        | None => None
        | Some p => Some (strcmp p r =? 0)
        end
    end
  else Some false.

(** The body of the [if] of the routing loop, for the entry [a] at index
    [i]: the filter, when there is one, may substitute the handler; every
    path ends in [break]. *)
Definition invoke_action (a : V8Action) (i : nat) (request : V8Request)
           (response : V8Response) : M (nat * V8Response) :=
  match act_filter a with
  | Some f =>
      filter_handler <- call_filter f request ;;
      match filter_handler with
      | Some fh =>
          response' <- call_handler (Some fh) request response ;;
          ret (i, response')
      | None =>
          response' <- call_handler (act_handler a) request response ;;
          ret (i, response')
      end
  | None =>
      response' <- call_handler (act_handler a) request response ;;
      ret (i, response')
  end.

(** The [for] loop over [actions], entered at index [i] with [acts] the
    entries from [i] on; it returns the index at which it stopped.  Reading
    past the end of the table is undefined. *)
Fixpoint route_loop (acts : list V8Action) (i : nat) (request : V8Request)
         (response : V8Response) : M (nat * V8Response) :=
  match acts with
  | [] => undef
  | a :: rest =>
      if method_eqb (act_method a) V8_METHOD_UNKNOWN then ret (i, response)
      else
        v8 <- get_v8 ;;
        hit <- lift_option (action_matches (base_size v8) (v8_request_method request)
                                           (v8_request_route request) a) ;;
        if (hit : bool) then invoke_action a i request response
        else route_loop rest (S i) request response
  end.

Definition fmt_could_not_read := "Could not read request".
Definition fmt_request_received := "Request receiveid -> Method: %d Path: %s".
Definition fmt_action_not_found := "Action not found %s".

Definition v8_request_handler (sock : Z) : M Z :=
  v8 <- get_v8 ;;
  let request := v8_request_create in
  let response := v8_response_create request sock in
  '(r, request) <- v8_scgi_request_read sock request ;;
  if r <? 0 then
    v8_log_warn fmt_could_not_read [] ;;
    (* error_cleanup: *)
    sys_close sock ;;
    ret (-1)
  else
    let method := v8_request_method request in
    let route := v8_request_route request in
    match app_init v8 with
    | Some init =>
        emit EvAppInit ;;
        set_v8 (fun v => mkV8 (sockfd v) (sigfd v) (base_size v) (config v)
                              (dispatcher v) (actions v) (init tt) (app_init v))
    | None => ret tt
    end ;;
    path <- lift_option (str_offset route (base_size v8)) ;;
    v8_log_debug fmt_request_received [LMethod method; LStr path] ;;
    '(i, response) <- route_loop (actions v8) 0 request response ;;
    a <- lift_option (nth_error (actions v8) i) ;;
    response <- (if method_eqb (act_method a) V8_METHOD_UNKNOWN then
                   v8_log_warn fmt_action_not_found [LStr route] ;;
                   ret (v8_response_set_status response V8_STATUS_NOT_FOUND)
                 else ret response) ;;
    v8_response_send response ;;
    v8_response_destroy response ;;
    v8_request_destroy request ;;
    sys_close sock ;;
    ret 0.

Definition signal_mask : list Z := [SIGINT; SIGQUIT; SIGTERM; SIGCHLD; SIGHUP].

Definition fmt_unblock_failed := "Unable to unblock signals: %d".

(** Never returns: every path ends in [exit]. *)
Definition v8_child_exec (sock : Z) : M unit :=
  (* Closing parent's fds *)
  v8 <- get_v8 ;;
  sys_close (sigfd v8) ;;
  set_v8 (fun v => mkV8 (sockfd v) (-1) (base_size v) (config v)
                        (dispatcher v) (actions v) (app_data v) (app_init v)) ;;
  sys_close (sockfd v8) ;;
  set_v8 (fun v => mkV8 (-1) (sigfd v) (base_size v) (config v)
                        (dispatcher v) (actions v) (app_data v) (app_init v)) ;;
  v8_dispatcher_destroy (dispatcher v8) ;;
  set_v8 (fun v => mkV8 (sockfd v) (sigfd v) (base_size v) (config v)
                        None (actions v) (app_data v) (app_init v)) ;;
  r <- sys_sigprocmask_unblock signal_mask ;;
  if r =? -1 then
    e <- get_errno ;;
    v8_log_error fmt_unblock_failed [LInt e] ;;
    exit (-1)
  else
    code <- v8_request_handler sock ;;
    exit code.

(** ** The acceptor: v8_fork, v8_handle_connection *)

Definition fmt_fork_failed := "Failed to create worker process %d".
Definition fmt_accepted := "Connection accepted".
Definition fmt_fail_fork := "Fail to fork process".
Definition fmt_fail_accept := "Fail to accept connection".

Definition v8_fork (sock : Z) : M Z :=
  pid <- sys_fork ;;
  r <- (if pid <? 0 then
          e <- get_errno ;;
          v8_log_error fmt_fork_failed [LInt e] ;;
          ret (-1)
        else if pid =? 0 then
          (* Never returns *)
          v8_child_exec sock ;;
          ret 0
        else ret 0) ;;
  (* This socket will be handled by child *)
  sys_close sock ;;
  ret r.

(** [while (newsock != -1) { ... }] *)
Fixpoint accept_loop (fuel : nat) (newsock : Z) : M unit :=
  if newsock =? -1 then ret tt
  else
    match fuel with
    | O => out_of_fuel
    | S fuel' =>
        v8 <- get_v8 ;;
        newsock <- sys_accept (sockfd v8) ;;
        (if negb (newsock =? -1) then
           v8_log_debug fmt_accepted [] ;;
           r <- v8_fork newsock ;;
           when (negb (r =? 0)) (v8_log_error fmt_fail_fork [])
         else
           e <- get_errno ;;
           when (negb (e =? EAGAIN)) (v8_log_error fmt_fail_accept [])) ;;
        accept_loop fuel' newsock
    end.

Definition v8_handle_connection (fuel : nat) (fd : Z) : M unit :=
  accept_loop fuel 0.

(** ** The signal handler: v8_handle_signal *)

Definition fmt_child_signaled := "Child signaled".
Definition fmt_wait_failed := "Failed when waiting for childs: %d".
Definition fmt_not_changed := "Child has not changed state".
Definition fmt_child_exited := "Child %i exited with code: %i".
Definition fmt_child_killed := "Child %i was terminated by signal: %i".
Definition fmt_child_stopped := "Child %i was stopped by signal: %i".
Definition fmt_child_continued := "Child %i continued it's execution".
Definition fmt_termination := "Termination signal received".
Definition fmt_reload := "Config file reload not inplemented".
Definition fmt_unexpected := "Unexpected signal arrived: %d".
Definition fmt_siginfo_failed := "Unable to get signal info: %d".

(** [while ((pid = waitpid(-1, &status, WNOHANG) > 0));]
    The comparison binds tighter than the assignment: [pid] receives the
    truth value of [waitpid(...) > 0].  Returns [pid] and [status] as the
    loop leaves them. *)
Fixpoint reap_loop (fuel : nat) (status : option Z) : M (Z * option Z) :=
  match fuel with
  | O => out_of_fuel
  | S fuel' =>
      '(w, status) <- sys_waitpid_nohang status ;;
      let pid := if w >? 0 then 1 else 0 in
      if negb (pid =? 0) then reap_loop fuel' status
      else ret (pid, status)
  end.

(** The body of [case SIGCHLD:]; reading an uninitialised [status] is
    undefined.  Returns [status]. *)
Definition handle_sigchld (fuel : nat) (status : option Z) : M (option Z) :=
  v8_log_debug fmt_child_signaled [] ;;
  '(pid, status) <- reap_loop fuel status ;;
  (if pid <? 0 then
     e <- get_errno ;;
     v8_log_error fmt_wait_failed [LInt e]
   else if pid =? 0 then
     v8_log_debug fmt_not_changed []
   else
     st <- lift_option status ;;
     if WIFEXITED st then
       v8_log_debug fmt_child_exited [LInt pid; LInt (WEXITSTATUS st)]
     else if WIFSIGNALED st then
       v8_log_error fmt_child_killed [LInt pid; LInt (WTERMSIG st)]
     else if WIFSTOPPED st then
       v8_log_error fmt_child_stopped [LInt pid; LInt (WSTOPSIG st)]
     else if WIFCONTINUED st then
       v8_log_error fmt_child_continued [LInt pid]
     else ret tt) ;;
  ret status.

(** [while (1) { sz = read(...); ... switch (siginfo.ssi_signo) ... }];
    [status] and [siginfo] are locals of the function and keep their value
    from one round to the next. *)
Fixpoint signal_loop (fuel : nat) (status : option Z) (signo : option Z) : M unit :=
  match fuel with
  | O => out_of_fuel
  | S fuel' =>
      v8 <- get_v8 ;;
      '(sz, signo) <- sys_read_siginfo (sigfd v8) signo ;;
      if negb (sz =? SIGINFO_SIZE) then
        e <- get_errno ;;
        when (negb (e =? EAGAIN)) (v8_log_error fmt_siginfo_failed [LInt e])
        (* break *)
      else
        n <- lift_option signo ;;
        status <- (if (n =? SIGINT) || (n =? SIGQUIT) || (n =? SIGTERM) then
                     v8_log_info fmt_termination [] ;;
                     v8_dispatcher_stop (dispatcher v8) ;;
                     ret status
                   else if n =? SIGCHLD then
                     handle_sigchld (S fuel') status
                   else if n =? SIGHUP then
                     v8_log_info fmt_reload [] ;;
                     ret status
                   else
                     v8_log_error fmt_unexpected [LInt n] ;;
                     ret status) ;;
        signal_loop fuel' status signo
  end.

Definition v8_handle_signal (fuel : nat) (fd : Z) : M unit :=
  signal_loop fuel None None.

(** ** Server start-up: v8_init *)

(** Modelled from the spec: v8/config.h is missing; string lookup by key
    with a default. *)
Fixpoint v8_config_str (cfg : list (string * string)) (name def : string) : string :=
  match cfg with
  | [] => def
  | (k, v) :: rest => if String.eqb k name then v else v8_config_str rest name def
  end.

(** [v8_init], given what [v8_init_socket], [v8_init_signals] and
    [v8_dispatcher_create] returned. *)
Definition v8_init (cfg : list (string * string)) (acts : list V8Action)
           (appinit : option (unit -> Z)) (sock sig : Z) (disp : option nat) : V8 :=
  mkV8 sock sig (strlen_int (v8_config_str cfg "v8.baseurl" "")) cfg disp acts 0 appinit.

(** ** Observations on states and traces *)

(** The state [s] with the kernel [k]. *)
Definition with_kernel (s : State) (k : Kernel) : State :=
  mkState (st_v8 s) (st_errno s) k (st_trace s).

(** The state [s] after the events [evs]. *)
Definition with_events (s : State) (evs : list Event) : State :=
  mkState (st_v8 s) (st_errno s) (st_kernel s) (st_trace s ++ evs).


(** The pids returned by successful [waitpid] calls, in order. *)
Fixpoint reaped_pids (tr : list Event) : list Z :=
  match tr with
  | [] => []
  | EvWaitpid r :: t => if r >? 0 then r :: reaped_pids t else reaped_pids t
  | _ :: t => reaped_pids t
  end.

(** The log entries, in order. *)
Fixpoint logs_of (tr : list Event) : list (LogLevel * string * list LogArg) :=
  match tr with
  | [] => []
  | EvLog l f a :: t => (l, f, a) :: logs_of t
  | _ :: t => logs_of t
  end.

(** A child-status record is among the records the handler reads, that
    is, before the first failing read. *)
Fixpoint sigchld_pending (q : list SigRead) : bool :=
  match q with
  | [] => false
  | SigRecord n :: q' => (n =? SIGCHLD) || sigchld_pending q'
  | SigReadFailed _ :: _ => false
  end.

Definition zombie_pids (zs : list (positive * Z)) : list Z :=
  map (fun z => Z.pos (fst z)) zs.

(** The sockets returned by successful [accept] calls, in order. *)
Fixpoint accepted_socks (tr : list Event) : list Z :=
  match tr with
  | [] => []
  | EvAccept _ r :: t => if r =? -1 then accepted_socks t else r :: accepted_socks t
  | _ :: t => accepted_socks t
  end.

(** The number of [fork] calls. *)
Fixpoint fork_calls (tr : list Event) : nat :=
  match tr with
  | [] => O
  | EvFork _ :: t => S (fork_calls t)
  | _ :: t => fork_calls t
  end.

(** The descriptors closed, in order. *)
Fixpoint closed_fds (tr : list Event) : list Z :=
  match tr with
  | [] => []
  | EvClose fd :: t => fd :: closed_fds t
  | _ :: t => closed_fds t
  end.

(** The connections pending on the listening socket. *)
Fixpoint pending_connections (q : list AcceptResult) : list Z :=
  match q with
  | [] => []
  | Accepted c :: q' => Z.of_nat c :: pending_connections q'
  | AcceptFailed _ :: q' => pending_connections q'
  end.

(** The pending connections that precede the first failing [accept]. *)
Fixpoint accepted_prefix (q : list AcceptResult) : list Z :=
  match q with
  | Accepted c :: q' => Z.of_nat c :: accepted_prefix q'
  | _ => []
  end.

(** What is left of the backlog after the first failing [accept]. *)
Fixpoint after_first_failure (q : list AcceptResult) : list AcceptResult :=
  match q with
  | [] => []
  | Accepted _ :: q' => after_first_failure q'
  | AcceptFailed _ :: q' => q'
  end.

(** No [accept] call fails while connections are pending. *)
Definition no_failure (q : list AcceptResult) : bool :=
  forallb (fun a => match a with Accepted _ => true | AcceptFailed _ => false end) q.

(** The descriptor table after closing the descriptors [cs] one by one. *)
Definition close_all (cs : list Z) (fds : list Z) : list Z :=
  fold_left (fun f c => remove_fd c f) cs fds.

(** The drain property as the specification states it: one notification
    gives one accept/fork cycle for each of the pending connections, and
    each accepted socket is closed. *)
Definition drains_backlog (s : State) (fuel : nat) : Prop :=
  exists s' tr,
    v8_handle_connection fuel (sockfd (st_v8 s)) s = (Ret tt, s') /\
    st_trace s' = st_trace s ++ tr /\
    accepted_socks tr = pending_connections (k_backlog (st_kernel s)) /\
    fork_calls tr = List.length (pending_connections (k_backlog (st_kernel s))) /\
    closed_fds tr = pending_connections (k_backlog (st_kernel s)).

(** The handlers and the filters called, by address, and the responses
    sent, in order. *)
Fixpoint handler_calls (tr : list Event) : list nat :=
  match tr with
  | [] => []
  | EvHandler h :: t => h :: handler_calls t
  | _ :: t => handler_calls t
  end.

Fixpoint filter_calls (tr : list Event) : list nat :=
  match tr with
  | [] => []
  | EvFilter f :: t => f :: filter_calls t
  | _ :: t => filter_calls t
  end.

Fixpoint sent_responses (tr : list Event) : list V8Response :=
  match tr with
  | [] => []
  | EvSend r :: t => r :: sent_responses t
  | _ :: t => sent_responses t
  end.

(** The value [waitpid] returns once no terminated child is left. *)
Definition wait_idle (k : Kernel) : Z :=
  match k_running k with [] => -1 | _ :: _ => 0 end.

(** What [v8_fork] adds to the trace in the parent. *)
Definition fork_trace (r : ForkResult) (sock : Z) : list Event :=
  match r with
  | ForkParent pid => [EvFork (Z.pos pid); EvClose sock]
  | ForkFailed e =>
      [EvFork (-1); EvLog LogError fmt_fork_failed [LInt e]; EvClose sock]
  | ForkChild => []
  end.

(** ** The router in the words of the specification *)

(** An entry matches when its method is the request's method and its
    stored path is the stripped request path. *)
Definition entry_matches (method : V8RequestMethod) (path : string)
           (a : V8Action) : Prop :=
  act_method a = method /\ act_route a = Some path.

Definition entry_matchesb (method : V8RequestMethod) (path : string)
           (a : V8Action) : bool :=
  method_eqb method (act_method a)
  && match act_route a with Some r => String.eqb path r | None => false end.

(** Scan the table in declaration order up to the sentinel; the first
    matching entry, with its index, is the candidate. *)
Fixpoint spec_first_match (method : V8RequestMethod) (path : string)
         (acts : list V8Action) (i : nat) : option (nat * V8Action) :=
  match acts with
  | [] => None
  | a :: rest =>
      if method_eqb (act_method a) V8_METHOD_UNKNOWN then None
      else if entry_matchesb method path a then Some (i, a)
      else spec_first_match method path rest (S i)
  end.

(** The index of the sentinel. *)
Fixpoint sentinel_index (acts : list V8Action) (i : nat) : option nat :=
  match acts with
  | [] => None
  | a :: rest =>
      if method_eqb (act_method a) V8_METHOD_UNKNOWN then Some i
      else sentinel_index rest (S i)
  end.

(** A table as the data model has it: terminated by a sentinel, every
    entry before the sentinel with a handler. *)
Fixpoint table_ok (acts : list V8Action) : bool :=
  match acts with
  | [] => false
  | a :: rest =>
      if method_eqb (act_method a) V8_METHOD_UNKNOWN then true
      else match act_handler a with
           | Some _ => table_ok rest
           | None => false
           end
  end.

(** The handler the specification prescribes for a candidate and a
    request: the handler the candidate's filter returns for the request,
    when it has a filter and the filter returns one; else its main
    handler. *)
Definition spec_handler (a : V8Action) (request : V8Request) : option V8Handler :=
  match act_filter a with
  | Some f =>
      match f_code f request with
      | Some fh => Some fh
      | None => act_handler a
      end
  | None => act_handler a
  end.

(** The determinism of the router as the specification states it: with
    the table fixed, two requests with the same method and path have the
    same handler invoked. *)
Definition same_handler_routing (s : State) : Prop :=
  forall (request1 request2 : V8Request) (response : V8Response),
    req_method request1 = req_method request2 ->
    req_route request1 = req_route request2 ->
    handler_calls
      (st_trace (snd (route_loop (actions (st_v8 s)) 0 request1 response s)))
    = handler_calls
        (st_trace (snd (route_loop (actions (st_v8 s)) 0 request2 response s))).

(** ** The worker and the resources of its parent *)

(** The event is a call on the listening socket [lfd], on the signal
    descriptor [sfd] or on the dispatcher. *)
Definition parent_only (lfd sfd : Z) (e : Event) : bool :=
  match e with
  | EvAccept fd _ | EvClose fd | EvReadSignal fd _ => (fd =? lfd) || (fd =? sfd)
  | EvDispatcherStop _ | EvDispatcherDestroy _ => true
  | _ => false
  end.

Definition is_scgi_read (e : Event) : bool :=
  match e with EvScgiRead _ _ => true | _ => false end.

(** What the worker does first: the trace of its teardown, with [u] the
    result of unblocking the signals. *)
Definition teardown_trace (v8 : V8) (u : Z) : list Event :=
  [EvClose (sigfd v8); EvClose (sockfd v8);
   EvDispatcherDestroy (dispatcher v8); EvSigUnblock u].

(** The worker's state after a teardown that succeeded. *)
Definition torn_down (s : State) : State :=
  mkState (mkV8 (-1) (-1) (base_size (st_v8 s)) (config (st_v8 s)) None
                (actions (st_v8 s)) (app_data (st_v8 s)) (app_init (st_v8 s)))
          (st_errno s)
          (mkKernel (k_backlog (st_kernel s)) (k_fork (st_kernel s))
                    (k_nfork (st_kernel s)) (k_sigq (st_kernel s))
                    (k_zombies (st_kernel s)) (k_running (st_kernel s))
                    (k_sigunblock (st_kernel s))
                    (filter (fun sg => negb (existsb (Z.eqb sg) signal_mask))
                            (k_blocked (st_kernel s)))
                    (k_scgi (st_kernel s))
                    (remove_fd (sockfd (st_v8 s))
                               (remove_fd (sigfd (st_v8 s)) (k_fds (st_kernel s)))))
          (st_trace s ++ teardown_trace (st_v8 s) 0).

(** What a step of the worker after its teardown keeps: it adds to the
    trace no call on the parent's listening socket [lfd], signal descriptor
    [sfd] or dispatcher, opens no descriptor, and leaves the descriptors of
    the server structure and the signal mask as they are. *)
Definition worker_step (lfd sfd : Z) (s s' : State) : Prop :=
  (exists tr, st_trace s' = st_trace s ++ tr /\
              Forall (fun e => parent_only lfd sfd e = false) tr) /\
  incl (k_fds (st_kernel s')) (k_fds (st_kernel s)) /\
  sockfd (st_v8 s') = sockfd (st_v8 s) /\
  sigfd (st_v8 s') = sigfd (st_v8 s) /\
  dispatcher (st_v8 s') = dispatcher (st_v8 s) /\
  k_blocked (st_kernel s') = k_blocked (st_kernel s).

Definition keeps (lfd sfd : Z) {A} (m : M A) : Prop :=
  forall s, worker_step lfd sfd s (snd (m s)).

(** The worker's state once it has read the request, run the initializer
    and logged the request. *)
Definition app_init_trace (v8 : V8) : list Event :=
  match app_init v8 with Some _ => [EvAppInit] | None => [] end.

Definition after_read (s : State) (sock r : Z) (request : V8Request)
           (path : string) : State :=
  mkState (match app_init (st_v8 s) with
           | Some init =>
               mkV8 (sockfd (st_v8 s)) (sigfd (st_v8 s)) (base_size (st_v8 s))
                    (config (st_v8 s)) (dispatcher (st_v8 s)) (actions (st_v8 s))
                    (init tt) (app_init (st_v8 s))
           | None => st_v8 s
           end)
          (st_errno s) (st_kernel s)
          (st_trace s ++ EvScgiRead sock r :: app_init_trace (st_v8 s)
             ++ [EvLog LogDebug fmt_request_received
                       [LMethod (req_method request); LStr path]]).

(** The worker's state once it has sent the response, after the events
    [evs], and closed the connection. *)
Definition after_send (s : State) (sock : Z) (evs : list Event) : State :=
  mkState (st_v8 s) (st_errno s)
          (set_fds (st_kernel s) (remove_fd sock (k_fds (st_kernel s))))
          (st_trace s ++ evs ++ [EvResponseDestroy; EvRequestDestroy; EvClose sock]).

(** ** Example server *)

Definition pong_handler : V8Handler :=
  mkHandler 1 (fun _ r => mkResponse (resp_sock r) (resp_status r) "pong").
Definition admin_handler : V8Handler :=
  mkHandler 2 (fun _ r => mkResponse (resp_sock r) (resp_status r) "admin area").
Definition unauthorized_handler : V8Handler :=
  mkHandler 3 (fun _ r => mkResponse (resp_sock r) 401 "").

Fixpoint has_param (name : string) (ps : list (string * string)) : bool :=
  match ps with
  | [] => false
  | (k, _) :: rest => String.eqb k name || has_param name rest
  end.

Definition auth_filter : V8Filter :=
  mkFilter 10 (fun req => if has_param "token" (req_params req) then None
                          else Some unauthorized_handler).

Definition sentinel : V8Action := mkAction V8_METHOD_UNKNOWN (Some "") None None.

Definition demo_actions : list V8Action :=
  [ mkAction V8_METHOD_GET (Some "/ping") (Some pong_handler) None;
    mkAction V8_METHOD_GET None (Some admin_handler) None;
    mkAction V8_METHOD_GET (Some "/admin") (Some admin_handler) (Some auth_filter);
    mkAction V8_METHOD_GET (Some "/ping") (Some admin_handler) None;
    sentinel ].

Definition demo_config : list (string * string) := [("v8.baseurl", "/app")].

Definition demo_v8 : V8 := v8_init demo_config demo_actions None 3 4 (Some O).

Definition demo_kernel : Kernel :=
  mkKernel [] (fun n => ForkParent (Pos.of_succ_nat n)) 0 [] [] []
           None signal_mask (0, mkRequest V8_METHOD_GET "/app/ping" []) [3; 4].

Definition demo_state : State := mkState demo_v8 0 demo_kernel [].

(** The same server, the worker having to read the request [req]. *)
Definition request_state (req : V8Request) : State :=
  with_kernel demo_state
    (mkKernel [] (k_fork demo_kernel) 0 [] [] [] None signal_mask (0, req) [3; 4; 5]).

Definition ping_request : V8Request := mkRequest V8_METHOD_GET "/app/ping" [].
Definition missing_request : V8Request := mkRequest V8_METHOD_GET "/app/missing" [].
Definition admin_request : V8Request := mkRequest V8_METHOD_GET "/app/admin" [].
Definition admin_token_request : V8Request :=
  mkRequest V8_METHOD_GET "/app/admin" [("token", "secret")].

(** The worker of a connection whose request cannot be read. *)
Definition broken_request_state : State :=
  with_kernel demo_state
    (mkKernel [] (k_fork demo_kernel) 0 [] [] [] None signal_mask
              (-1, v8_request_create) [3; 4; 5]).

(** The worker of the connection on descriptor 5, about to run. *)
Definition worker_state : State := request_state ping_request.

(** Three children have terminated, one is running; one child-status
    record and a hang-up record are pending. *)
Definition three_zombies_state : State :=
  with_kernel demo_state
    (set_sigq (set_children demo_kernel 0
                 [(7%positive, 0); (8%positive, 768); (9%positive, 9)]
                 [11%positive])
              [SigRecord SIGCHLD; SigRecord SIGHUP]).

(** One child, pid 4321, has called exit(3); its child-status record is
    pending. *)
Definition exited_child_state : State :=
  with_kernel demo_state
    (set_sigq (set_children demo_kernel 0 [(4321%positive, 768)] [])
              [SigRecord SIGCHLD]).

(** Two connections are pending; the first was aborted by its peer, so
    that accept fails on it with ECONNABORTED. *)
Definition aborted_state : State :=
  with_kernel demo_state
    (set_backlog demo_kernel [AcceptFailed ECONNABORTED; Accepted 7] [3; 4]).

(** Three connections are pending; the second fork fails. *)
Definition busy_state : State :=
  with_kernel demo_state
    (mkKernel [Accepted 7; Accepted 8; Accepted 9]
              (fun n => if Nat.eqb n 1 then ForkFailed EAGAIN
                        else ForkParent (Pos.of_succ_nat n))
              0 [] [] [] None signal_mask (k_scgi demo_kernel) [3; 4]).

(** * The rest of the server *)

(** ** More observations *)

(** The calls of [v8_dispatcher_stop]. *)
Fixpoint stop_calls (tr : list Event) : nat :=
  match tr with
  | [] => O
  | EvDispatcherStop _ :: t => S (stop_calls t)
  | _ :: t => stop_calls t
  end.

(** The calls of the application-data initializer. *)
Fixpoint app_init_calls (tr : list Event) : nat :=
  match tr with
  | [] => O
  | EvAppInit :: t => S (app_init_calls t)
  | _ :: t => app_init_calls t
  end.

(** The calls that destroy the request or the response. *)
Fixpoint destroy_calls (tr : list Event) : nat :=
  match tr with
  | [] => O
  | EvResponseDestroy :: t | EvRequestDestroy :: t => S (destroy_calls t)
  | _ :: t => destroy_calls t
  end.

(** The error messages logged. *)
Fixpoint error_logs (tr : list Event) : list string :=
  match tr with
  | [] => []
  | EvLog LogError f _ :: t => f :: error_logs t
  | _ :: t => error_logs t
  end.

(** Of [count] fork calls, from the [n]-th on: the children they create,
    and the error messages the acceptor logs for those that fail. *)
Fixpoint spawned (fk : nat -> ForkResult) (n count : nat) : list positive :=
  match count with
  | O => []
  | S c =>
      match fk n with
      | ForkParent pid => pid :: spawned fk (S n) c
      | _ => spawned fk (S n) c
      end
  end.

Fixpoint fork_errors (fk : nat -> ForkResult) (n count : nat) : list string :=
  match count with
  | O => []
  | S c =>
      match fk n with
      | ForkFailed _ => fmt_fork_failed :: fmt_fail_fork :: fork_errors fk (S n) c
      | _ => fork_errors fk (S n) c
      end
  end.

(** The error message for the accept call that ends the loop: none when
    it would block. *)
Fixpoint stop_error (q : list AcceptResult) : list string :=
  match q with
  | [] => []
  | Accepted _ :: q' => stop_error q'
  | AcceptFailed e :: _ => if e =? EAGAIN then [] else [fmt_fail_accept]
  end.

(** The signal is one of those the handler takes as a request to stop. *)
Definition is_termination (n : Z) : bool :=
  (n =? SIGINT) || (n =? SIGQUIT) || (n =? SIGTERM).

(** The signal numbers of the records the handler reads: those before the
    first failing read. *)
Fixpoint read_prefix (q : list SigRead) : list Z :=
  match q with
  | SigRecord n :: q' => n :: read_prefix q'
  | _ => []
  end.

(** What is left to read after the first failing read. *)
Fixpoint after_failed_read (q : list SigRead) : list SigRead :=
  match q with
  | [] => []
  | SigRecord _ :: q' => after_failed_read q'
  | SigReadFailed _ :: q' => q'
  end.

(** What the signal handler leaves alone. *)
Definition same_server (s s' : State) : Prop :=
  st_v8 s' = st_v8 s /\
  k_backlog (st_kernel s') = k_backlog (st_kernel s) /\
  k_nfork (st_kernel s') = k_nfork (st_kernel s) /\
  k_running (st_kernel s') = k_running (st_kernel s) /\
  k_blocked (st_kernel s') = k_blocked (st_kernel s) /\
  k_fds (st_kernel s') = k_fds (st_kernel s).

(** The event is a call a worker makes to handle its request. *)
Definition request_call (e : Event) : bool :=
  match e with
  | EvLog _ _ _ | EvScgiRead _ _ | EvAppInit | EvFilter _ | EvHandler _
  | EvSend _ | EvResponseDestroy | EvRequestDestroy | EvClose _ => true
  | _ => false
  end.

(** The event is a call of the routing loop. *)
Definition routing_call (e : Event) : bool :=
  match e with
  | EvFilter _ | EvHandler _ => true
  | _ => false
  end.

(** A step of a worker that handles its request: only request calls, and
    the control plane of the kernel (backlog, fork counter, signal records,
    children, signal mask) as it was. *)
Definition request_step (s s' : State) : Prop :=
  (exists tr, st_trace s' = st_trace s ++ tr /\ forallb request_call tr = true) /\
  k_backlog (st_kernel s') = k_backlog (st_kernel s) /\
  k_nfork (st_kernel s') = k_nfork (st_kernel s) /\
  k_sigq (st_kernel s') = k_sigq (st_kernel s) /\
  k_zombies (st_kernel s') = k_zombies (st_kernel s) /\
  k_running (st_kernel s') = k_running (st_kernel s) /\
  k_blocked (st_kernel s') = k_blocked (st_kernel s).

Definition handles_request {A} (m : M A) : Prop :=
  forall s, request_step s (snd (m s)).

(** ** Accessors of the global server: v8_app_data *)

(** [v8_app_data()], once [v8_init] has stored the server in [g_v8]. *)
Definition v8_app_data : M Z :=
  v8 <- get_v8 ;;
  ret (app_data v8).

(** ** v8_start *)

Definition EINTR : Z := 4.

(** [wait(&status)]: blocks until a child has terminated.  With no child
    left it fails with ECHILD.  Children that have terminated already are
    reported first; a running child [pid] terminates, when waited for, with
    the status [status_of pid].  A call that has a child to wait for may
    fail instead, interrupted by a signal: [intr] is the errno of that
    failure (EINTR), if the call is interrupted. *)
Definition sys_wait (status_of : positive -> Z) (intr : option Z)
           (status : option Z) : M (Z * option Z) :=
  r <- syscall (fun k =>
         match k_zombies k with
         | (pid, st) :: zs =>
             match intr with
             | Some e => ((-1, status), Some e, k)
             | None =>
                 ((Z.pos pid, Some st), None,
                  set_children k (k_nfork k) zs (k_running k))
             end
         | [] =>
             match k_running k with
             | pid :: rs =>
                 match intr with
                 | Some e => ((-1, status), Some e, k)
                 | None =>
                     ((Z.pos pid, Some (status_of pid)), None,
                      set_children k (k_nfork k) [] rs)
                 end
             | [] => ((-1, status), Some ECHILD, k)
             end
         end) ;;
  emit (EvWaitpid (fst r)) ;;
  ret r.

(** [while ((pid = wait(&status) > 0));]  The [n]-th call of [wait] is
    interrupted as [intr n] tells. *)
Fixpoint wait_loop (status_of : positive -> Z) (intr : nat -> option Z)
         (fuel n : nat) (status : option Z) : M (Z * option Z) :=
  match fuel with
  | O => out_of_fuel
  | S fuel' =>
      '(w, status) <- sys_wait status_of (intr n) status ;;
      let pid := if w >? 0 then 1 else 0 in
      if negb (pid =? 0) then wait_loop status_of intr fuel' (S n) status
      else ret (pid, status)
  end.

(** The callbacks of this file that a listener may hold. *)
Inductive Callback : Type :=
| cb_handle_connection
| cb_handle_socket_error
| cb_handle_signal
| cb_handle_signal_error.

(** [V8Listener]; [data] is the server and is left out. *)
Record V8Listener : Type := mkListener {
  input_handler : option Callback;
  output_handler : option Callback;
  closed_handler : option Callback;
  error_handler : option Callback;
  hangup_handler : option Callback;
  destructor : option Callback
}.

Definition v8_connection_listener_init : V8Listener :=
  mkListener (Some cb_handle_connection) None None
             (Some cb_handle_socket_error) None None.

Definition v8_signal_listener_init : V8Listener :=
  mkListener (Some cb_handle_signal) None None
             (Some cb_handle_signal_error) None None.

Definition fmt_waiting_connections := "Waiting for connections".
Definition fmt_waiting_children := "Wainting childs to terminate".
Definition fmt_start_wait_failed := "Failed when waiting for childs: %d".
Definition fmt_shutting_down := "V8 shutting down".

(** The first half of [v8_start], up to the return of the dispatcher.  The
    dispatcher is another file: what its calls do is a parameter. *)
Definition v8_start_serve
           (add_listener : option nat -> Z -> V8Listener -> M unit)
           (dispatcher_start : option nat -> M unit) : M unit :=
  v8 <- get_v8 ;;
  add_listener (dispatcher v8) (sockfd v8) v8_connection_listener_init ;;
  add_listener (dispatcher v8) (sigfd v8) v8_signal_listener_init ;;
  v8_log_debug fmt_waiting_connections [] ;;
  dispatcher_start (dispatcher v8).

(** The second half of [v8_start]: the final wait for the children. *)
Definition v8_start_shutdown (status_of : positive -> Z) (intr : nat -> option Z)
           (fuel : nat) : M Z :=
  v8_log_info fmt_waiting_children [] ;;
  '(pid, status) <- wait_loop status_of intr fuel 0 None ;;
  e <- get_errno ;;
  when ((pid <? 0) && negb (e =? ECHILD))
       (v8_log_error fmt_start_wait_failed [LInt e]) ;;
  v8_log_info fmt_shutting_down [] ;;
  ret 0.

Definition v8_start (status_of : positive -> Z) (intr : nat -> option Z)
           (add_listener : option nat -> Z -> V8Listener -> M unit)
           (dispatcher_start : option nat -> M unit) (fuel : nat) : M Z :=
  v8_start_serve add_listener dispatcher_start ;;
  v8_start_shutdown status_of intr fuel.

(** Of the children [pids], in the order in which [wait] reports them,
    those waited for before the first interrupted call, calls counted from
    [n]; and the errno of the call that ends the wait. *)
Fixpoint waited (intr : nat -> option Z) (n : nat) (pids : list Z) : list Z :=
  match pids with
  | [] => []
  | p :: ps =>
      match intr n with
      | Some _ => []
      | None => p :: waited intr (S n) ps
      end
  end.

Fixpoint wait_errno (intr : nat -> option Z) (n : nat) (pids : list Z) : Z :=
  match pids with
  | [] => ECHILD
  | _ :: ps =>
      match intr n with
      | Some e => e
      | None => wait_errno intr (S n) ps
      end
  end.

(** ** Start-up: v8_set_nonblocking, v8_init_socket, v8_init_signals, v8_init

    The start-up code is straight-line code over system calls.  What each
    call returns is given by the environment; the functions return their
    result and the calls they made, in order. *)

(** The values of Linux: 04000, one bit. *)
Definition O_NONBLOCK : Z := 2048.
Definition SFD_NONBLOCK : Z := 2048.

Record SetupEnv : Type := mkSetupEnv {
  e_malloc : bool;          (* malloc returns a block *)
  e_getaddrinfo : Z;        (* 0, or an error code *)
  e_socket : Z;             (* the descriptor, or -1 *)
  e_setsockopt : Z;
  e_getfl : Z;              (* fcntl(F_GETFL): the flags, or -1 *)
  e_setfl : Z;              (* fcntl(F_SETFL) *)
  e_bind : Z;
  e_listen : Z;
  e_sigprocmask : Z;
  e_signalfd : Z;           (* the descriptor, or -1 *)
  e_dispatcher : option nat; (* v8_dispatcher_create *)
  e_errno : Z               (* errno after a failing call *)
}.

Inductive SetupCall : Type :=
| CGetaddrinfo (node port : string) (ret : Z)
| CSocket (ret : Z)
| CSetsockopt (fd : Z) (ret : Z)
| CFcntlGet (fd : Z) (ret : Z)
| CFcntlSet (fd : Z) (flags : Z) (ret : Z)
| CBind (fd : Z) (ret : Z)
| CFreeaddrinfo
| CListen (fd : Z) (ret : Z)
| CClose (fd : Z)
| CSigBlock (mask : list Z) (ret : Z)
| CSignalfd (mask : list Z) (flags : Z) (ret : Z)
| CLogError (fmt : string) (args : list Z)
| CLogLevel (level : string)
| CDispatcherCreate.

Definition fmt_getfl_failed := "Failed to get fd flags".
Definition fmt_setfl_failed := "Failed to set nonblock on fd".
Definition fmt_listen_failed := "Failed to listen socket".
Definition fmt_block_failed := "Unable to block signals: %d".
Definition fmt_signalfd_failed := "Unable to create signalfd: %d".

Definition v8_set_nonblocking (env : SetupEnv) (fd : Z) : Z * list SetupCall :=
  let flags := e_getfl env in
  if flags =? -1 then
    (-1, [CFcntlGet fd flags; CLogError fmt_getfl_failed []])
  else
    let flags' := e_setfl env in
    if flags' =? -1 then
      (-1, [CFcntlGet fd flags; CFcntlSet fd (Z.lor flags O_NONBLOCK) flags';
            CLogError fmt_setfl_failed []])
    else
      (0, [CFcntlGet fd flags; CFcntlSet fd (Z.lor flags O_NONBLOCK) flags']).

(** The pointer [res]: NULL, the list [getaddrinfo] made, or that list
    after [freeaddrinfo], which leaves the pointer as it is. *)
Inductive ResPtr : Type := ResNull | ResList | ResFreed.

(** The label [cleanup:] of [v8_init_socket].  Freeing a list that has been
    freed already is undefined: the function does not get past that call. *)
Definition socket_cleanup (res : ResPtr) (sock : Z) : Res Z * list SetupCall :=
  match res with
  | ResNull => (Ret (-1), [CClose sock])
  | ResList => (Ret (-1), [CFreeaddrinfo; CClose sock])
  | ResFreed => (Undef, [CFreeaddrinfo])
  end.

(** A result after the calls [cs]. *)
Definition after_calls {A} (cs : list SetupCall) (r : A * list SetupCall)
  : A * list SetupCall :=
  (fst r, cs ++ snd r).

(** [getaddrinfo] leaves [res] NULL when it fails. *)
Definition v8_init_socket (cfg : list (string * string)) (env : SetupEnv)
  : Res Z * list SetupCall :=
  let node := v8_config_str cfg "v8.listen" "127.0.0.1" in
  let port := v8_config_str cfg "v8.port" "4900" in
  let c1 := [CGetaddrinfo node port (e_getaddrinfo env)] in
  if negb (e_getaddrinfo env =? 0) then
    after_calls c1 (socket_cleanup ResNull (-1))
  else
    (* Create the socket *)
    let sock := e_socket env in
    let c2 := c1 ++ [CSocket sock] in
    if sock =? -1 then after_calls c2 (socket_cleanup ResList sock)
    else
      (* Enable the socket to reuse the address *)
      let c3 := c2 ++ [CSetsockopt sock (e_setsockopt env)] in
      if e_setsockopt env =? -1 then after_calls c3 (socket_cleanup ResList sock)
      else
        let nb := v8_set_nonblocking env sock in
        let c4 := c3 ++ snd nb in
        if fst nb =? -1 then after_calls c4 (socket_cleanup ResList sock)
        else
          (* Bind to the address *)
          let c5 := c4 ++ [CBind sock (e_bind env)] in
          if e_bind env =? -1 then after_calls c5 (socket_cleanup ResList sock)
          else
            (* freeaddrinfo(res) leaves res as it is *)
            let c6 := c5 ++ [CFreeaddrinfo; CListen sock (e_listen env)] in
            if e_listen env =? -1 then
              after_calls (c6 ++ [CLogError fmt_listen_failed []])
                          (socket_cleanup ResFreed sock)
            else (Ret sock, c6).

(** [v8_init_signals], from the signal mask [blocked] of the process: the
    result, the mask afterwards, the calls. *)
Definition v8_init_signals (env : SetupEnv) (blocked : list Z)
  : Z * list Z * list SetupCall :=
  let mask := [SIGINT; SIGQUIT; SIGTERM; SIGCHLD; SIGHUP] in
  let r := e_sigprocmask env in
  if r =? -1 then
    (-1, blocked, [CSigBlock mask r; CLogError fmt_block_failed [e_errno env]])
  else
    let blocked' := mask ++ blocked in
    let sigfd := e_signalfd env in
    if sigfd =? -1 then
      (-1, blocked',
       [CSigBlock mask r; CSignalfd mask SFD_NONBLOCK sigfd;
        CLogError fmt_signalfd_failed [e_errno env]])
    else
      (sigfd, blocked', [CSigBlock mask r; CSignalfd mask SFD_NONBLOCK sigfd]).

(** The whole of [v8_init]: NULL ([None]) when malloc fails; else the
    structure [v8_init] builds from what the two initialisations and
    [v8_dispatcher_create] returned.  When [v8_init_socket] is undefined,
    so is [v8_init], which does not get past that call. *)
Definition v8_init_proc (cfg : list (string * string)) (acts : list V8Action)
           (appinit : option (unit -> Z)) (env : SetupEnv) (blocked : list Z)
  : Res (option V8) * list Z * list SetupCall :=
  if e_malloc env then
    let so := v8_init_socket cfg env in
    match fst so with
    | Ret sock =>
        let si := v8_init_signals env blocked in
        (Ret (Some (v8_init cfg acts appinit sock (fst (fst si)) (e_dispatcher env))),
         snd (fst si),
         snd so ++ snd si
           ++ [CLogLevel (v8_config_str cfg "v8.log.level" "warning");
               CDispatcherCreate])
    | _ => (Undef, blocked, snd so)
    end
  else (Ret None, blocked, []).

(** Observations on the calls of the start-up. *)
Fixpoint setup_closes (cs : list SetupCall) : list Z :=
  match cs with
  | [] => []
  | CClose fd :: t => fd :: setup_closes t
  | _ :: t => setup_closes t
  end.

Fixpoint setup_frees (cs : list SetupCall) : nat :=
  match cs with
  | [] => O
  | CFreeaddrinfo :: t => S (setup_frees t)
  | _ :: t => setup_frees t
  end.

Fixpoint setup_logs (cs : list SetupCall) : list string :=
  match cs with
  | [] => []
  | CLogError f _ :: t => f :: setup_logs t
  | _ :: t => setup_logs t
  end.

(** The calls of [v8_init_socket] that can fail, in the order in which they
    are made, and the first of them that fails in an environment. *)
Inductive SocketStep : Type :=
| StGetaddrinfo | StSocket | StSetsockopt | StGetfl | StSetfl | StBind | StListen.

Definition first_failure (env : SetupEnv) : option SocketStep :=
  if negb (e_getaddrinfo env =? 0) then Some StGetaddrinfo
  else if e_socket env =? -1 then Some StSocket
  else if e_setsockopt env =? -1 then Some StSetsockopt
  else if e_getfl env =? -1 then Some StGetfl
  else if e_setfl env =? -1 then Some StSetfl
  else if e_bind env =? -1 then Some StBind
  else if e_listen env =? -1 then Some StListen
  else None.

(** An environment in which every call of the start-up succeeds. *)
Definition good_env : SetupEnv :=
  mkSetupEnv true 0 3 0 2 0 0 0 0 4 (Some O) 0.

(** The same, but for [listen], which fails. *)
Definition listen_fails_env : SetupEnv :=
  mkSetupEnv true 0 3 0 2 0 0 (-1) 0 4 (Some O) 98.

(** The same, but for [bind], which fails. *)
Definition bind_fails_env : SetupEnv :=
  mkSetupEnv true 0 3 0 2 0 (-1) 0 0 4 (Some O) 98.

(** ** More example states *)

(** Pending on the signal descriptor: hang-up, terminate, an unexpected
    signal, interrupt, then a read that fails with EIO (5), then one more
    terminate. *)
Definition mixed_signals_state : State :=
  with_kernel demo_state
    (set_sigq demo_kernel
              [SigRecord SIGHUP; SigRecord SIGTERM; SigRecord 99;
               SigRecord SIGINT; SigReadFailed 5; SigRecord SIGTERM]).

(** The example server with an application-data initializer. *)
Definition init_state : State :=
  mkState (v8_init demo_config demo_actions (Some (fun _ => 77)) 3 4 (Some O))
          0
          (mkKernel [] (k_fork demo_kernel) 0 [] [] [] None signal_mask
                    (0, ping_request) [3; 4; 5])
          [].

(** A table whose matching entry has a filter but no handler. *)
Definition guarded_actions : list V8Action :=
  [ mkAction V8_METHOD_GET (Some "/admin") None (Some auth_filter); sentinel ].

(** Two connections are pending and the process is the child of its first
    fork. *)
Definition child_state : State :=
  with_kernel demo_state
    (mkKernel [Accepted 5; Accepted 6] (fun _ => ForkChild) 0 [] [] [] None
              signal_mask (0, ping_request) [3; 4]).

(** The server after its dispatcher returned, with one terminated child
    and two still running. *)
Definition stopping_state : State :=
  with_kernel demo_state
    (set_children demo_kernel 3 [(7%positive, 0)] [8%positive; 9%positive]).

(** Two connections are pending ahead of one aborted by its peer, and one
    more behind it; the second fork fails. *)
Definition crowded_state : State :=
  with_kernel demo_state
    (mkKernel [Accepted 7; Accepted 8; AcceptFailed ECONNABORTED; Accepted 9]
              (fun n => if Nat.eqb n 1 then ForkFailed EAGAIN
                        else ForkParent (Pos.of_succ_nat n))
              0 [] [] [] None signal_mask (k_scgi demo_kernel) [3; 4]).

(** * Properties *)

(** ** The example server at work *)

Example ping_is_answered :
  exists s',
    v8_child_exec 5 (request_state ping_request) = (Exit 0, s') /\
    handler_calls (st_trace s') = [h_addr pong_handler] /\
    sent_responses (st_trace s') = [mkResponse 5 V8_STATUS_OK "pong"].
Proof. eexists. split; [vm_compute; reflexivity|]. split; reflexivity. Qed.

Example admin_with_token_runs_main :
  exists s',
    v8_child_exec 5 (request_state admin_token_request) = (Exit 0, s') /\
    filter_calls (st_trace s') = [f_addr auth_filter] /\
    handler_calls (st_trace s') = [h_addr admin_handler] /\
    sent_responses (st_trace s') = [mkResponse 5 V8_STATUS_OK "admin area"].
Proof. eexists. split; [vm_compute; reflexivity|]. repeat split; reflexivity. Qed.

Example short_path_is_undefined :
  fst (v8_child_exec 5 (request_state (mkRequest V8_METHOD_GET "/a" []))) = Undef.
Proof. reflexivity. Qed.

(** ** Basic facts *)

Lemma method_eqb_eq (a b : V8RequestMethod) : method_eqb a b = true <-> a = b.
Proof. destruct a, b; simpl; split; intros H; try reflexivity; discriminate. Qed.


Lemma strcmp_zero (a b : string) : strcmp a b = 0 <-> a = b.
Proof.
  revert b; induction a as [|c a IH]; intros [|d b]; simpl;
    try (split; intros H; (reflexivity || discriminate)).
  destruct (Ascii.eqb_spec c d) as [->|Hcd].
  - rewrite IH. split; intros H; [subst; reflexivity | inversion H; reflexivity].
  - split.
    + destruct (N_of_ascii c <? N_of_ascii d)%N; discriminate.
    + intros H; inversion H; contradiction.
Qed.

Lemma strcmp_eqb (a b : string) : (strcmp a b =? 0) = String.eqb a b.
Proof.
  destruct (String.eqb_spec a b) as [->|Hne].
  - apply Z.eqb_eq, strcmp_zero; reflexivity.
  - apply Z.eqb_neq. intros H. apply Hne, strcmp_zero, H.
Qed.

Lemma app_cons_assoc {A} (l : list A) (x : A) (r : list A) :
  (l ++ [x]) ++ r = l ++ x :: r.
Proof. rewrite <- app_assoc. reflexivity. Qed.

Ltac list_norm :=
  repeat (rewrite <- app_assoc || rewrite <- app_comm_cons
          || rewrite app_nil_r || rewrite app_nil_l).

Ltac list_norm_in H :=
  repeat (rewrite <- app_assoc in H || rewrite <- app_comm_cons in H
          || rewrite app_nil_r in H || rewrite app_nil_l in H).

Lemma reaped_pids_app (t1 t2 : list Event) :
  reaped_pids (t1 ++ t2) = reaped_pids t1 ++ reaped_pids t2.
Proof.
  induction t1 as [|e t1 IH]; simpl; [reflexivity|].
  destruct e; try exact IH.
  destruct (ret0 >? 0); simpl; rewrite IH; reflexivity.
Qed.

Lemma reaped_pids_zombies (zs : list (positive * Z)) :
  reaped_pids (map EvWaitpid (zombie_pids zs)) = zombie_pids zs.
Proof.
  induction zs as [|[pid st] zs IH]; [reflexivity|].
  change (Z.pos pid :: reaped_pids (map EvWaitpid (zombie_pids zs))
          = Z.pos pid :: zombie_pids zs).
  rewrite IH. reflexivity.
Qed.

Lemma logs_of_app (t1 t2 : list Event) :
  logs_of (t1 ++ t2) = logs_of t1 ++ logs_of t2.
Proof.
  induction t1 as [|e t1 IH]; simpl; [reflexivity|].
  destruct e; simpl; rewrite ?IH; reflexivity.
Qed.

Lemma logs_of_waitpids (l : list Z) : logs_of (map EvWaitpid l) = [].
Proof. induction l; simpl; auto. Qed.

(** ** The signal handler *)

(** The reaping loop returns, having waited for every terminated child;
    it leaves [pid] at 0. *)
Lemma reap_loop_run : forall zs s fuel status,
  k_zombies (st_kernel s) = zs -> (List.length zs < fuel)%nat ->
  exists st' e',
    reap_loop fuel status s =
    (Ret (0, st'),
     mkState (st_v8 s) e'
             (set_children (st_kernel s) (k_nfork (st_kernel s)) []
                           (k_running (st_kernel s)))
             (st_trace s ++ map EvWaitpid (zombie_pids zs)
                ++ [EvWaitpid (wait_idle (st_kernel s))])).
Proof.
  induction zs as [|[pid st] zs IH]; intros s fuel status Hz Hf;
    destruct s as [v e [bl fk nf sq zs0 rs su b sc fds] tr];
    simpl in Hz; subst zs0; (destruct fuel as [|fuel]; [simpl in Hf; lia|]).
  - destruct rs as [|r rs]; cbn; eexists; eexists; reflexivity.
  - cbn.
    edestruct (IH (mkState v e (mkKernel bl fk nf sq zs rs su b sc fds)
                           (tr ++ [EvWaitpid (Z.pos pid)])) fuel (Some st))
      as (st' & e' & Hrun); [reflexivity | simpl in Hf; lia |].
    cbn in Hrun. rewrite app_cons_assoc in Hrun.
    exists st', e'. exact Hrun.
Qed.

(** The child-status branch: whatever the number of children it reaps, it
    logs two fixed debug lines. *)
Lemma handle_sigchld_run : forall s fuel status,
  (List.length (k_zombies (st_kernel s)) < fuel)%nat ->
  exists st' e',
    handle_sigchld fuel status s =
    (Ret st',
     mkState (st_v8 s) e'
             (set_children (st_kernel s) (k_nfork (st_kernel s)) []
                           (k_running (st_kernel s)))
             (st_trace s
                ++ EvLog LogDebug fmt_child_signaled []
                :: map EvWaitpid (zombie_pids (k_zombies (st_kernel s)))
                ++ [EvWaitpid (wait_idle (st_kernel s));
                    EvLog LogDebug fmt_not_changed []])).
Proof.
  intros s fuel status Hf.
  destruct (reap_loop_run (k_zombies (st_kernel s))
              (mkState (st_v8 s) (st_errno s) (st_kernel s)
                       (st_trace s ++ [EvLog LogDebug fmt_child_signaled []]))
              fuel status eq_refl Hf) as (st' & e' & Hrun).
  exists st', e'.
  unfold handle_sigchld, bind, v8_log_debug, emit at 1.
  cbn in Hrun |- *. rewrite Hrun. cbn. unfold ret.
  list_norm. reflexivity.
Qed.

Lemma reaped_pids_idle (k : Kernel) (t : list Event) :
  reaped_pids (EvWaitpid (wait_idle k) :: t) = reaped_pids t.
Proof. unfold wait_idle. destruct (k_running k); reflexivity. Qed.

Arguments zombie_pids : simpl never.
Arguments wait_idle : simpl never.

(** The read loop of the handler returns; if a child-status record is
    among those it reads, every terminated child is waited for. *)
Lemma signal_loop_run : forall sq s fuel status signo,
  k_sigq (st_kernel s) = sq ->
  (List.length sq + List.length (k_zombies (st_kernel s)) < fuel)%nat ->
  exists s' tr,
    signal_loop fuel status signo s = (Ret tt, s') /\
    st_trace s' = st_trace s ++ tr /\
    reaped_pids tr = (if sigchld_pending sq
                      then zombie_pids (k_zombies (st_kernel s)) else []) /\
    k_zombies (st_kernel s') = (if sigchld_pending sq then []
                                else k_zombies (st_kernel s)) /\
    k_running (st_kernel s') = k_running (st_kernel s).
Proof.
  induction sq as [|rd sq IH]; intros s fuel status signo Hq Hf;
    destruct s as [v e [bl fk nf sq0 zs rs su b sc fds] tr];
    simpl in Hq; subst sq0; (destruct fuel as [|fuel]; [simpl in Hf; lia|]).
  - cbn. eexists; exists [EvReadSignal (sigfd v) (-1)]. repeat split; reflexivity.
  - destruct rd as [n|err].
    + cbn -[handle_sigchld Z.eqb]. rewrite Z.eqb_refl.
      cbn -[handle_sigchld Z.eqb]. unfold bind at 1.
      cbn -[handle_sigchld Z.eqb].
      destruct (n =? SIGCHLD) eqn:Hchld.
      * apply Z.eqb_eq in Hchld. subst n. unfold bind at 1. cbn -[handle_sigchld].
        match goal with
        | |- context [handle_sigchld ?f ?st ?s1] =>
            destruct (handle_sigchld_run s1 f st) as (st' & e' & Hrun1);
              [simpl in Hf |- *; lia | rewrite Hrun1; clear Hrun1]
        end.
        cbn.
        match goal with
        | |- context [signal_loop fuel ?st ?sg ?s2] =>
            destruct (IH s2 fuel st sg) as (s' & tr2 & Hrun & Htr & Hreap & Hz & Hr);
              [reflexivity | simpl in Hf |- *; lia |]
        end.
        cbn in Htr, Hreap, Hz, Hr. list_norm_in Htr.
        exists s'. eexists. split; [exact Hrun|]. split; [exact Htr|].
        split; [|split; [|exact Hr]].
        -- cbn. rewrite reaped_pids_app, reaped_pids_zombies, reaped_pids_idle.
           cbn. rewrite Hreap. destruct (sigchld_pending sq); apply app_nil_r.
        -- rewrite Hz. destruct (sigchld_pending sq); reflexivity.
      * assert (Hstep : forall (m : M (option Z)) s1 ev,
                   reaped_pids ev = [] ->
                   (forall x, m x = (Ret status,
                      mkState (st_v8 x) (st_errno x) (st_kernel x) (st_trace x ++ ev))) ->
                   s1 = mkState v e (mkKernel bl fk nf sq zs rs su b sc fds)
                                (tr ++ [EvReadSignal (sigfd v) SIGINFO_SIZE]) ->
                   exists s' tr0,
                     (a <- m ;; signal_loop fuel a (Some n)) s1 = (Ret tt, s') /\
                     st_trace s' = tr ++ tr0 /\
                     reaped_pids tr0 = (if sigchld_pending sq then zombie_pids zs else []) /\
                     k_zombies (st_kernel s') = (if sigchld_pending sq then [] else zs) /\
                     k_running (st_kernel s') = rs).
        { intros m s1 ev Hev Hm ->. unfold bind. rewrite Hm. cbn.
          match goal with
          | |- context [signal_loop fuel ?st ?sg ?s2] =>
              destruct (IH s2 fuel st sg) as (s' & tr2 & Hrun & Htr & Hreap & Hz & Hr);
                [reflexivity | simpl in Hf |- *; lia |]
          end.
          cbn in Htr, Hreap, Hz, Hr. list_norm_in Htr.
          exists s', (EvReadSignal (sigfd v) SIGINFO_SIZE :: ev ++ tr2).
          split; [exact Hrun|]. split; [exact Htr|].
          split; [|split; assumption].
          cbn. rewrite reaped_pids_app, Hev. exact Hreap. }
        simpl in Hf. cbn [orb].
        destruct ((n =? SIGINT) || (n =? SIGQUIT) || (n =? SIGTERM));
          [|destruct (n =? SIGHUP)].
        -- eapply (Hstep _ _ [EvLog LogInfo fmt_termination [];
                              EvDispatcherStop (dispatcher v)]);
             [reflexivity | intros x; cbn; list_norm; reflexivity | reflexivity].
        -- eapply (Hstep _ _ [EvLog LogInfo fmt_reload []]);
             [reflexivity | intros x; cbn; reflexivity | reflexivity].
        -- eapply (Hstep _ _ [EvLog LogError fmt_unexpected [LInt n]]);
             [reflexivity | intros x; cbn; reflexivity | reflexivity].
    + cbn -[Z.eqb]. change (-1 =? SIGINFO_SIZE) with false. cbn -[Z.eqb].
      match goal with |- context [negb (?a =? ?b)] => destruct (a =? b) end; cbn.
      * eexists; exists [EvReadSignal (sigfd v) (-1)]. repeat split; reflexivity.
      * eexists; exists [EvReadSignal (sigfd v) (-1);
                         EvLog LogError fmt_siginfo_failed [LInt err]].
        split; [reflexivity|]. split; [cbn; list_norm; reflexivity|].
        repeat split; reflexivity.
Qed.


(** C1. Any number [m] of children may have terminated: one run of the
    child-status branch of the signal handler waits for all [m] of them,
    calling the non-blocking wait until it reports no further child, and no
    terminated child is left; so does one run of the handler that reads a
    child-status record. *)
Theorem sigchld_reaps_all_children : forall (m : nat) (s : State) (fuel : nat),
  List.length (k_zombies (st_kernel s)) = m ->
  (forall status,
     (m < fuel)%nat ->
     exists st' s' tr,
       handle_sigchld fuel status s = (Ret st', s') /\
       st_trace s' = st_trace s ++ tr /\
       reaped_pids tr = zombie_pids (k_zombies (st_kernel s)) /\
       List.length (reaped_pids tr) = m /\
       k_zombies (st_kernel s') = [] /\
       k_running (st_kernel s') = k_running (st_kernel s)) /\
  (forall fd,
     sigchld_pending (k_sigq (st_kernel s)) = true ->
     (List.length (k_sigq (st_kernel s)) + m < fuel)%nat ->
     exists s' tr,
       v8_handle_signal fuel fd s = (Ret tt, s') /\
       st_trace s' = st_trace s ++ tr /\
       reaped_pids tr = zombie_pids (k_zombies (st_kernel s)) /\
       List.length (reaped_pids tr) = m /\
       k_zombies (st_kernel s') = [] /\
       k_running (st_kernel s') = k_running (st_kernel s)).
Proof.
  intros m s fuel HM. split.
  - intros status Hf.
    destruct (handle_sigchld_run s fuel status) as (st' & e' & Hrun); [lia|].
    eexists; eexists; eexists. split; [exact Hrun|]. cbn.
    split; [reflexivity|].
    assert (Hr : reaped_pids
                   (EvLog LogDebug fmt_child_signaled []
                    :: map EvWaitpid (zombie_pids (k_zombies (st_kernel s)))
                    ++ [EvWaitpid (wait_idle (st_kernel s));
                        EvLog LogDebug fmt_not_changed []])
                 = zombie_pids (k_zombies (st_kernel s))).
    { cbn. rewrite reaped_pids_app, reaped_pids_zombies, reaped_pids_idle.
      apply app_nil_r. }
    split; [exact Hr|].
    split; [rewrite Hr; unfold zombie_pids; rewrite length_map; exact HM|].
    split; reflexivity.
  - intros fd Hp Hf. unfold v8_handle_signal.
    destruct (signal_loop_run (k_sigq (st_kernel s)) s fuel None None eq_refl)
      as (s' & tr & Hrun & Htr & Hreap & Hz & Hr); [lia|].
    rewrite Hp in Hreap, Hz.
    exists s', tr. repeat split; try assumption.
    rewrite Hreap. unfold zombie_pids. rewrite length_map. exact HM.
Qed.

Lemma sigchld_reaps_all_children_witness :
  List.length (k_zombies (st_kernel three_zombies_state)) = 3%nat /\
  sigchld_pending (k_sigq (st_kernel three_zombies_state)) = true /\
  (List.length (k_sigq (st_kernel three_zombies_state)) + 3 < 10)%nat /\
  exists s' tr,
    v8_handle_signal 10 4 three_zombies_state = (Ret tt, s') /\
    st_trace s' = st_trace three_zombies_state ++ tr /\
    reaped_pids tr = zombie_pids (k_zombies (st_kernel three_zombies_state)) /\
    List.length (reaped_pids tr) = 3%nat /\
    k_zombies (st_kernel s') = [] /\
    k_running (st_kernel s') = k_running (st_kernel three_zombies_state).
Proof.
  split; [reflexivity|]. split; [reflexivity|]. split; [simpl; lia|].
  apply (proj2 (sigchld_reaps_all_children 3 three_zombies_state 10 eq_refl) 4);
    [reflexivity | simpl; lia].
Defined.

(** What the child-status branch logs, whatever it reaps. *)
Lemma handle_sigchld_logs : forall s fuel status st' s',
  (List.length (k_zombies (st_kernel s)) < fuel)%nat ->
  handle_sigchld fuel status s = (Ret st', s') ->
  exists tr,
    st_trace s' = st_trace s ++ tr /\
    logs_of tr = [(LogDebug, fmt_child_signaled, []);
                  (LogDebug, fmt_not_changed, [])].
Proof.
  intros s fuel status st' s' Hf Hrun.
  destruct (handle_sigchld_run s fuel status Hf) as (st1 & e1 & Hrun1).
  rewrite Hrun1 in Hrun. inversion Hrun; subst. cbn.
  eexists. split; [reflexivity|].
  cbn. rewrite logs_of_app, logs_of_waitpids. reflexivity.
Qed.

(** C2 (the code departs from the claim). A child, pid 4321, has exited
    with code 3.  The handler reaps it, and its whole log is the two debug
    lines "Child signaled" and "Child has not changed state": no entry
    reports the child's pid or exit code. *)
Theorem sigchld_logs_no_outcome :
  WIFEXITED 768 = true /\ WEXITSTATUS 768 = 3 /\
  exists s',
    v8_handle_signal 5 4 exited_child_state = (Ret tt, s') /\
    reaped_pids (st_trace s') = [4321] /\
    k_zombies (st_kernel s') = [] /\
    logs_of (st_trace s') = [(LogDebug, fmt_child_signaled, []);
                             (LogDebug, fmt_not_changed, [])] /\
    ~ In (LogDebug, fmt_child_exited, [LInt 4321; LInt 3]) (logs_of (st_trace s')).
Proof.
  split; [reflexivity|]. split; [reflexivity|].
  eexists. split; [vm_compute; reflexivity|].
  cbn. repeat split.
  intros [H|[H|[]]]; discriminate H.
Qed.

(** ** The acceptor *)

Lemma accepted_socks_app (t1 t2 : list Event) :
  accepted_socks (t1 ++ t2) = accepted_socks t1 ++ accepted_socks t2.
Proof.
  induction t1 as [|e t1 IH]; simpl; [reflexivity|].
  destruct e; try exact IH.
  destruct (ret0 =? -1); simpl; rewrite IH; reflexivity.
Qed.

Lemma fork_calls_app (t1 t2 : list Event) :
  fork_calls (t1 ++ t2) = (fork_calls t1 + fork_calls t2)%nat.
Proof.
  induction t1 as [|e t1 IH]; simpl; [reflexivity|].
  destruct e; simpl; rewrite ?IH; reflexivity.
Qed.

Lemma closed_fds_app (t1 t2 : list Event) :
  closed_fds (t1 ++ t2) = closed_fds t1 ++ closed_fds t2.
Proof.
  induction t1 as [|e t1 IH]; simpl; [reflexivity|].
  destruct e; simpl; rewrite ?IH; reflexivity.
Qed.

(** In the parent [v8_fork] returns, 0 or -1, and has closed the socket in
    either case. *)
Lemma v8_fork_parent : forall s sock,
  k_fork (st_kernel s) (k_nfork (st_kernel s)) <> ForkChild ->
  exists r s',
    v8_fork sock s = (Ret r, s') /\
    r = (match k_fork (st_kernel s) (k_nfork (st_kernel s)) with
         | ForkFailed _ => -1 | _ => 0 end) /\
    st_v8 s' = st_v8 s /\
    k_backlog (st_kernel s') = k_backlog (st_kernel s) /\
    k_fork (st_kernel s') = k_fork (st_kernel s) /\
    k_nfork (st_kernel s') = S (k_nfork (st_kernel s)) /\
    k_fds (st_kernel s') = remove_fd sock (k_fds (st_kernel s)) /\
    st_trace s' = st_trace s
                    ++ fork_trace (k_fork (st_kernel s) (k_nfork (st_kernel s))) sock.
Proof.
  intros s sock Hp.
  destruct s as [v e [bl fk nf sq zs rs su b sc fds] tr]. cbn in Hp.
  unfold v8_fork, sys_fork, bind at 1 2, syscall. cbn -[v8_child_exec].
  destruct (fk nf) as [pid| |err] eqn:Hfk; [| contradiction |];
    cbn; do 2 eexists; (split; [reflexivity|]); cbn;
    repeat split; list_norm; reflexivity.
Qed.

Lemma fold_remove_fd (cs : list Z) : forall c fds,
  close_all cs (remove_fd c (c :: fds)) = close_all (c :: cs) fds.
Proof.
  intros c fds. unfold close_all. simpl. rewrite Z.eqb_refl. reflexivity.
Qed.

Lemma fork_trace_obs (r : ForkResult) (sock : Z) :
  r <> ForkChild ->
  accepted_socks (fork_trace r sock) = [] /\
  fork_calls (fork_trace r sock) = 1%nat /\
  closed_fds (fork_trace r sock) = [sock].
Proof. destruct r; intros H; [| contradiction |]; repeat split. Qed.

Lemma accept_loop_done (fuel : nat) (s : State) :
  accept_loop fuel (-1) s = (Ret tt, s).
Proof. destruct fuel; reflexivity. Qed.

(** The accept loop in the parent returns at the first failing accept,
    whatever the failure; until then every connection is accepted, forked
    for, and closed. *)
Lemma accept_loop_run : forall q s fuel newsock,
  k_backlog (st_kernel s) = q ->
  newsock <> -1 ->
  (forall n, k_fork (st_kernel s) n <> ForkChild) ->
  (List.length q < fuel)%nat ->
  exists s' tr,
    accept_loop fuel newsock s = (Ret tt, s') /\
    st_trace s' = st_trace s ++ tr /\
    accepted_socks tr = accepted_prefix q /\
    fork_calls tr = List.length (accepted_prefix q) /\
    closed_fds tr = accepted_prefix q /\
    k_backlog (st_kernel s') = after_first_failure q /\
    k_fds (st_kernel s') = close_all (accepted_prefix q) (k_fds (st_kernel s)).
Proof.
  induction q as [|a q IH]; intros s fuel newsock Hq Hns Hp Hf;
    destruct s as [v e [bl fk nf sq zs rs su b sc fds] tr];
    simpl in Hq; subst bl; (destruct fuel as [|fuel]; [simpl in Hf; lia|]);
    apply Z.eqb_neq in Hns.
  - cbn -[Z.eqb]. rewrite Hns. cbn.
    rewrite accept_loop_done.
    eexists; exists [EvAccept (sockfd v) (-1)]. repeat split; reflexivity.
  - destruct a as [c|err].
    + cbn -[Z.eqb v8_fork]. rewrite Hns.
      cbn -[Z.eqb v8_fork].
      assert (Hc : (Z.of_nat c =? -1) = false) by (apply Z.eqb_neq; lia).
      rewrite Hc. cbn -[Z.eqb v8_fork]. unfold bind. cbn -[Z.eqb v8_fork].
      match goal with
      | |- context [v8_fork ?sock ?s1] =>
          destruct (v8_fork_parent s1 sock)
            as (r & s2 & Hrun & Hr & Hv & Hbl & Hfk & Hnf & Hfds & Htr);
            [apply Hp | rewrite Hrun; clear Hrun]
      end.
      cbn in Hv, Hbl, Hfk, Hnf, Hfds, Htr. cbn in Hp.
      destruct (fork_trace_obs (fk nf) (Z.of_nat c) (Hp nf)) as (Hfa & Hff & Hfc).
      assert (Hloop : forall s3 ev,
                 st_kernel s3 = st_kernel s2 -> st_trace s3 = st_trace s2 ++ ev ->
                 accepted_socks ev = [] -> fork_calls ev = O -> closed_fds ev = [] ->
                 exists s' tr0,
                   accept_loop fuel (Z.of_nat c) s3 = (Ret tt, s') /\
                   st_trace s' = tr ++ tr0 /\
                   accepted_socks tr0 = Z.of_nat c :: accepted_prefix q /\
                   fork_calls tr0 = S (List.length (accepted_prefix q)) /\
                   closed_fds tr0 = Z.of_nat c :: accepted_prefix q /\
                   k_backlog (st_kernel s') = after_first_failure q /\
                   k_fds (st_kernel s') = close_all (Z.of_nat c :: accepted_prefix q) fds).
      { intros s3 ev Hk3 Htr3 Ha3 Hf3 Hc3.
        destruct (IH s3 fuel (Z.of_nat c))
          as (s' & tr2 & Hrun & Htr2 & Hacc & Hfork & Hclo & Hbl2 & Hfds2).
        - rewrite Hk3. exact Hbl.
        - lia.
        - rewrite Hk3, Hfk. exact Hp.
        - simpl in Hf. lia.
        - exists s'.
          exists ([EvAccept (sockfd v) (Z.of_nat c); EvLog LogDebug fmt_accepted []]
                    ++ fork_trace (fk nf) (Z.of_nat c) ++ ev ++ tr2).
          split; [exact Hrun|].
          split; [rewrite Htr2, Htr3, Htr; list_norm; reflexivity|].
          rewrite !accepted_socks_app, !fork_calls_app, !closed_fds_app.
          rewrite Hfa, Hff, Hfc, Ha3, Hf3, Hc3, Hacc, Hfork, Hclo.
          cbn -[Z.eqb close_all]. rewrite Hc.
          repeat split; try assumption.
          rewrite Hfds2, Hk3, Hfds. apply (fold_remove_fd (accepted_prefix q)). }
      destruct (negb (r =? 0)); cbn.
      * apply (Hloop _ [EvLog LogError fmt_fail_fork []]); reflexivity.
      * apply (Hloop _ []); try reflexivity. cbn. symmetry; apply app_nil_r.
    + cbn -[Z.eqb]. rewrite Hns. cbn -[Z.eqb].
      change (-1 =? -1) with true. cbn -[Z.eqb]. unfold bind at 1. cbn -[Z.eqb].
      match goal with |- context [negb (?a =? ?b)] => destruct (a =? b) end;
        cbn; rewrite accept_loop_done.
      * eexists; exists [EvAccept (sockfd v) (-1)]. repeat split; reflexivity.
      * eexists; exists [EvAccept (sockfd v) (-1);
                         EvLog LogError fmt_fail_accept []].
        split; [reflexivity|]. split; [cbn; list_norm; reflexivity|].
        repeat split; reflexivity.
Qed.

Lemma close_all_incl (cs : list Z) : forall fds x,
  In x (close_all cs fds) -> In x fds.
Proof.
  induction cs as [|c cs IH]; intros fds x H; [exact H|].
  apply IH in H. unfold remove_fd in H. apply filter_In in H. tauto.
Qed.

Lemma close_all_closed (cs : list Z) : forall fds c,
  In c cs -> ~ In c (close_all cs fds).
Proof.
  induction cs as [|a cs IH]; intros fds c Hc Hin; [exact Hc|].
  destruct Hc as [Hc|Hc].
  - subst a. change (In c (close_all cs (remove_fd c fds))) in Hin.
    apply close_all_incl in Hin. unfold remove_fd in Hin.
    apply filter_In in Hin. destruct Hin as [_ Hin].
    rewrite Z.eqb_refl in Hin. discriminate.
  - exact (IH _ _ Hc Hin).
Qed.

Lemma no_failure_prefix (q : list AcceptResult) :
  no_failure q = true ->
  accepted_prefix q = pending_connections q /\ after_first_failure q = [] /\
  List.length (accepted_prefix q) = List.length q.
Proof.
  induction q as [|[c|e] q IH]; simpl; intros H;
    [repeat split; reflexivity | | discriminate].
  destruct (IH H) as (H1 & H2 & H3). rewrite H1, H2. rewrite H1 in H3.
  rewrite H3. repeat split; reflexivity.
Qed.

(** C3 (amended). One notification to the acceptor, in the parent: the
    acceptor repeats the non-blocking accept until it fails, for whatever
    reason; there is exactly one accept/fork cycle for each pending
    connection that precedes the first failing accept, and the parent
    closes each accepted socket whether its fork succeeds or fails.  When
    no accept fails before the backlog is empty, that is one cycle for each
    of the [N] pending connections. *)
Theorem accept_drains_until_failure : forall (s : State) (fuel : nat) (fd : Z),
  (forall n, k_fork (st_kernel s) n <> ForkChild) ->
  (List.length (k_backlog (st_kernel s)) < fuel)%nat ->
  exists s' tr,
    v8_handle_connection fuel fd s = (Ret tt, s') /\
    st_trace s' = st_trace s ++ tr /\
    accepted_socks tr = accepted_prefix (k_backlog (st_kernel s)) /\
    fork_calls tr = List.length (accepted_prefix (k_backlog (st_kernel s))) /\
    closed_fds tr = accepted_prefix (k_backlog (st_kernel s)) /\
    k_backlog (st_kernel s') = after_first_failure (k_backlog (st_kernel s)) /\
    (forall c, In c (accepted_prefix (k_backlog (st_kernel s))) ->
               ~ In c (k_fds (st_kernel s'))) /\
    (no_failure (k_backlog (st_kernel s)) = true ->
     accepted_socks tr = pending_connections (k_backlog (st_kernel s)) /\
     fork_calls tr = List.length (k_backlog (st_kernel s)) /\
     closed_fds tr = pending_connections (k_backlog (st_kernel s)) /\
     k_backlog (st_kernel s') = []).
Proof.
  intros s fuel fd Hp Hf. unfold v8_handle_connection.
  destruct (accept_loop_run (k_backlog (st_kernel s)) s fuel 0 eq_refl)
    as (s' & tr & Hrun & Htr & Hacc & Hfork & Hclo & Hbl & Hfds);
    [lia | exact Hp | exact Hf |].
  exists s', tr. repeat split; try assumption.
  - intros c Hc. rewrite Hfds. apply close_all_closed, Hc.
  - rewrite Hacc. apply no_failure_prefix, H.
  - rewrite Hfork. apply no_failure_prefix, H.
  - rewrite Hclo. apply no_failure_prefix, H.
  - rewrite Hbl. apply no_failure_prefix, H.
Qed.

Lemma accept_drains_until_failure_witness :
  (forall n, k_fork (st_kernel busy_state) n <> ForkChild) /\
  (List.length (k_backlog (st_kernel busy_state)) < 4)%nat /\
  exists s' tr,
    v8_handle_connection 4 3 busy_state = (Ret tt, s') /\
    st_trace s' = st_trace busy_state ++ tr /\
    accepted_socks tr = [7; 8; 9] /\
    fork_calls tr = 3%nat /\
    closed_fds tr = [7; 8; 9] /\
    k_backlog (st_kernel s') = [].
Proof.
  assert (Hp : forall n, k_fork (st_kernel busy_state) n <> ForkChild).
  { intros n. unfold busy_state, with_kernel. cbn [st_kernel k_fork].
    destruct (Nat.eqb n 1); discriminate. }
  assert (Hf : (List.length (k_backlog (st_kernel busy_state)) < 4)%nat).
  { simpl. lia. }
  split; [exact Hp|]. split; [exact Hf|].
  destruct (accept_drains_until_failure busy_state 4 3 Hp Hf)
    as (s' & tr & Hrun & Htr & Hacc & Hfork & Hclo & Hbl & _).
  exists s', tr. repeat split; assumption.
Defined.

(** C3 as stated fails: with an aborted connection at the head of the
    backlog, accept fails with ECONNABORTED and the acceptor returns
    without a cycle for the connection pending behind it. *)
Lemma accept_stops_at_error : ~ drains_backlog aborted_state 5.
Proof.
  intros (s' & tr & Hrun & Htr & _ & Hfork & _).
  destruct (accept_loop_run (k_backlog (st_kernel aborted_state)) aborted_state 5 0 eq_refl)
    as (s1 & tr1 & Hrun1 & Htr1 & _ & Hfork1 & _);
    [lia | intros n; discriminate | simpl; lia |].
  unfold v8_handle_connection in Hrun. rewrite Hrun1 in Hrun.
  inversion Hrun; subst s1.
  rewrite Htr in Htr1. apply app_inv_head in Htr1. subst tr1.
  rewrite Hfork in Hfork1. discriminate Hfork1.
Qed.

(** ** The router *)

Lemma entry_matchesb_iff (m : V8RequestMethod) (path : string) (a : V8Action) :
  entry_matchesb m path a = true <-> entry_matches m path a.
Proof.
  unfold entry_matchesb, entry_matches. rewrite andb_true_iff, method_eqb_eq.
  destruct (act_route a) as [r|].
  - destruct (String.eqb_spec path r) as [->|Hne]; split; intros [H1 H2];
      split; auto; try discriminate.
    inversion H2; subst; contradiction.
  - split; intros [H1 H2]; discriminate.
Qed.

Lemma action_matches_spec (bsize : Z) (m : V8RequestMethod) (route path : string)
      (a : V8Action) :
  str_offset route bsize = Some path ->
  action_matches bsize m route a = Some (entry_matchesb m path a).
Proof.
  intros H. unfold action_matches, entry_matchesb.
  destruct (method_eqb m (act_method a)); [|reflexivity].
  destruct (act_route a) as [r|]; [|reflexivity].
  rewrite H, strcmp_eqb. reflexivity.
Qed.

(** The loop of the source computes the candidate of the specification. *)
Lemma route_loop_spec : forall acts i s request response path,
  str_offset (req_route request) (base_size (st_v8 s)) = Some path ->
  route_loop acts i request response s =
  match spec_first_match (req_method request) path acts i with
  | Some (j, a) => invoke_action a j request response s
  | None =>
      match sentinel_index acts i with
      | Some j => (Ret (j, response), s)
      | None => (Undef, s)
      end
  end.
Proof.
  induction acts as [|a acts IH]; intros i s request response path Hoff; simpl.
  - reflexivity.
  - destruct (method_eqb (act_method a) V8_METHOD_UNKNOWN); [reflexivity|].
    unfold bind at 1, get_v8. unfold bind at 1.
    unfold v8_request_method, v8_request_route.
    rewrite (action_matches_spec _ _ _ _ a Hoff). simpl.
    destruct (entry_matchesb (req_method request) path a); [reflexivity|].
    apply IH, Hoff.
Qed.

Lemma invoke_action_run (a : V8Action) (i : nat) (request : V8Request)
      (response : V8Response) (s : State) :
  invoke_action a i request response s =
  match act_filter a with
  | Some f =>
      match f_code f request with
      | Some fh =>
          (Ret (i, h_code fh request response),
           with_events s [EvFilter (f_addr f); EvHandler (h_addr fh)])
      | None =>
          match act_handler a with
          | Some h =>
              (Ret (i, h_code h request response),
               with_events s [EvFilter (f_addr f); EvHandler (h_addr h)])
          | None => (Undef, with_events s [EvFilter (f_addr f)])
          end
      end
  | None =>
      match act_handler a with
      | Some h => (Ret (i, h_code h request response),
                   with_events s [EvHandler (h_addr h)])
      | None => (Undef, s)
      end
  end.
Proof.
  unfold invoke_action, with_events.
  destruct (act_filter a) as [f|].
  - cbn. destruct (f_code f request) as [fh|]; cbn.
    + list_norm. reflexivity.
    + destruct (act_handler a) as [h|]; cbn; list_norm; reflexivity.
  - destruct (act_handler a) as [h|]; cbn; reflexivity.
Qed.

Lemma spec_first_match_some : forall acts i0 m p j a,
  spec_first_match m p acts i0 = Some (j, a) ->
  exists k,
    j = (i0 + k)%nat /\ nth_error acts k = Some a /\
    entry_matches m p a /\ act_method a <> V8_METHOD_UNKNOWN /\
    forall k' b, (k' < k)%nat -> nth_error acts k' = Some b ->
                 act_method b <> V8_METHOD_UNKNOWN /\ ~ entry_matches m p b.
Proof.
  induction acts as [|x acts IH]; intros i0 m p j a H; simpl in H; [discriminate|].
  destruct (method_eqb (act_method x) V8_METHOD_UNKNOWN) eqn:Hs; [discriminate|].
  assert (Hx : act_method x <> V8_METHOD_UNKNOWN).
  { intros E. apply method_eqb_eq in E. congruence. }
  destruct (entry_matchesb m p x) eqn:Hm.
  - inversion H; subst. exists O. rewrite Nat.add_0_r.
    repeat split; try (apply entry_matchesb_iff in Hm; apply Hm); auto; lia.
  - destruct (IH _ _ _ _ _ H) as (k & Hj & Hn & Hma & Hns & Hbefore).
    exists (S k). split; [lia|]. split; [exact Hn|]. split; [exact Hma|].
    split; [exact Hns|].
    intros [|k'] b Hk Hb; simpl in Hb.
    + inversion Hb; subst. split; [exact Hx|].
      intros E. apply entry_matchesb_iff in E. congruence.
    + apply (Hbefore k' b); [lia | exact Hb].
Qed.

Lemma spec_first_match_none : forall acts i0 m p j,
  spec_first_match m p acts i0 = None ->
  sentinel_index acts i0 = Some j ->
  exists k a,
    j = (i0 + k)%nat /\ nth_error acts k = Some a /\
    act_method a = V8_METHOD_UNKNOWN /\
    forall k' b, (k' < k)%nat -> nth_error acts k' = Some b ->
                 act_method b <> V8_METHOD_UNKNOWN /\ ~ entry_matches m p b.
Proof.
  induction acts as [|x acts IH]; intros i0 m p j H Hs; simpl in H, Hs; [discriminate|].
  destruct (method_eqb (act_method x) V8_METHOD_UNKNOWN) eqn:Hx.
  - inversion Hs; subst. exists O, x. rewrite Nat.add_0_r.
    repeat split; try (apply method_eqb_eq, Hx); lia.
  - assert (Hx' : act_method x <> V8_METHOD_UNKNOWN).
    { intros E. apply method_eqb_eq in E. congruence. }
    destruct (entry_matchesb m p x) eqn:Hm; [discriminate|].
    destruct (IH _ _ _ _ H Hs) as (k & a & Hj & Hn & Hma & Hbefore).
    exists (S k), a. split; [lia|]. split; [exact Hn|]. split; [exact Hma|].
    intros [|k'] b Hk Hb; simpl in Hb.
    + inversion Hb; subst. split; [exact Hx'|].
      intros E. apply entry_matchesb_iff in E. congruence.
    + apply (Hbefore k' b); [lia | exact Hb].
Qed.

Lemma table_ok_sentinel : forall acts i0,
  table_ok acts = true -> exists j, sentinel_index acts i0 = Some j.
Proof.
  induction acts as [|x acts IH]; intros i0 H; simpl in *; [discriminate|].
  destruct (method_eqb (act_method x) V8_METHOD_UNKNOWN); [eexists; reflexivity|].
  destruct (act_handler x); [apply IH, H | discriminate].
Qed.

Lemma table_ok_handler : forall acts i0 m p j a,
  table_ok acts = true ->
  spec_first_match m p acts i0 = Some (j, a) ->
  exists h, act_handler a = Some h.
Proof.
  induction acts as [|x acts IH]; intros i0 m p j a H Hm; simpl in *; [discriminate|].
  destruct (method_eqb (act_method x) V8_METHOD_UNKNOWN); [discriminate|].
  destruct (act_handler x) as [h|] eqn:Hh; [|discriminate].
  destruct (entry_matchesb m p x).
  - inversion Hm; subst. exists h. exact Hh.
  - exact (IH _ _ _ _ _ H Hm).
Qed.

(** With a well-formed table the loop returns, at the candidate of the
    specification or at the sentinel. *)
Lemma route_loop_total : forall acts s request response path,
  table_ok acts = true ->
  str_offset (req_route request) (base_size (st_v8 s)) = Some path ->
  exists i a resp' s',
    route_loop acts 0 request response s = (Ret (i, resp'), s') /\
    nth_error acts i = Some a /\
    spec_first_match (req_method request) path acts 0 =
      (if method_eqb (act_method a) V8_METHOD_UNKNOWN then None else Some (i, a)) /\
    (act_method a = V8_METHOD_UNKNOWN \/ entry_matches (req_method request) path a) /\
    (forall j b, (j < i)%nat -> nth_error acts j = Some b ->
                 act_method b <> V8_METHOD_UNKNOWN /\
                 ~ entry_matches (req_method request) path b).
Proof.
  intros acts s request response path Hok Hoff.
  rewrite (route_loop_spec _ _ _ _ _ _ Hoff).
  destruct (spec_first_match (req_method request) path acts 0) as [[j a]|] eqn:Hm.
  - destruct (table_ok_handler _ _ _ _ _ _ Hok Hm) as (h & Hh).
    destruct (spec_first_match_some _ _ _ _ _ _ Hm) as (k & Hj & Hn & Hma & Hns & Hb).
    simpl in Hj. subst k.
    assert (Hne : method_eqb (act_method a) V8_METHOD_UNKNOWN = false).
    { destruct (method_eqb (act_method a) V8_METHOD_UNKNOWN) eqn:E; [|reflexivity].
      apply method_eqb_eq in E. contradiction. }
    rewrite invoke_action_run, Hh.
    destruct (act_filter a) as [f|]; [destruct (f_code f request) as [fh|]|];
      (exists j, a; eexists; eexists; split; [reflexivity|]; rewrite Hne;
       split; [exact Hn|]; split; [reflexivity|]; split; [right; exact Hma|];
       exact Hb).
  - destruct (table_ok_sentinel _ O Hok) as (j & Hs). rewrite Hs.
    destruct (spec_first_match_none _ _ _ _ _ Hm Hs) as (k & a & Hj & Hn & Hma & Hb).
    simpl in Hj. subst k.
    exists j, a, response, s. rewrite Hma.
    split; [reflexivity|]. split; [exact Hn|]. split; [reflexivity|].
    split; [left; reflexivity | exact Hb].
Qed.

(** The request handler after a successful read, in terms of the routing
    loop. *)
Lemma v8_request_handler_run : forall s sock r request path,
  k_scgi (st_kernel s) = (r, request) ->
  (r <? 0) = false ->
  str_offset (req_route request) (base_size (st_v8 s)) = Some path ->
  v8_request_handler sock s =
  match route_loop (actions (st_v8 s)) 0 request
                   (v8_response_create v8_request_create sock)
                   (after_read s sock r request path) with
  | (Ret (i, resp), s2) =>
      match nth_error (actions (st_v8 s)) i with
      | Some a =>
          (Ret 0,
           after_send s2 sock
             (if method_eqb (act_method a) V8_METHOD_UNKNOWN
              then [EvLog LogWarn fmt_action_not_found [LStr (req_route request)];
                    EvSend (v8_response_set_status resp V8_STATUS_NOT_FOUND)]
              else [EvSend resp]))
      | None => (Undef, s2)
      end
  | (Exit c, s2) => (Exit c, s2)
  | (Undef, s2) => (Undef, s2)
  | (OutOfFuel, s2) => (OutOfFuel, s2)
  end.
Proof.
  intros s sock r request path Hk Hr Hoff.
  destruct s as [[lfd sfd bs cfg disp acts ad ai] e
                   [bl fk nf sq zs rs su b sc fds] tr].
  cbn in Hk, Hoff. subst sc.
  unfold v8_request_handler, after_read, app_init_trace.
  cbn -[route_loop Z.ltb str_offset]. rewrite Hr.
  unfold v8_request_route, v8_request_method.
  destruct ai as [init|]; cbn -[route_loop Z.ltb str_offset];
    rewrite Hoff; cbn -[route_loop]; unfold bind at 1; list_norm;
    cbn -[route_loop];
    match goal with
    | |- context [route_loop ?a ?i ?q ?p ?s1] =>
        destruct (route_loop a i q p s1) as [[[i' resp]|c| |] s2]
    end; try reflexivity;
    cbn; unfold bind at 1;
    (destruct (nth_error acts i') as [a|]; [|reflexivity]);
    destruct s2 as [v2 e2 [bl2 fk2 nf2 sq2 zs2 rs2 su2 b2 sc2 fds2] tr2];
    cbn; destruct (method_eqb (act_method a) V8_METHOD_UNKNOWN);
    cbn; unfold after_send; cbn; list_norm; reflexivity.
Qed.

Lemma handler_calls_app (t1 t2 : list Event) :
  handler_calls (t1 ++ t2) = handler_calls t1 ++ handler_calls t2.
Proof.
  induction t1 as [|e t1 IH]; simpl; [reflexivity|].
  destruct e; simpl; rewrite ?IH; reflexivity.
Qed.

Lemma filter_calls_app (t1 t2 : list Event) :
  filter_calls (t1 ++ t2) = filter_calls t1 ++ filter_calls t2.
Proof.
  induction t1 as [|e t1 IH]; simpl; [reflexivity|].
  destruct e; simpl; rewrite ?IH; reflexivity.
Qed.

Lemma sent_responses_app (t1 t2 : list Event) :
  sent_responses (t1 ++ t2) = sent_responses t1 ++ sent_responses t2.
Proof.
  induction t1 as [|e t1 IH]; simpl; [reflexivity|].
  destruct e; simpl; rewrite ?IH; reflexivity.
Qed.

Lemma app_init_trace_calls (v8 : V8) :
  handler_calls (app_init_trace v8) = [] /\
  filter_calls (app_init_trace v8) = [] /\
  sent_responses (app_init_trace v8) = [].
Proof. unfold app_init_trace. destruct (app_init v8); repeat split. Qed.

(** The routing loop over a well-formed table: where it stops, and the
    handler it invokes there. *)
Lemma route_loop_invokes : forall acts s request response path,
  table_ok acts = true ->
  str_offset (req_route request) (base_size (st_v8 s)) = Some path ->
  exists i a resp' s' tr,
    route_loop acts 0 request response s = (Ret (i, resp'), s') /\
    st_trace s' = st_trace s ++ tr /\
    nth_error acts i = Some a /\
    spec_first_match (req_method request) path acts 0 =
      (if method_eqb (act_method a) V8_METHOD_UNKNOWN then None else Some (i, a)) /\
    (act_method a = V8_METHOD_UNKNOWN \/ entry_matches (req_method request) path a) /\
    (forall j b, (j < i)%nat -> nth_error acts j = Some b ->
                 act_method b <> V8_METHOD_UNKNOWN /\
                 ~ entry_matches (req_method request) path b) /\
    (act_method a = V8_METHOD_UNKNOWN -> resp' = response /\ tr = []) /\
    (act_method a <> V8_METHOD_UNKNOWN ->
     exists h, spec_handler a request = Some h /\
               resp' = h_code h request response /\
               handler_calls tr = [h_addr h]).
Proof.
  intros acts s request response path Hok Hoff.
  rewrite (route_loop_spec _ _ _ _ _ _ Hoff).
  destruct (spec_first_match (req_method request) path acts 0) as [[j a]|] eqn:Hm.
  - destruct (table_ok_handler _ _ _ _ _ _ Hok Hm) as (h & Hh).
    destruct (spec_first_match_some _ _ _ _ _ _ Hm) as (k & Hj & Hn & Hma & Hns & Hb).
    simpl in Hj. subst k.
    assert (Hne : method_eqb (act_method a) V8_METHOD_UNKNOWN = false).
    { destruct (method_eqb (act_method a) V8_METHOD_UNKNOWN) eqn:E; [|reflexivity].
      apply method_eqb_eq in E. contradiction. }
    rewrite invoke_action_run, Hh.
    destruct (act_filter a) as [f|] eqn:Hf;
      [destruct (f_code f request) as [fh|] eqn:Hc|];
      (exists j, a; eexists; eexists; eexists; split; [reflexivity|];
       split; [reflexivity|]; rewrite Hne;
       split; [exact Hn|]; split; [reflexivity|]; split; [right; exact Hma|];
       split; [exact Hb|]; split; [intros Hu; contradiction|];
       intros _; eexists;
       split; [unfold spec_handler; rewrite Hf, ?Hc, ?Hh; reflexivity|];
       split; reflexivity).
  - destruct (table_ok_sentinel _ O Hok) as (j & Hs). rewrite Hs.
    destruct (spec_first_match_none _ _ _ _ _ Hm Hs) as (k & a & Hj & Hn & Hma & Hb).
    simpl in Hj. subst k.
    exists j, a, response, s, []. rewrite Hma.
    split; [reflexivity|]. split; [symmetry; apply app_nil_r|].
    split; [exact Hn|]. split; [reflexivity|].
    split; [left; reflexivity|]. split; [exact Hb|].
    split; [intros _; split; reflexivity|]. intros Hu. contradiction.
Qed.

(** C4. The router scans the table in declaration order and selects the
    first entry whose method is the request's and whose stored path is
    exactly the stripped request path: for every table the loop does what
    the candidate of the specification prescribes, invoking that entry or
    stopping at the sentinel.  For a well-formed table it returns the index
    of that entry and has invoked one handler, the one the specification
    prescribes for the entry and the request: the handler the entry's
    filter returns, if any, else the entry's main handler.  Routing the
    same method and path over the same table again selects the same entry,
    and invokes the same handler when the entry has no filter or its
    filter answers both requests alike; of two matching entries the later
    one is never the one selected. *)
Theorem router_selects_first_match :
  forall (s : State) (request : V8Request) (response : V8Response) (path : string),
  str_offset (req_route request) (base_size (st_v8 s)) = Some path ->
  route_loop (actions (st_v8 s)) 0 request response s =
    match spec_first_match (req_method request) path (actions (st_v8 s)) 0 with
    | Some (j, a) => invoke_action a j request response s
    | None =>
        match sentinel_index (actions (st_v8 s)) 0 with
        | Some j => (Ret (j, response), s)
        | None => (Undef, s)
        end
    end /\
  (table_ok (actions (st_v8 s)) = true ->
   exists i a resp' s' tr,
     route_loop (actions (st_v8 s)) 0 request response s = (Ret (i, resp'), s') /\
     st_trace s' = st_trace s ++ tr /\
     nth_error (actions (st_v8 s)) i = Some a /\
     (act_method a = V8_METHOD_UNKNOWN \/ entry_matches (req_method request) path a) /\
     (forall j b, (j < i)%nat -> nth_error (actions (st_v8 s)) j = Some b ->
                  act_method b <> V8_METHOD_UNKNOWN /\
                  ~ entry_matches (req_method request) path b) /\
     spec_first_match (req_method request) path (actions (st_v8 s)) 0 =
       (if method_eqb (act_method a) V8_METHOD_UNKNOWN then None else Some (i, a)) /\
     (act_method a = V8_METHOD_UNKNOWN -> resp' = response /\ tr = []) /\
     (act_method a <> V8_METHOD_UNKNOWN ->
      exists h, spec_handler a request = Some h /\
                resp' = h_code h request response /\
                handler_calls tr = [h_addr h]) /\
     (forall s2 request2 response2,
        actions (st_v8 s2) = actions (st_v8 s) ->
        base_size (st_v8 s2) = base_size (st_v8 s) ->
        req_method request2 = req_method request ->
        req_route request2 = req_route request ->
        exists resp2 s2' tr2,
          route_loop (actions (st_v8 s2)) 0 request2 response2 s2
          = (Ret (i, resp2), s2') /\
          st_trace s2' = st_trace s2 ++ tr2 /\
          (act_filter a = None \/ spec_handler a request2 = spec_handler a request ->
           handler_calls tr2 = handler_calls tr)) /\
     (forall j1 j2 b1 b2,
        (j1 < j2)%nat ->
        nth_error (actions (st_v8 s)) j1 = Some b1 ->
        nth_error (actions (st_v8 s)) j2 = Some b2 ->
        entry_matches (req_method request) path b1 ->
        entry_matches (req_method request) path b2 ->
        i <> j2)).
Proof.
  intros s request response path Hoff.
  split; [apply route_loop_spec, Hoff|]. intros Hok.
  destruct (route_loop_invokes _ s request response path Hok Hoff)
    as (i & a & resp' & s' & tr & Hrun & Htr & Hn & Hspec & Hat & Hbefore & Hsen & Hinv).
  exists i, a, resp', s', tr.
  split; [exact Hrun|]. split; [exact Htr|]. split; [exact Hn|]. split; [exact Hat|].
  split; [exact Hbefore|]. split; [exact Hspec|]. split; [exact Hsen|].
  split; [exact Hinv|]. split.
  - intros s2 request2 response2 Hacts Hbs Hm2 Hr2.
    rewrite <- Hacts in Hok. rewrite <- Hbs, <- Hr2 in Hoff.
    destruct (route_loop_invokes _ s2 request2 response2 path Hok Hoff)
      as (i2 & a2 & resp2 & s2' & tr2 & Hrun2 & Htr2 & Hn2 & Hspec2 & Hat2
          & Hbefore2 & Hsen2 & Hinv2).
    rewrite Hacts, Hm2 in *.
    assert (Hi : i2 = i).
    { rewrite Hspec in Hspec2.
      destruct (method_eqb (act_method a) V8_METHOD_UNKNOWN) eqn:Ea;
        destruct (method_eqb (act_method a2) V8_METHOD_UNKNOWN) eqn:Ea2;
        try discriminate; [|inversion Hspec2; reflexivity].
      apply method_eqb_eq in Ea, Ea2.
      destruct (Nat.lt_trichotomy i2 i) as [Hlt|[Heq|Hgt]]; [|exact Heq|].
      - destruct (Hbefore i2 a2 Hlt Hn2) as [Hne _]. contradiction.
      - destruct (Hbefore2 i a Hgt Hn) as [Hne _]. contradiction. }
    subst i2. rewrite Hn in Hn2. inversion Hn2; subst a2.
    exists resp2, s2', tr2. split; [exact Hrun2|]. split; [exact Htr2|].
    intros Hsame.
    destruct (method_eqb (act_method a) V8_METHOD_UNKNOWN) eqn:Ea.
    + apply method_eqb_eq in Ea.
      destruct (Hsen Ea) as [_ ->]. destruct (Hsen2 Ea) as [_ ->]. reflexivity.
    + assert (Hne : act_method a <> V8_METHOD_UNKNOWN).
      { intros E. apply method_eqb_eq in E. rewrite E in Ea. discriminate. }
      destruct (Hinv Hne) as (h & Hh & _ & Hc).
      destruct (Hinv2 Hne) as (h2 & Hh2 & _ & Hc2).
      assert (Heq : spec_handler a request2 = spec_handler a request).
      { destruct Hsame as [Hnf|Hs]; [|exact Hs].
        unfold spec_handler. rewrite Hnf. reflexivity. }
      rewrite Heq, Hh in Hh2. inversion Hh2; subst h2.
      rewrite Hc, Hc2. reflexivity.
  - intros j1 j2 b1 b2 Hlt H1 H2 Hm1 Hm2 Heq. subst j2.
    destruct (Hbefore j1 b1 Hlt H1) as [_ Hno]. contradiction.
Qed.

Lemma router_selects_first_match_witness :
  table_ok (actions (st_v8 demo_state)) = true /\
  str_offset (req_route ping_request) (base_size (st_v8 demo_state)) = Some "/ping" /\
  exists i a resp' s' tr,
    route_loop (actions (st_v8 demo_state)) 0 ping_request
               (v8_response_create ping_request 5) demo_state
    = (Ret (i, resp'), s') /\
    st_trace s' = st_trace demo_state ++ tr /\
    nth_error (actions (st_v8 demo_state)) i = Some a /\
    spec_first_match V8_METHOD_GET "/ping" (actions (st_v8 demo_state)) 0 =
      (if method_eqb (act_method a) V8_METHOD_UNKNOWN then None else Some (i, a)) /\
    (act_method a <> V8_METHOD_UNKNOWN ->
     exists h, spec_handler a ping_request = Some h /\
               handler_calls tr = [h_addr h]) /\
    i <> 3%nat.
Proof.
  split; [reflexivity|]. split; [reflexivity|].
  destruct (proj2 (router_selects_first_match demo_state ping_request
                     (v8_response_create ping_request 5) "/ping" eq_refl) eq_refl)
    as (i & a & resp' & s' & tr & Hrun & Htr & Hn & _ & _ & Hspec & _ & Hinv & _ & Hdup).
  exists i, a, resp', s', tr. split; [exact Hrun|]. split; [exact Htr|].
  split; [exact Hn|]. split; [exact Hspec|]. split.
  - intros Hne. destruct (Hinv Hne) as (h & Hh & _ & Hc).
    exists h. split; [exact Hh | exact Hc].
  - apply (Hdup 0%nat 3%nat
                (mkAction V8_METHOD_GET (Some "/ping") (Some pong_handler) None)
                (mkAction V8_METHOD_GET (Some "/ping") (Some admin_handler) None));
      [lia | reflexivity | reflexivity | split; reflexivity | split; reflexivity].
Defined.

(** C4 as stated fails for an entry with a filter: the two requests for
    [/app/admin] have the same method and path, the one without a token
    has the handler of the filter invoked, the one with a token the main
    handler of the entry. *)
Lemma router_handler_depends_on_request : ~ same_handler_routing demo_state.
Proof.
  intros H.
  specialize (H admin_request admin_token_request
                (v8_response_create admin_request 5) eq_refl eq_refl).
  vm_compute in H. discriminate H.
Qed.

(** C5. A request matches an entry that has a filter.  If the filter
    returns a handler, that handler is invoked and the main handler of the
    entry is not; if the filter returns NULL, the main handler is invoked.
    In both cases the loop stops at that entry: one filter call, one
    handler call, and the response of that handler is the one sent. *)
Theorem filter_short_circuit :
  forall (s : State) (sock r : Z) (request : V8Request) (path : string)
         (i : nat) (a : V8Action) (f : V8Filter),
  k_scgi (st_kernel s) = (r, request) ->
  (r <? 0) = false ->
  str_offset (req_route request) (base_size (st_v8 s)) = Some path ->
  spec_first_match (req_method request) path (actions (st_v8 s)) 0 = Some (i, a) ->
  act_filter a = Some f ->
  let s1 := after_read s sock r request path in
  let resp0 := v8_response_create v8_request_create sock in
  forall chosen : V8Handler,
    (f_code f request = Some chosen \/
     f_code f request = None /\ act_handler a = Some chosen) ->
    route_loop (actions (st_v8 s)) 0 request resp0 s1 =
      (Ret (i, h_code chosen request resp0),
       with_events s1 [EvFilter (f_addr f); EvHandler (h_addr chosen)]) /\
    exists s' tr,
      v8_request_handler sock s = (Ret 0, s') /\
      st_trace s' = st_trace s ++ tr /\
      filter_calls tr = [f_addr f] /\
      handler_calls tr = [h_addr chosen] /\
      sent_responses tr = [h_code chosen request resp0].
Proof.
  intros s sock r request path i a f Hk Hr Hoff Hm Hf s1 resp0 chosen Hch.
  assert (Hoff1 : str_offset (req_route request) (base_size (st_v8 s1)) = Some path).
  { unfold s1, after_read. cbn. destruct (app_init (st_v8 s)); exact Hoff. }
  assert (Hloop : route_loop (actions (st_v8 s)) 0 request resp0 s1 =
                  (Ret (i, h_code chosen request resp0),
                   with_events s1 [EvFilter (f_addr f); EvHandler (h_addr chosen)])).
  { rewrite (route_loop_spec _ _ _ _ _ _ Hoff1), Hm, invoke_action_run, Hf.
    destruct Hch as [Hc|[Hc Hh]]; rewrite Hc; [|rewrite Hh]; reflexivity. }
  split; [exact Hloop|].
  destruct (spec_first_match_some _ _ _ _ _ _ Hm) as (k & Hj & Hn & _ & Hns & _).
  simpl in Hj. subst k.
  assert (Hne : method_eqb (act_method a) V8_METHOD_UNKNOWN = false).
  { destruct (method_eqb (act_method a) V8_METHOD_UNKNOWN) eqn:E; [|reflexivity].
    apply method_eqb_eq in E. contradiction. }
  rewrite (v8_request_handler_run s sock r request path Hk Hr Hoff).
  fold resp0. fold s1. rewrite Hloop, Hn, Hne.
  eexists.
  exists (EvScgiRead sock r :: app_init_trace (st_v8 s)
            ++ [EvLog LogDebug fmt_request_received
                      [LMethod (req_method request); LStr path];
                EvFilter (f_addr f); EvHandler (h_addr chosen);
                EvSend (h_code chosen request resp0);
                EvResponseDestroy; EvRequestDestroy; EvClose sock]).
  split; [reflexivity|].
  split; [cbn; list_norm; reflexivity|].
  destruct (app_init_trace_calls (st_v8 s)) as (H1 & H2 & H3).
  cbn. rewrite filter_calls_app, handler_calls_app, sent_responses_app, H1, H2, H3.
  repeat split.
Qed.

Lemma filter_short_circuit_witness :
  k_scgi (st_kernel (request_state admin_request)) = (0, admin_request) /\
  (0 <? 0) = false /\
  str_offset (req_route admin_request)
             (base_size (st_v8 (request_state admin_request))) = Some "/admin" /\
  f_code auth_filter admin_request = Some unauthorized_handler /\
  exists s' tr,
    v8_request_handler 5 (request_state admin_request) = (Ret 0, s') /\
    st_trace s' = st_trace (request_state admin_request) ++ tr /\
    filter_calls tr = [f_addr auth_filter] /\
    handler_calls tr = [h_addr unauthorized_handler] /\
    sent_responses tr = [mkResponse 5 401 ""].
Proof.
  split; [reflexivity|]. split; [reflexivity|]. split; [reflexivity|].
  split; [reflexivity|].
  apply (filter_short_circuit (request_state admin_request) 5 0 admin_request
           "/admin" 2
           (mkAction V8_METHOD_GET (Some "/admin") (Some admin_handler)
                     (Some auth_filter))
           auth_filter eq_refl eq_refl eq_refl eq_refl eq_refl
           unauthorized_handler).
  left. reflexivity.
Defined.

(** C6. A request that matches no entry before the sentinel: the worker
    calls no filter and no handler, sets the status of the response, which
    has no body, to "not found", and then sends it. *)
Theorem no_match_not_found :
  forall (s : State) (sock r : Z) (request : V8Request) (path : string) (j : nat),
  k_scgi (st_kernel s) = (r, request) ->
  (r <? 0) = false ->
  str_offset (req_route request) (base_size (st_v8 s)) = Some path ->
  spec_first_match (req_method request) path (actions (st_v8 s)) 0 = None ->
  sentinel_index (actions (st_v8 s)) 0 = Some j ->
  exists s' tr,
    v8_request_handler sock s = (Ret 0, s') /\
    st_trace s' = st_trace s ++ tr /\
    tr = EvScgiRead sock r :: app_init_trace (st_v8 s)
           ++ [EvLog LogDebug fmt_request_received
                     [LMethod (req_method request); LStr path];
               EvLog LogWarn fmt_action_not_found [LStr (req_route request)];
               EvSend (v8_response_set_status
                         (v8_response_create v8_request_create sock)
                         V8_STATUS_NOT_FOUND);
               EvResponseDestroy; EvRequestDestroy; EvClose sock] /\
    filter_calls tr = [] /\
    handler_calls tr = [] /\
    sent_responses tr = [mkResponse sock V8_STATUS_NOT_FOUND ""] /\
    Forall (fun resp => resp_status resp = V8_STATUS_NOT_FOUND /\
                        resp_body resp = "") (sent_responses tr).
Proof.
  intros s sock r request path j Hk Hr Hoff Hm Hs.
  assert (Hoff1 : str_offset (req_route request)
                             (base_size (st_v8 (after_read s sock r request path)))
                  = Some path).
  { unfold after_read. cbn. destruct (app_init (st_v8 s)); exact Hoff. }
  destruct (spec_first_match_none _ _ _ _ _ Hm Hs) as (k & a & Hj & Hn & Hma & _).
  simpl in Hj. subst k.
  rewrite (v8_request_handler_run s sock r request path Hk Hr Hoff).
  rewrite (route_loop_spec _ _ _ _ _ _ Hoff1), Hm, Hs, Hn, Hma.
  eexists; eexists. split; [reflexivity|].
  split; [|split; [reflexivity|]].
  - cbn. list_norm. reflexivity.
  - destruct (app_init_trace_calls (st_v8 s)) as (H1 & H2 & H3).
    cbn. rewrite filter_calls_app, handler_calls_app, sent_responses_app, H1, H2, H3.
    repeat split. repeat constructor.
Qed.

Lemma no_match_not_found_witness :
  k_scgi (st_kernel (request_state missing_request)) = (0, missing_request) /\
  (0 <? 0) = false /\
  str_offset (req_route missing_request)
             (base_size (st_v8 (request_state missing_request))) = Some "/missing" /\
  spec_first_match V8_METHOD_GET "/missing"
                   (actions (st_v8 (request_state missing_request))) 0 = None /\
  sentinel_index (actions (st_v8 (request_state missing_request))) 0 = Some 4%nat /\
  exists s' tr,
    v8_request_handler 5 (request_state missing_request) = (Ret 0, s') /\
    st_trace s' = st_trace (request_state missing_request) ++ tr /\
    filter_calls tr = [] /\
    handler_calls tr = [] /\
    sent_responses tr = [mkResponse 5 V8_STATUS_NOT_FOUND ""].
Proof.
  split; [reflexivity|]. split; [reflexivity|]. split; [reflexivity|].
  split; [reflexivity|]. split; [reflexivity|].
  destruct (no_match_not_found (request_state missing_request) 5 0 missing_request
              "/missing" 4 eq_refl eq_refl eq_refl eq_refl eq_refl)
    as (s' & tr & Hrun & Htr & _ & Hf & Hh & Hsent & _).
  exists s', tr. repeat split; assumption.
Defined.

(** Whatever the table and the state, an entry at which the loop stops is
    the sentinel or passes the test of the loop. *)
Lemma route_loop_sound : forall acts i0 s request response i resp' s',
  route_loop acts i0 request response s = (Ret (i, resp'), s') ->
  exists k a,
    i = (i0 + k)%nat /\ nth_error acts k = Some a /\
    (act_method a = V8_METHOD_UNKNOWN \/
     action_matches (base_size (st_v8 s)) (req_method request)
                    (req_route request) a = Some true).
Proof.
  induction acts as [|x acts IH]; intros i0 s request response i resp' s' H;
    simpl in H; [discriminate|].
  destruct (method_eqb (act_method x) V8_METHOD_UNKNOWN) eqn:Hx.
  - inversion H; subst. exists O, x. rewrite Nat.add_0_r.
    split; [reflexivity|]. split; [reflexivity|]. left. apply method_eqb_eq, Hx.
  - unfold bind at 1, get_v8 in H. unfold bind at 1 in H.
    unfold v8_request_method, v8_request_route in H.
    destruct (action_matches (base_size (st_v8 s)) (req_method request)
                             (req_route request) x) as [[|]|] eqn:Hm;
      simpl in H; [| |discriminate].
    + rewrite invoke_action_run in H.
      assert (i = i0).
      { destruct (act_filter x) as [f|];
          [destruct (f_code f request)|];
          try destruct (act_handler x); inversion H; reflexivity. }
      subst i. exists O, x. rewrite Nat.add_0_r.
      split; [reflexivity|]. split; [reflexivity|]. right. exact Hm.
    + destruct (IH _ _ _ _ _ _ _ H) as (k & a & Hi & Hn & Ha).
      exists (S k), a. split; [lia|]. split; [exact Hn|]. exact Ha.
Qed.

(** C10. An entry whose stored path is NULL fails the test of the loop
    whatever the method, and is never the entry at which the router stops
    to call a filter or a handler. *)
Theorem null_route_never_selected :
  (forall bsize method route a,
     act_route a = None -> action_matches bsize method route a = Some false) /\
  (forall s request response i resp' s' a,
     route_loop (actions (st_v8 s)) 0 request response s = (Ret (i, resp'), s') ->
     nth_error (actions (st_v8 s)) i = Some a ->
     act_method a <> V8_METHOD_UNKNOWN ->
     act_route a <> None).
Proof.
  split.
  - intros bsize method route a Hr. unfold action_matches. rewrite Hr.
    destruct (method_eqb method (act_method a)); reflexivity.
  - intros s request response i resp' s' a Hrun Hn Hns Hnull.
    destruct (route_loop_sound _ _ _ _ _ _ _ _ Hrun) as (k & b & Hi & Hk & Hb).
    simpl in Hi. subst k. rewrite Hn in Hk. inversion Hk; subst b.
    destruct Hb as [Hb|Hb]; [contradiction|].
    unfold action_matches in Hb. rewrite Hnull in Hb.
    destruct (method_eqb (req_method request) (act_method a)); discriminate.
Qed.

Lemma null_route_never_selected_witness :
  act_route (mkAction V8_METHOD_GET None (Some admin_handler) None) = None /\
  action_matches 4 V8_METHOD_GET "/app/admin"
                 (mkAction V8_METHOD_GET None (Some admin_handler) None)
  = Some false /\
  (exists resp' s',
     route_loop (actions (st_v8 demo_state)) 0 admin_request
                (v8_response_create admin_request 5) demo_state
     = (Ret (2%nat, resp'), s')) /\
  act_route (mkAction V8_METHOD_GET (Some "/admin") (Some admin_handler)
                      (Some auth_filter)) <> None.
Proof.
  split; [reflexivity|].
  split; [apply (proj1 null_route_never_selected); reflexivity|].
  split; [eexists; eexists; reflexivity|].
  apply (proj2 null_route_never_selected demo_state admin_request
               (v8_response_create admin_request 5) 2%nat
               (mkResponse 5 401 "")
               (with_events demo_state
                  [EvFilter (f_addr auth_filter);
                   EvHandler (h_addr unauthorized_handler)]));
    [reflexivity | reflexivity | discriminate].
Defined.

(** ** The base prefix *)





(** ** The worker *)

Lemma v8_child_exec_ok : forall s sock,
  k_sigunblock (st_kernel s) = None ->
  v8_child_exec sock s =
  match v8_request_handler sock (torn_down s) with
  | (Ret c, s2) => (Exit c, s2)
  | (Exit c, s2) => (Exit c, s2)
  | (Undef, s2) => (Undef, s2)
  | (OutOfFuel, s2) => (OutOfFuel, s2)
  end.
Proof.
  intros s sock Hu.
  destruct s as [[lfd sfd bs cfg disp acts ad ai] e
                   [bl fk nf sq zs rs su b sc fds] tr].
  cbn in Hu. subst su.
  unfold v8_child_exec, torn_down, teardown_trace.
  cbn -[v8_request_handler]. list_norm. unfold bind at 1.
  destruct (v8_request_handler sock _) as [[c|c| |] s2]; reflexivity.
Qed.

Lemma v8_child_exec_blocked : forall s sock err,
  k_sigunblock (st_kernel s) = Some err ->
  v8_child_exec sock s =
  (Exit (-1),
   mkState (mkV8 (-1) (-1) (base_size (st_v8 s)) (config (st_v8 s)) None
                 (actions (st_v8 s)) (app_data (st_v8 s)) (app_init (st_v8 s)))
           err
           (set_fds (st_kernel s)
                    (remove_fd (sockfd (st_v8 s))
                               (remove_fd (sigfd (st_v8 s)) (k_fds (st_kernel s)))))
           (st_trace s ++ teardown_trace (st_v8 s) (-1)
              ++ [EvLog LogError fmt_unblock_failed [LInt err]])).
Proof.
  intros s sock err Hu.
  destruct s as [[lfd sfd bs cfg disp acts ad ai] e
                   [bl fk nf sq zs rs su b sc fds] tr].
  cbn in Hu. subst su.
  unfold v8_child_exec, teardown_trace. cbn. list_norm. reflexivity.
Qed.

(** A failed read: the handler logs, closes the connection and returns -1. *)
Lemma v8_request_handler_read_failed : forall s sock r request,
  k_scgi (st_kernel s) = (r, request) ->
  (r <? 0) = true ->
  v8_request_handler sock s =
  (Ret (-1),
   mkState (st_v8 s) (st_errno s)
           (set_fds (st_kernel s) (remove_fd sock (k_fds (st_kernel s))))
           (st_trace s ++ [EvScgiRead sock r; EvLog LogWarn fmt_could_not_read [];
                           EvClose sock])).
Proof.
  intros s sock r request Hk Hr.
  destruct s as [v e [bl fk nf sq zs rs su b sc fds] tr].
  cbn in Hk. subst sc.
  unfold v8_request_handler. cbn -[Z.ltb]. rewrite Hr. cbn. list_norm. reflexivity.
Qed.

Lemma v8_request_handler_undefined : forall s sock r request,
  k_scgi (st_kernel s) = (r, request) ->
  (r <? 0) = false ->
  str_offset (req_route request) (base_size (st_v8 s)) = None ->
  fst (v8_request_handler sock s) = Undef.
Proof.
  intros s sock r request Hk Hr Hoff.
  destruct s as [[lfd sfd bs cfg disp acts ad ai] e
                   [bl fk nf sq zs rs su b sc fds] tr].
  cbn in Hk, Hoff. subst sc.
  unfold v8_request_handler. cbn -[route_loop Z.ltb str_offset]. rewrite Hr.
  unfold v8_request_route.
  destruct ai; cbn -[route_loop Z.ltb str_offset]; rewrite Hoff; reflexivity.
Qed.

Lemma route_loop_result : forall acts s request response path,
  str_offset (req_route request) (base_size (st_v8 s)) = Some path ->
  (exists i resp, fst (route_loop acts 0 request response s) = Ret (i, resp)) \/
  fst (route_loop acts 0 request response s) = Undef.
Proof.
  intros acts s request response path Hoff.
  rewrite (route_loop_spec _ _ _ _ _ _ Hoff).
  destruct (spec_first_match (req_method request) path acts 0) as [[j a]|].
  - rewrite invoke_action_run.
    destruct (act_filter a) as [f|]; [destruct (f_code f request)|];
      try destruct (act_handler a); cbn; eauto.
  - destruct (sentinel_index acts 0); cbn; eauto.
Qed.

(** After a successful read the handler returns 0 or is undefined. *)
Lemma v8_request_handler_result : forall s sock r request,
  k_scgi (st_kernel s) = (r, request) ->
  (r <? 0) = false ->
  fst (v8_request_handler sock s) = Ret 0 \/
  fst (v8_request_handler sock s) = Undef.
Proof.
  intros s sock r request Hk Hr.
  destruct (str_offset (req_route request) (base_size (st_v8 s))) as [path|] eqn:Hoff.
  - rewrite (v8_request_handler_run s sock r request path Hk Hr Hoff).
    assert (Hoff1 : str_offset (req_route request)
                               (base_size (st_v8 (after_read s sock r request path)))
                    = Some path).
    { unfold after_read. cbn. destruct (app_init (st_v8 s)); exact Hoff. }
    destruct (route_loop_result (actions (st_v8 s)) _ request
                (v8_response_create v8_request_create sock) path Hoff1)
      as [(i & resp & H)|H];
      destruct (route_loop _ _ _ _ _) as [res s2]; cbn in H; subst res.
    + destruct (nth_error (actions (st_v8 s)) i); [left|right]; reflexivity.
    + right; reflexivity.
  - right. exact (v8_request_handler_undefined s sock r request Hk Hr Hoff).
Qed.

(** With a well-formed table and a path not shorter than the base URL the
    handler completes. *)
Lemma v8_request_handler_completes : forall s sock r request path,
  k_scgi (st_kernel s) = (r, request) ->
  (r <? 0) = false ->
  str_offset (req_route request) (base_size (st_v8 s)) = Some path ->
  table_ok (actions (st_v8 s)) = true ->
  exists s', v8_request_handler sock s = (Ret 0, s') /\
             exists tr, st_trace s' = st_trace s ++ tr /\
                        List.length (sent_responses tr) = 1%nat.
Proof.
  intros s sock r request path Hk Hr Hoff Hok.
  rewrite (v8_request_handler_run s sock r request path Hk Hr Hoff).
  assert (Hoff1 : str_offset (req_route request)
                             (base_size (st_v8 (after_read s sock r request path)))
                  = Some path).
  { unfold after_read. cbn. destruct (app_init (st_v8 s)); exact Hoff. }
  assert (Hok1 : table_ok (actions (st_v8 (after_read s sock r request path))) = true).
  { unfold after_read. cbn. destruct (app_init (st_v8 s)); exact Hok. }
  assert (Hacts : actions (st_v8 (after_read s sock r request path))
                  = actions (st_v8 s)).
  { unfold after_read. cbn. destruct (app_init (st_v8 s)); reflexivity. }
  rewrite <- Hacts.
  rewrite (route_loop_spec _ _ _ _ _ _ Hoff1).
  destruct (spec_first_match (req_method request) path
              (actions (st_v8 (after_read s sock r request path))) 0)
    as [[j a]|] eqn:Hm.
  - destruct (table_ok_handler _ _ _ _ _ _ Hok1 Hm) as (h & Hh).
    destruct (spec_first_match_some _ _ _ _ _ _ Hm) as (k & Hj & Hn & _ & Hns & _).
    simpl in Hj. subst k.
    assert (Hne : method_eqb (act_method a) V8_METHOD_UNKNOWN = false).
    { destruct (method_eqb (act_method a) V8_METHOD_UNKNOWN) eqn:E; [|reflexivity].
      apply method_eqb_eq in E. contradiction. }
    rewrite invoke_action_run, Hh.
    destruct (act_filter a) as [f|]; [destruct (f_code f request) as [fh|]|];
      rewrite Hn, Hne; (eexists; split; [reflexivity|]); cbn; list_norm;
      eexists; (split; [reflexivity|]);
      destruct (app_init_trace_calls (st_v8 s)) as (_ & _ & H3);
      cbn; rewrite sent_responses_app, H3; reflexivity.
  - destruct (table_ok_sentinel _ O Hok1) as (j & Hs). rewrite Hs.
    destruct (spec_first_match_none _ _ _ _ _ Hm Hs) as (k & a & Hj & Hn & Hma & _).
    simpl in Hj. subst k. rewrite Hn, Hma.
    eexists; split; [reflexivity|]. cbn. list_norm.
    eexists; (split; [reflexivity|]).
    destruct (app_init_trace_calls (st_v8 s)) as (_ & _ & H3).
    cbn; rewrite sent_responses_app, H3; reflexivity.
Qed.

(** C8. A worker whose request read fails logs the failure, closes the
    connection and exits with a non-zero status: it sends no response and
    calls no initializer, filter or handler.  A worker that completes its
    request exits with status 0. *)
Theorem worker_exit_status :
  forall (s : State) (sock r : Z) (request : V8Request),
  k_sigunblock (st_kernel s) = None ->
  k_scgi (st_kernel s) = (r, request) ->
  ((r <? 0) = true ->
   exists s' tr,
     v8_child_exec sock s = (Exit (-1), s') /\
     exit_status (-1) <> 0 /\
     st_trace s' = st_trace s ++ teardown_trace (st_v8 s) 0 ++ tr /\
     tr = [EvScgiRead sock r; EvLog LogWarn fmt_could_not_read []; EvClose sock] /\
     sent_responses tr = [] /\ handler_calls tr = [] /\ filter_calls tr = [] /\
     ~ In EvAppInit tr) /\
  ((r <? 0) = false ->
   (forall c s', v8_child_exec sock s = (Exit c, s') ->
                 c = 0 /\ exit_status c = 0) /\
   (forall path,
      str_offset (req_route request) (base_size (st_v8 s)) = Some path ->
      table_ok (actions (st_v8 s)) = true ->
      exists s' tr,
        v8_child_exec sock s = (Exit 0, s') /\
        st_trace s' = st_trace s ++ teardown_trace (st_v8 s) 0 ++ tr /\
        List.length (sent_responses tr) = 1%nat)).
Proof.
  intros s sock r request Hu Hk.
  rewrite (v8_child_exec_ok s sock Hu).
  assert (Hk' : k_scgi (st_kernel (torn_down s)) = (r, request)) by exact Hk.
  split; intros Hr.
  - rewrite (v8_request_handler_read_failed _ sock r request Hk' Hr).
    eexists; eexists. split; [reflexivity|]. split; [discriminate|].
    split; [cbn; list_norm; reflexivity|]. split; [reflexivity|].
    repeat split. intros [H|[H|[H|[]]]]; discriminate H.
  - split.
    + intros c s' Hrun.
      destruct (v8_request_handler_result _ sock r request Hk' Hr) as [H|H];
        destruct (v8_request_handler sock (torn_down s)) as [res s2];
        cbn in H; subst res; inversion Hrun. split; reflexivity.
    + intros path Hoff Hok.
      destruct (v8_request_handler_completes (torn_down s) sock r request path
                  Hk' Hr Hoff Hok) as (s' & Hrun & tr & Htr & Hsent).
      rewrite Hrun. exists s', tr. split; [reflexivity|].
      split; [rewrite Htr; cbn; list_norm; reflexivity | exact Hsent].
Qed.

Lemma worker_exit_status_witness :
  k_sigunblock (st_kernel broken_request_state) = None /\
  k_scgi (st_kernel broken_request_state) = (-1, v8_request_create) /\
  (-1 <? 0) = true /\
  exists s' tr,
    v8_child_exec 5 broken_request_state = (Exit (-1), s') /\
    exit_status (-1) <> 0 /\
    st_trace s' = st_trace broken_request_state
                    ++ teardown_trace (st_v8 broken_request_state) 0 ++ tr /\
    tr = [EvScgiRead 5 (-1); EvLog LogWarn fmt_could_not_read []; EvClose 5].
Proof.
  split; [reflexivity|]. split; [reflexivity|]. split; [reflexivity|].
  destruct (proj1 (worker_exit_status broken_request_state 5 (-1) v8_request_create
                     eq_refl eq_refl) eq_refl)
    as (s' & tr & Hrun & Hst & Htr & Heq & _).
  exists s', tr. repeat split; assumption.
Defined.

(** ** The worker keeps away from the resources of its parent *)

Lemma worker_step_refl (lfd sfd : Z) (s : State) : worker_step lfd sfd s s.
Proof.
  unfold worker_step. split; [exists []; split; [symmetry; apply app_nil_r | constructor]|].
  repeat split; try reflexivity. apply incl_refl.
Qed.

Lemma worker_step_trans (lfd sfd : Z) (s1 s2 s3 : State) :
  worker_step lfd sfd s1 s2 -> worker_step lfd sfd s2 s3 -> worker_step lfd sfd s1 s3.
Proof.
  intros ((t1 & Ht1 & Hf1) & Hi1 & Ha1 & Hb1 & Hc1 & Hd1)
         ((t2 & Ht2 & Hf2) & Hi2 & Ha2 & Hb2 & Hc2 & Hd2).
  split; [exists (t1 ++ t2); split;
          [rewrite Ht2, Ht1, app_assoc; reflexivity | apply Forall_app; split; assumption]|].
  repeat split; try congruence.
  intros x Hx. apply Hi1, Hi2, Hx.
Qed.

Section Keeps.
Variables lfd sfd : Z.

Lemma keeps_ret {A} (a : A) : keeps lfd sfd (ret a).
Proof. intros s. apply worker_step_refl. Qed.

Lemma keeps_undef {A} : keeps lfd sfd (@undef A).
Proof. intros s. apply worker_step_refl. Qed.

Lemma keeps_get_v8 : keeps lfd sfd get_v8.
Proof. intros s. apply worker_step_refl. Qed.

Lemma keeps_lift_option {A} (o : option A) : keeps lfd sfd (lift_option o).
Proof. destruct o; [apply keeps_ret | apply keeps_undef]. Qed.

Lemma keeps_bind {A B} (m : M A) (k : A -> M B) :
  keeps lfd sfd m -> (forall a, keeps lfd sfd (k a)) -> keeps lfd sfd (bind m k).
Proof.
  intros Hm Hk s. unfold bind. specialize (Hm s).
  destruct (m s) as [[a|c| |] s1]; cbn in Hm |- *; try exact Hm.
  exact (worker_step_trans _ _ _ _ _ Hm (Hk a s1)).
Qed.

Lemma keeps_emit (e : Event) :
  parent_only lfd sfd e = false -> keeps lfd sfd (emit e).
Proof.
  intros He s. unfold worker_step. cbn.
  split; [exists [e]; split; [reflexivity | repeat constructor; exact He]|].
  repeat split; try reflexivity. apply incl_refl.
Qed.

Lemma keeps_set_app_data (d : Z) :
  keeps lfd sfd
        (set_v8 (fun v => mkV8 (sockfd v) (sigfd v) (base_size v) (config v)
                               (dispatcher v) (actions v) d (app_init v))).
Proof.
  intros s. unfold worker_step. cbn.
  split; [exists []; split; [symmetry; apply app_nil_r | constructor]|].
  repeat split; try reflexivity. apply incl_refl.
Qed.

Lemma keeps_scgi_read (sock : Z) (request : V8Request) :
  keeps lfd sfd (v8_scgi_request_read sock request).
Proof.
  intros s. unfold worker_step. cbn.
  split; [eexists; split; [reflexivity | repeat constructor]|].
  repeat split; try reflexivity. apply incl_refl.
Qed.

Lemma keeps_close (fd : Z) :
  fd <> lfd -> fd <> sfd -> keeps lfd sfd (sys_close fd).
Proof.
  intros H1 H2 s. unfold worker_step. cbn.
  apply Z.eqb_neq in H1, H2.
  split; [eexists; split; [reflexivity | repeat constructor; cbn; rewrite H1, H2; reflexivity]|].
  repeat split; try reflexivity.
  intros x Hx. unfold remove_fd in Hx. apply filter_In in Hx. tauto.
Qed.

Lemma keeps_call_handler (h : option V8Handler) request response :
  keeps lfd sfd (call_handler h request response).
Proof.
  destruct h as [f|]; [|apply keeps_undef].
  apply keeps_bind; [apply keeps_emit; reflexivity | intros; apply keeps_ret].
Qed.

Lemma keeps_invoke_action a i request response :
  keeps lfd sfd (invoke_action a i request response).
Proof.
  unfold invoke_action.
  destruct (act_filter a) as [f|].
  - apply keeps_bind.
    + apply keeps_bind; [apply keeps_emit; reflexivity | intros; apply keeps_ret].
    + intros [fh|]; (apply keeps_bind; [apply keeps_call_handler |
                                        intros; apply keeps_ret]).
  - apply keeps_bind; [apply keeps_call_handler | intros; apply keeps_ret].
Qed.

Lemma keeps_route_loop acts : forall i request response,
  keeps lfd sfd (route_loop acts i request response).
Proof.
  induction acts as [|a acts IH]; intros i request response; simpl.
  - apply keeps_undef.
  - destruct (method_eqb (act_method a) V8_METHOD_UNKNOWN); [apply keeps_ret|].
    apply keeps_bind; [apply keeps_get_v8 | intros v8].
    apply keeps_bind; [apply keeps_lift_option | intros [|]].
    + apply keeps_invoke_action.
    + apply IH.
Qed.

Lemma keeps_request_handler (sock : Z) :
  sock <> lfd -> sock <> sfd -> keeps lfd sfd (v8_request_handler sock).
Proof.
  intros H1 H2. unfold v8_request_handler.
  apply keeps_bind; [apply keeps_get_v8 | intros v8].
  apply keeps_bind; [apply keeps_scgi_read | intros [r request]].
  destruct (r <? 0).
  - apply keeps_bind; [apply keeps_emit; reflexivity | intros _].
    apply keeps_bind; [apply keeps_close; assumption | intros _]. apply keeps_ret.
  - apply keeps_bind.
    { destruct (app_init v8) as [init|]; [|apply keeps_ret].
      apply keeps_bind; [apply keeps_emit; reflexivity | intros _].
      apply keeps_set_app_data. }
    intros _.
    apply keeps_bind; [apply keeps_lift_option | intros path].
    apply keeps_bind; [apply keeps_emit; reflexivity | intros _].
    apply keeps_bind; [apply keeps_route_loop | intros [i response]].
    apply keeps_bind; [apply keeps_lift_option | intros a].
    apply keeps_bind.
    { destruct (method_eqb (act_method a) V8_METHOD_UNKNOWN); [|apply keeps_ret].
      apply keeps_bind; [apply keeps_emit; reflexivity | intros _]. apply keeps_ret. }
    intros response'.
    apply keeps_bind; [apply keeps_emit; reflexivity | intros _].
    apply keeps_bind; [apply keeps_emit; reflexivity | intros _].
    apply keeps_bind; [apply keeps_emit; reflexivity | intros _].
    apply keeps_bind; [apply keeps_close; assumption | intros _]. apply keeps_ret.
Qed.
End Keeps.

Lemma remove_fd_not_in (fd : Z) (fds : list Z) : ~ In fd (remove_fd fd fds).
Proof.
  unfold remove_fd. intros H. apply filter_In in H. destruct H as [_ H].
  rewrite Z.eqb_refl in H. discriminate.
Qed.

Lemma remove_fd_incl (fd : Z) (fds : list Z) : incl (remove_fd fd fds) fds.
Proof. intros x H. unfold remove_fd in H. apply filter_In in H. tauto. Qed.

Lemma unblocked_not_in (mask blocked : list Z) (sg : Z) :
  In sg mask ->
  ~ In sg (filter (fun x => negb (existsb (Z.eqb x) mask)) blocked).
Proof.
  intros Hm H. apply filter_In in H. destruct H as [_ H].
  apply negb_true_iff in H.
  assert (Ht : existsb (Z.eqb sg) mask = true).
  { apply existsb_exists. exists sg. split; [exact Hm | apply Z.eqb_refl]. }
  congruence.
Qed.

(** The first protocol read, if any, in a trace that starts with the
    teardown of the worker. *)
Lemma read_after_teardown (v8 : V8) (u : Z) (rest pre post : list Event) (e : Event) :
  is_scgi_read e = true ->
  teardown_trace v8 u ++ rest = pre ++ e :: post ->
  exists pre', pre = teardown_trace v8 u ++ pre'.
Proof.
  intros He H. unfold teardown_trace in *.
  destruct pre as [|e1 pre]; [inversion H; subst; discriminate He|].
  destruct pre as [|e2 pre]; [inversion H; subst; discriminate He|].
  destruct pre as [|e3 pre]; [inversion H; subst; discriminate He|].
  destruct pre as [|e4 pre]; [inversion H; subst; discriminate He|].
  inversion H; subst. exists pre. reflexivity.
Qed.

(** C7. In a worker the signal descriptor and the listening socket are
    closed, the dispatcher is destroyed and the signals are unblocked
    before the request is read: the trace of the worker starts with these
    four calls, a protocol read comes only after them and only when the
    unblocking succeeded, and nothing after them is a call on the
    listening socket, the signal descriptor or the dispatcher, which the
    server structure of the worker no longer holds.  The worker never
    returns. *)
Theorem worker_releases_parent_resources : forall (s : State) (sock : Z),
  sock <> sockfd (st_v8 s) ->
  sock <> sigfd (st_v8 s) ->
  exists res s' u rest,
    v8_child_exec sock s = (res, s') /\
    (forall x, res <> Ret x) /\
    st_trace s' = st_trace s ++ teardown_trace (st_v8 s) u ++ rest /\
    (forall pre e post,
       is_scgi_read e = true ->
       teardown_trace (st_v8 s) u ++ rest = pre ++ e :: post ->
       u = 0 /\ exists pre', pre = teardown_trace (st_v8 s) u ++ pre') /\
    Forall (fun e => parent_only (sockfd (st_v8 s)) (sigfd (st_v8 s)) e = false) rest /\
    sockfd (st_v8 s') = -1 /\
    sigfd (st_v8 s') = -1 /\
    dispatcher (st_v8 s') = None /\
    ~ In (sockfd (st_v8 s)) (k_fds (st_kernel s')) /\
    ~ In (sigfd (st_v8 s)) (k_fds (st_kernel s')) /\
    (u = 0 -> forall sg, In sg signal_mask -> ~ In sg (k_blocked (st_kernel s'))).
Proof.
  intros s sock H1 H2.
  destruct (k_sigunblock (st_kernel s)) as [err|] eqn:Hu.
  - rewrite (v8_child_exec_blocked s sock err Hu).
    eexists; eexists; exists (-1), [EvLog LogError fmt_unblock_failed [LInt err]].
    split; [reflexivity|]. split; [discriminate|]. split; [reflexivity|].
    split.
    { intros pre e post He Heq. exfalso.
      assert (Hin : In e (pre ++ e :: post)) by (apply in_elt).
      rewrite <- Heq in Hin. cbn in Hin.
      destruct Hin as [E|[E|[E|[E|[E|[]]]]]]; subst e; discriminate He. }
    split; [repeat constructor|]. cbn.
    split; [reflexivity|]. split; [reflexivity|]. split; [reflexivity|].
    split; [apply remove_fd_not_in|].
    split; [intros H; apply remove_fd_incl in H; revert H; apply remove_fd_not_in|].
    intros E; discriminate E.
  - rewrite (v8_child_exec_ok s sock Hu).
    destruct (keeps_request_handler (sockfd (st_v8 s)) (sigfd (st_v8 s)) sock H1 H2
                (torn_down s))
      as ((tr & Htr & Hall) & Hincl & Hsock & Hsig & Hdisp & Hblk).
    destruct (v8_request_handler sock (torn_down s)) as [res s2].
    cbn [snd] in Htr, Hincl, Hsock, Hsig, Hdisp, Hblk.
    exists (match res with Ret c => Exit c | Exit c => Exit c
                      | Undef => Undef | OutOfFuel => OutOfFuel end), s2, 0, tr.
    split; [destruct res; reflexivity|].
    split; [destruct res; discriminate|].
    split; [rewrite Htr; cbn; list_norm; reflexivity|].
    split.
    { intros pre e post He Heq. split; [reflexivity|].
      exact (read_after_teardown _ _ _ _ _ _ He Heq). }
    split; [exact Hall|].
    split; [rewrite Hsock; reflexivity|].
    split; [rewrite Hsig; reflexivity|].
    split; [rewrite Hdisp; reflexivity|].
    split; [intros H; apply Hincl in H; revert H; apply remove_fd_not_in|].
    split.
    + intros H. apply Hincl in H. cbn in H. apply remove_fd_incl in H.
      revert H. apply remove_fd_not_in.
    + intros _ sg Hsg. rewrite Hblk. unfold torn_down. cbn [st_kernel k_blocked].
      apply (unblocked_not_in signal_mask), Hsg.
Qed.

Lemma worker_releases_parent_resources_witness :
  5 <> sockfd (st_v8 worker_state) /\
  5 <> sigfd (st_v8 worker_state) /\
  exists res s' u rest,
    v8_child_exec 5 worker_state = (res, s') /\
    (forall x, res <> Ret x) /\
    st_trace s' = st_trace worker_state
                    ++ teardown_trace (st_v8 worker_state) u ++ rest /\
    Forall (fun e => parent_only 3 4 e = false) rest /\
    sockfd (st_v8 s') = -1 /\
    sigfd (st_v8 s') = -1 /\
    dispatcher (st_v8 s') = None /\
    ~ In 3 (k_fds (st_kernel s')) /\
    ~ In 4 (k_fds (st_kernel s')).
Proof.
  assert (Ha : 5 <> sockfd (st_v8 worker_state)) by discriminate.
  assert (Hb : 5 <> sigfd (st_v8 worker_state)) by discriminate.
  split; [exact Ha|]. split; [exact Hb|].
  destruct (worker_releases_parent_resources worker_state 5 Ha Hb)
    as (res & s' & u & rest & Hrun & Hnr & Htr & _ & Hall & Hs & Hg & Hd & Hf1 & Hf2 & _).
  exists res, s', u, rest. repeat split; assumption.
Defined.

(** * Properties of the rest of the server *)

(** ** The signal handler *)

Lemma stop_calls_app (t1 t2 : list Event) :
  stop_calls (t1 ++ t2) = (stop_calls t1 + stop_calls t2)%nat.
Proof.
  induction t1 as [|e t1 IH]; simpl; [reflexivity|].
  destruct e; simpl; rewrite ?IH; reflexivity.
Qed.

Lemma waitpids_quiet (l : list Z) :
  stop_calls (map EvWaitpid l) = O /\ fork_calls (map EvWaitpid l) = O /\
  accepted_socks (map EvWaitpid l) = [] /\ closed_fds (map EvWaitpid l) = [].
Proof. induction l as [|x l IH]; simpl; [repeat split | exact IH]. Qed.

Lemma same_server_refl (s : State) : same_server s s.
Proof. unfold same_server. repeat split. Qed.

Lemma same_server_trans (s1 s2 s3 : State) :
  same_server s1 s2 -> same_server s2 s3 -> same_server s1 s3.
Proof. unfold same_server. intuition congruence. Qed.

(** What one run of the read loop consumes, stops and leaves alone. *)
Lemma signal_loop_full : forall sq s fuel status signo,
  k_sigq (st_kernel s) = sq ->
  (List.length sq + List.length (k_zombies (st_kernel s)) < fuel)%nat ->
  exists s' tr,
    signal_loop fuel status signo s = (Ret tt, s') /\
    st_trace s' = st_trace s ++ tr /\
    k_sigq (st_kernel s') = after_failed_read sq /\
    stop_calls tr = List.length (filter is_termination (read_prefix sq)) /\
    same_server s s' /\
    fork_calls tr = O /\ accepted_socks tr = [] /\ closed_fds tr = [].
Proof.
  induction sq as [|rd sq IH]; intros s fuel status signo Hq Hf;
    destruct s as [v e [bl fk nf sq0 zs rs su b sc fds] tr];
    simpl in Hq; subst sq0; (destruct fuel as [|fuel]; [simpl in Hf; lia|]).
  - cbn. eexists; exists [EvReadSignal (sigfd v) (-1)].
    repeat split; reflexivity.
  - destruct rd as [n|err].
    + assert (Hlen : List.length (filter is_termination
                                         (read_prefix (SigRecord n :: sq)))
                     = ((if is_termination n then 1 else 0)
                        + List.length (filter is_termination (read_prefix sq)))%nat).
      { cbn [read_prefix filter]. destruct (is_termination n); reflexivity. }
      rewrite Hlen. clear Hlen.
      cbn -[handle_sigchld Z.eqb is_termination]. rewrite Z.eqb_refl.
      cbn -[handle_sigchld Z.eqb is_termination]. unfold bind at 1.
      cbn -[handle_sigchld Z.eqb is_termination].
      assert (Hstep : forall (m : M (option Z)) s1 e1 zs1 st1 ev,
                 stop_calls ev = (if is_termination n then 1 else 0)%nat ->
                 fork_calls ev = O -> accepted_socks ev = [] -> closed_fds ev = [] ->
                 (List.length zs1 <= List.length zs)%nat ->
                 s1 = mkState v e (mkKernel bl fk nf sq zs rs su b sc fds)
                              (tr ++ [EvReadSignal (sigfd v) SIGINFO_SIZE]) ->
                 m s1 = (Ret st1,
                         mkState v e1 (mkKernel bl fk nf sq zs1 rs su b sc fds)
                                 ((tr ++ [EvReadSignal (sigfd v) SIGINFO_SIZE]) ++ ev)) ->
                 exists s' tr0,
                   (a <- m ;; signal_loop fuel a (Some n)) s1 = (Ret tt, s') /\
                   st_trace s' = tr ++ tr0 /\
                   k_sigq (st_kernel s') = after_failed_read sq /\
                   stop_calls tr0
                   = ((if is_termination n then 1 else 0)
                      + List.length (filter is_termination (read_prefix sq)))%nat /\
                   same_server (mkState v e (mkKernel bl fk nf (SigRecord n :: sq)
                                                      zs rs su b sc fds) tr) s' /\
                   fork_calls tr0 = O /\ accepted_socks tr0 = [] /\ closed_fds tr0 = []).
      { intros m s1 e1 zs1 st1 ev Hs Hfk Hac Hcl Hlen -> Hm.
        unfold bind. rewrite Hm.
        match goal with
        | |- context [signal_loop fuel ?st ?sg ?s2] =>
            destruct (IH s2 fuel st sg)
              as (s' & tr2 & Hrun & Htr & Hsq & Hstop & Hsame & Hf2 & Ha2 & Hc2);
              [reflexivity | simpl in Hf |- *; lia |]
        end.
        cbn in Htr. list_norm_in Htr.
        exists s', (EvReadSignal (sigfd v) SIGINFO_SIZE :: ev ++ tr2).
        split; [exact Hrun|]. split; [exact Htr|]. split; [exact Hsq|].
        split.
        { cbn [stop_calls]. rewrite stop_calls_app, Hs, Hstop. reflexivity. }
        split.
        { unfold same_server in *. cbn in *. exact Hsame. }
        cbn [fork_calls accepted_socks closed_fds].
        rewrite fork_calls_app, accepted_socks_app, closed_fds_app,
          Hfk, Hac, Hcl, Hf2, Ha2, Hc2.
        repeat split. }
      unfold is_termination in Hstep |- *.
      destruct ((n =? SIGINT) || (n =? SIGQUIT) || (n =? SIGTERM)) eqn:Hterm.
      * eapply (Hstep _ _ e zs status
                      [EvLog LogInfo fmt_termination [];
                       EvDispatcherStop (dispatcher v)]);
          try reflexivity; try lia; cbn; list_norm; reflexivity.
      * destruct (n =? SIGCHLD) eqn:Hchld.
        -- match goal with
           | |- context [handle_sigchld ?f ?st ?s1] =>
               destruct (handle_sigchld_run s1 f st) as (st' & e' & Hrun1);
                 [simpl in Hf |- *; lia |]
           end.
           destruct (waitpids_quiet (zombie_pids zs)) as (W1 & W2 & W3 & W4).
           eapply (Hstep _ _ e' [] st'
                         (EvLog LogDebug fmt_child_signaled []
                          :: map EvWaitpid (zombie_pids zs)
                          ++ [EvWaitpid (wait_idle (mkKernel bl fk nf sq zs rs su b sc fds));
                              EvLog LogDebug fmt_not_changed []]));
             [ cbn [stop_calls]; rewrite stop_calls_app, W1; reflexivity
             | cbn [fork_calls]; rewrite fork_calls_app, W2; reflexivity
             | cbn [accepted_socks]; rewrite accepted_socks_app, W3; reflexivity
             | cbn [closed_fds]; rewrite closed_fds_app, W4; reflexivity
             | simpl; lia | reflexivity | ].
           rewrite Hrun1. cbn. list_norm. reflexivity.
        -- destruct (n =? SIGHUP).
           ++ eapply (Hstep _ _ e zs status [EvLog LogInfo fmt_reload []]);
                try reflexivity; try lia.
           ++ eapply (Hstep _ _ e zs status [EvLog LogError fmt_unexpected [LInt n]]);
                try reflexivity; try lia.
    + cbn -[Z.eqb]. change (-1 =? SIGINFO_SIZE) with false. cbn -[Z.eqb].
      match goal with |- context [negb (?a =? ?b)] => destruct (a =? b) end; cbn.
      * eexists; exists [EvReadSignal (sigfd v) (-1)]. repeat split; reflexivity.
      * eexists; exists [EvReadSignal (sigfd v) (-1);
                         EvLog LogError fmt_siginfo_failed [LInt err]].
        split; [reflexivity|]. split; [cbn; list_norm; reflexivity|].
        repeat split; reflexivity.
Qed.

(** X1. One run of the signal handler reads every pending record up to
    the first read that fails and leaves the records behind that read
    unread; it calls [v8_dispatcher_stop] once for each interrupt, quit or
    terminate record it reads, and for no other record. *)
Theorem signal_handler_drains_records : forall (s : State) (fuel : nat) (fd : Z),
  (List.length (k_sigq (st_kernel s))
   + List.length (k_zombies (st_kernel s)) < fuel)%nat ->
  exists s' tr,
    v8_handle_signal fuel fd s = (Ret tt, s') /\
    st_trace s' = st_trace s ++ tr /\
    k_sigq (st_kernel s') = after_failed_read (k_sigq (st_kernel s)) /\
    stop_calls tr
    = List.length (filter is_termination (read_prefix (k_sigq (st_kernel s)))).
Proof.
  intros s fuel fd Hf. unfold v8_handle_signal.
  destruct (signal_loop_full (k_sigq (st_kernel s)) s fuel None None eq_refl Hf)
    as (s' & tr & Hrun & Htr & Hq & Hstop & _).
  exists s', tr. repeat split; assumption.
Qed.

Lemma signal_handler_drains_records_witness :
  (List.length (k_sigq (st_kernel mixed_signals_state))
   + List.length (k_zombies (st_kernel mixed_signals_state)) < 10)%nat /\
  exists s' tr,
    v8_handle_signal 10 4 mixed_signals_state = (Ret tt, s') /\
    st_trace s' = st_trace mixed_signals_state ++ tr /\
    k_sigq (st_kernel s') = [SigRecord SIGTERM] /\
    stop_calls tr = 2%nat.
Proof.
  assert (Hf : (List.length (k_sigq (st_kernel mixed_signals_state))
                + List.length (k_zombies (st_kernel mixed_signals_state)) < 10)%nat)
    by (simpl; lia).
  split; [exact Hf|].
  exact (signal_handler_drains_records mixed_signals_state 10 4 Hf).
Defined.

(** X2. The signal handler forks no process, accepts no connection and
    closes no descriptor, and it leaves the server structure, the backlog
    of the listening socket, the running children, the signal mask and the
    descriptor table as they were. *)
Theorem signal_handler_leaves_server : forall (s : State) (fuel : nat) (fd : Z),
  (List.length (k_sigq (st_kernel s))
   + List.length (k_zombies (st_kernel s)) < fuel)%nat ->
  exists s' tr,
    v8_handle_signal fuel fd s = (Ret tt, s') /\
    st_trace s' = st_trace s ++ tr /\
    same_server s s' /\
    fork_calls tr = O /\ accepted_socks tr = [] /\ closed_fds tr = [].
Proof.
  intros s fuel fd Hf. unfold v8_handle_signal.
  destruct (signal_loop_full (k_sigq (st_kernel s)) s fuel None None eq_refl Hf)
    as (s' & tr & Hrun & Htr & _ & _ & Hsame & Hfk & Hac & Hcl).
  exists s', tr. repeat split; try assumption; apply Hsame.
Qed.

Lemma signal_handler_leaves_server_witness :
  (List.length (k_sigq (st_kernel three_zombies_state))
   + List.length (k_zombies (st_kernel three_zombies_state)) < 10)%nat /\
  exists s' tr,
    v8_handle_signal 10 4 three_zombies_state = (Ret tt, s') /\
    st_trace s' = st_trace three_zombies_state ++ tr /\
    same_server three_zombies_state s' /\
    fork_calls tr = O /\ accepted_socks tr = [] /\ closed_fds tr = [].
Proof.
  assert (Hf : (List.length (k_sigq (st_kernel three_zombies_state))
                + List.length (k_zombies (st_kernel three_zombies_state)) < 10)%nat)
    by (simpl; lia).
  split; [exact Hf|].
  exact (signal_handler_leaves_server three_zombies_state 10 4 Hf).
Defined.

(** ** The worker makes request calls only *)

Lemma request_step_refl (s : State) : request_step s s.
Proof.
  unfold request_step.
  split; [exists []; split; [symmetry; apply app_nil_r | reflexivity]|].
  repeat split.
Qed.

Lemma request_step_trans (s1 s2 s3 : State) :
  request_step s1 s2 -> request_step s2 s3 -> request_step s1 s3.
Proof.
  intros ((t1 & Ht1 & Hf1) & A1 & B1 & C1 & D1 & E1 & F1)
         ((t2 & Ht2 & Hf2) & A2 & B2 & C2 & D2 & E2 & F2).
  split; [exists (t1 ++ t2); split;
          [rewrite Ht2, Ht1, app_assoc; reflexivity
          | rewrite forallb_app, Hf1, Hf2; reflexivity]|].
  repeat split; congruence.
Qed.

Lemma hr_ret {A} (a : A) : handles_request (ret a).
Proof. intros s. apply request_step_refl. Qed.

Lemma hr_undef {A} : handles_request (@undef A).
Proof. intros s. apply request_step_refl. Qed.

Lemma hr_get_v8 : handles_request get_v8.
Proof. intros s. apply request_step_refl. Qed.

Lemma hr_lift_option {A} (o : option A) : handles_request (lift_option o).
Proof. destruct o; [apply hr_ret | apply hr_undef]. Qed.

Lemma hr_bind {A B} (m : M A) (k : A -> M B) :
  handles_request m -> (forall a, handles_request (k a)) -> handles_request (bind m k).
Proof.
  intros Hm Hk s. unfold bind. specialize (Hm s).
  destruct (m s) as [[a|c| |] s1]; cbn in Hm |- *; try exact Hm.
  exact (request_step_trans _ _ _ Hm (Hk a s1)).
Qed.

Lemma hr_emit (e : Event) : request_call e = true -> handles_request (emit e).
Proof.
  intros He s. unfold request_step. cbn.
  split; [exists [e]; split; [reflexivity | cbn; rewrite He; reflexivity]|].
  repeat split.
Qed.

Lemma hr_set_v8 (f : V8 -> V8) : handles_request (set_v8 f).
Proof.
  intros s. unfold request_step. cbn.
  split; [exists []; split; [symmetry; apply app_nil_r | reflexivity]|].
  repeat split.
Qed.

Lemma hr_scgi_read (sock : Z) (request : V8Request) :
  handles_request (v8_scgi_request_read sock request).
Proof.
  intros s. unfold request_step. cbn.
  split; [eexists; split; [reflexivity | reflexivity]|]. repeat split.
Qed.

Lemma hr_close (fd : Z) : handles_request (sys_close fd).
Proof.
  intros s. unfold request_step. cbn.
  split; [eexists; split; [reflexivity | reflexivity]|]. repeat split.
Qed.

Lemma hr_call_handler (h : option V8Handler) request response :
  handles_request (call_handler h request response).
Proof.
  destruct h as [f|]; [|apply hr_undef].
  apply hr_bind; [apply hr_emit; reflexivity | intros; apply hr_ret].
Qed.

Lemma hr_invoke_action a i request response :
  handles_request (invoke_action a i request response).
Proof.
  unfold invoke_action.
  destruct (act_filter a) as [f|].
  - apply hr_bind.
    + apply hr_bind; [apply hr_emit; reflexivity | intros; apply hr_ret].
    + intros [fh|]; (apply hr_bind; [apply hr_call_handler | intros; apply hr_ret]).
  - apply hr_bind; [apply hr_call_handler | intros; apply hr_ret].
Qed.

Lemma hr_route_loop acts : forall i request response,
  handles_request (route_loop acts i request response).
Proof.
  induction acts as [|a acts IH]; intros i request response; simpl.
  - apply hr_undef.
  - destruct (method_eqb (act_method a) V8_METHOD_UNKNOWN); [apply hr_ret|].
    apply hr_bind; [apply hr_get_v8 | intros v8].
    apply hr_bind; [apply hr_lift_option | intros [|]].
    + apply hr_invoke_action.
    + apply IH.
Qed.

Lemma hr_request_handler (sock : Z) : handles_request (v8_request_handler sock).
Proof.
  unfold v8_request_handler.
  apply hr_bind; [apply hr_get_v8 | intros v8].
  apply hr_bind; [apply hr_scgi_read | intros [r request]].
  destruct (r <? 0).
  - apply hr_bind; [apply hr_emit; reflexivity | intros _].
    apply hr_bind; [apply hr_close | intros _]. apply hr_ret.
  - apply hr_bind.
    { destruct (app_init v8) as [init|]; [|apply hr_ret].
      apply hr_bind; [apply hr_emit; reflexivity | intros _]. apply hr_set_v8. }
    intros _.
    apply hr_bind; [apply hr_lift_option | intros path].
    apply hr_bind; [apply hr_emit; reflexivity | intros _].
    apply hr_bind; [apply hr_route_loop | intros [i response]].
    apply hr_bind; [apply hr_lift_option | intros a].
    apply hr_bind.
    { destruct (method_eqb (act_method a) V8_METHOD_UNKNOWN); [|apply hr_ret].
      apply hr_bind; [apply hr_emit; reflexivity | intros _]. apply hr_ret. }
    intros response'.
    apply hr_bind; [apply hr_emit; reflexivity | intros _].
    apply hr_bind; [apply hr_emit; reflexivity | intros _].
    apply hr_bind; [apply hr_emit; reflexivity | intros _].
    apply hr_bind; [apply hr_close | intros _]. apply hr_ret.
Qed.

(** The request handler returns -1 or 0, or is undefined. *)
Lemma v8_request_handler_outcome (s : State) (sock : Z) :
  fst (v8_request_handler sock s) = Ret (-1) \/
  fst (v8_request_handler sock s) = Ret 0 \/
  fst (v8_request_handler sock s) = Undef.
Proof.
  destruct (k_scgi (st_kernel s)) as [r request] eqn:Hk.
  destruct (r <? 0) eqn:Hr.
  - left. rewrite (v8_request_handler_read_failed s sock r request Hk Hr). reflexivity.
  - right. exact (v8_request_handler_result s sock r request Hk Hr).
Qed.

(** The worker exits or is undefined; after its teardown it makes request
    calls only. *)
Lemma v8_child_exec_outcome (s : State) (sock : Z) :
  exists res s' u rest,
    v8_child_exec sock s = (res, s') /\
    ((exists c, res = Exit c) \/ res = Undef) /\
    st_trace s' = st_trace s ++ teardown_trace (st_v8 s) u ++ rest /\
    forallb request_call rest = true /\
    k_backlog (st_kernel s') = k_backlog (st_kernel s) /\
    k_nfork (st_kernel s') = k_nfork (st_kernel s) /\
    k_sigq (st_kernel s') = k_sigq (st_kernel s) /\
    k_zombies (st_kernel s') = k_zombies (st_kernel s) /\
    k_running (st_kernel s') = k_running (st_kernel s).
Proof.
  destruct (k_sigunblock (st_kernel s)) as [err|] eqn:Hu.
  - rewrite (v8_child_exec_blocked s sock err Hu).
    eexists; eexists; exists (-1), [EvLog LogError fmt_unblock_failed [LInt err]].
    split; [reflexivity|]. split; [left; eexists; reflexivity|].
    repeat split.
  - rewrite (v8_child_exec_ok s sock Hu).
    destruct (hr_request_handler sock (torn_down s))
      as ((tr & Htr & Hall) & A & B & C & D & E & _).
    pose proof (v8_request_handler_outcome (torn_down s) sock) as Hres.
    destruct (v8_request_handler sock (torn_down s)) as [res s2].
    cbn [fst snd] in *.
    exists (match res with Ret c => Exit c | Exit c => Exit c
                      | Undef => Undef | OutOfFuel => OutOfFuel end), s2, 0, tr.
    split; [destruct res; reflexivity|].
    split; [destruct Hres as [->|[->| ->]]; [left; eexists | left; eexists | right];
            reflexivity|].
    split; [rewrite Htr; cbn; list_norm; reflexivity|].
    split; [exact Hall|].
    repeat split; assumption.
Qed.

(** X3. When [fork] returns 0 in the accept loop, the process does not go
    back to the loop: [v8_handle_connection] does not return, the process
    exits (or is undefined) after the teardown and request calls only, and
    the connections still pending are left to the parent: one accept call,
    one fork call, no wait, no signal read. *)
Theorem child_leaves_accept_loop :
  forall (s : State) (fuel : nat) (fd : Z) (c : nat) (q : list AcceptResult),
  k_backlog (st_kernel s) = Accepted c :: q ->
  k_fork (st_kernel s) (k_nfork (st_kernel s)) = ForkChild ->
  (0 < fuel)%nat ->
  exists res s' u rest,
    v8_handle_connection fuel fd s = (res, s') /\
    ((exists code, res = Exit code) \/ res = Undef) /\
    st_trace s' = st_trace s
                    ++ [EvAccept (sockfd (st_v8 s)) (Z.of_nat c);
                        EvLog LogDebug fmt_accepted []; EvFork 0]
                    ++ teardown_trace (st_v8 s) u ++ rest /\
    forallb request_call rest = true /\
    k_backlog (st_kernel s') = q /\
    k_nfork (st_kernel s') = S (k_nfork (st_kernel s)) /\
    k_zombies (st_kernel s') = [] /\
    k_running (st_kernel s') = [].
Proof.
  intros s fuel fd c q Hq Hfk Hfuel.
  destruct fuel as [|fuel]; [lia|].
  destruct s as [v e [bl fk nf sq zs rs su b sc fds] tr].
  cbn in Hq, Hfk. subst bl.
  unfold v8_handle_connection. cbn -[Z.eqb v8_child_exec].
  change (0 =? -1) with false. cbn -[Z.eqb v8_child_exec].
  assert (Hc : (Z.of_nat c =? -1) = false) by (apply Z.eqb_neq; lia).
  rewrite Hc. cbn -[Z.eqb v8_child_exec]. unfold bind. cbn -[Z.eqb v8_child_exec].
  unfold v8_fork, sys_fork, syscall, bind. cbn -[Z.eqb v8_child_exec].
  rewrite Hfk. cbn -[Z.eqb v8_child_exec].
  change (0 =? 0) with true. cbn -[Z.eqb v8_child_exec].
  match goal with
  | |- context [v8_child_exec ?sock ?s1] =>
      destruct (v8_child_exec_outcome s1 sock)
        as (res & s' & u & rest & Hrun & Hres & Htr & Hall & A & B & C & D & E);
        rewrite Hrun
  end.
  cbn in Htr, A, B, C, D, E. list_norm_in Htr.
  destruct Hres as [(code & ->)| ->]; cbn.
  - exists (Exit code), s', u, rest.
    split; [reflexivity|]. split; [left; eexists; reflexivity|].
    split; [exact Htr|]. repeat split; assumption.
  - exists Undef, s', u, rest.
    split; [reflexivity|]. split; [right; reflexivity|].
    split; [exact Htr|]. repeat split; assumption.
Qed.

Lemma child_leaves_accept_loop_witness :
  k_backlog (st_kernel child_state) = [Accepted 5; Accepted 6] /\
  (0 < 3)%nat /\
  exists res s' u rest,
    v8_handle_connection 3 3 child_state = (res, s') /\
    ((exists code, res = Exit code) \/ res = Undef) /\
    st_trace s' = [EvAccept 3 5; EvLog LogDebug fmt_accepted []; EvFork 0]
                    ++ teardown_trace (st_v8 child_state) u ++ rest /\
    forallb request_call rest = true /\
    k_backlog (st_kernel s') = [Accepted 6].
Proof.
  split; [reflexivity|]. assert (H3 : (0 < 3)%nat) by lia. split; [exact H3|].
  pose proof (child_leaves_accept_loop child_state 3%nat 3 5%nat [Accepted 6]
                                       eq_refl eq_refl H3) as H.
  destruct H as (res & s' & u & rest & Hrun & Hres & Htr & Hall & Hq & Hrest).
  exists res, s', u, rest. repeat split; assumption.
Defined.

(** ** The request handler *)

Lemma routing_calls_quiet (evs : list Event) :
  forallb routing_call evs = true ->
  sent_responses evs = [] /\ destroy_calls evs = O /\ closed_fds evs = [] /\
  app_init_calls evs = O.
Proof.
  induction evs as [|e evs IH]; [repeat split|].
  cbn [forallb]. intros H. apply andb_true_iff in H. destruct H as [He H].
  destruct e; try discriminate He; cbn; exact (IH H).
Qed.

Lemma destroy_calls_app (t1 t2 : list Event) :
  destroy_calls (t1 ++ t2) = (destroy_calls t1 + destroy_calls t2)%nat.
Proof.
  induction t1 as [|e t1 IH]; simpl; [reflexivity|].
  destruct e; simpl; rewrite ?IH; reflexivity.
Qed.

Lemma app_init_calls_app (t1 t2 : list Event) :
  app_init_calls (t1 ++ t2) = (app_init_calls t1 + app_init_calls t2)%nat.
Proof.
  induction t1 as [|e t1 IH]; simpl; [reflexivity|].
  destruct e; simpl; rewrite ?IH; reflexivity.
Qed.

(** The routing loop changes nothing but the trace, to which it adds
    filter and handler calls only. *)
Lemma route_loop_shape : forall acts i s request response path,
  str_offset (req_route request) (base_size (st_v8 s)) = Some path ->
  exists evs,
    snd (route_loop acts i request response s) = with_events s evs /\
    forallb routing_call evs = true.
Proof.
  intros acts i s request response path Hoff.
  rewrite (route_loop_spec _ _ _ _ _ _ Hoff).
  assert (Hs : s = with_events s []).
  { destruct s. unfold with_events. cbn. rewrite app_nil_r. reflexivity. }
  destruct (spec_first_match (req_method request) path acts i) as [[j a]|].
  - rewrite invoke_action_run.
    destruct (act_filter a) as [f|]; [destruct (f_code f request)|];
      try destruct (act_handler a); cbn [snd];
      first [ eexists; split; [reflexivity | reflexivity]
            | exists []; split; [exact Hs | reflexivity] ].
  - destruct (sentinel_index acts i); cbn [snd];
      (exists []; split; [exact Hs | reflexivity]).
Qed.

(** The request handler when the path is shorter than the base URL. *)
Lemma v8_request_handler_undefined_run : forall s sock r request,
  k_scgi (st_kernel s) = (r, request) ->
  (r <? 0) = false ->
  str_offset (req_route request) (base_size (st_v8 s)) = None ->
  v8_request_handler sock s =
  (Undef,
   mkState (match app_init (st_v8 s) with
            | Some init =>
                mkV8 (sockfd (st_v8 s)) (sigfd (st_v8 s)) (base_size (st_v8 s))
                     (config (st_v8 s)) (dispatcher (st_v8 s)) (actions (st_v8 s))
                     (init tt) (app_init (st_v8 s))
            | None => st_v8 s
            end)
           (st_errno s) (st_kernel s)
           (st_trace s ++ EvScgiRead sock r :: app_init_trace (st_v8 s))).
Proof.
  intros s sock r request Hk Hr Hoff.
  destruct s as [[lfd sfd bs cfg disp acts ad ai] e
                   [bl fk nf sq zs rs su b sc fds] tr].
  cbn in Hk, Hoff. subst sc.
  unfold v8_request_handler, app_init_trace.
  cbn -[route_loop Z.ltb str_offset]. rewrite Hr.
  unfold v8_request_route.
  destruct ai; cbn -[route_loop Z.ltb str_offset]; rewrite Hoff; cbn;
    list_norm; reflexivity.
Qed.

(** X4. Whenever the request handler returns, it has closed the
    connection, as its last call.  When it returns 0 it has sent exactly
    one response and then destroyed the response and the request, in this
    order, just before the close; when it returns -1, after a failed read,
    it has sent nothing and destroyed neither object. *)
Theorem request_handler_cleanup :
  forall (s : State) (sock c : Z) (s' : State),
  v8_request_handler sock s = (Ret c, s') ->
  k_fds (st_kernel s') = remove_fd sock (k_fds (st_kernel s)) /\
  exists tr,
    st_trace s' = st_trace s ++ tr /\
    ((c = -1 /\ (fst (k_scgi (st_kernel s)) <? 0) = true /\
      tr = [EvScgiRead sock (fst (k_scgi (st_kernel s)));
            EvLog LogWarn fmt_could_not_read []; EvClose sock] /\
      sent_responses tr = [] /\ destroy_calls tr = O) \/
     (c = 0 /\ (fst (k_scgi (st_kernel s)) <? 0) = false /\
      exists pre resp,
        tr = pre ++ [EvSend resp; EvResponseDestroy; EvRequestDestroy; EvClose sock] /\
        sent_responses pre = [] /\ destroy_calls pre = O /\ closed_fds pre = [])).
Proof.
  intros s sock c s' Hrun.
  destruct (k_scgi (st_kernel s)) as [r request] eqn:Hk. cbn [fst].
  destruct (r <? 0) eqn:Hr.
  - rewrite (v8_request_handler_read_failed s sock r request Hk Hr) in Hrun.
    inversion Hrun; subst. cbn. split; [reflexivity|].
    eexists. split; [reflexivity|]. left. repeat split.
  - destruct (str_offset (req_route request) (base_size (st_v8 s))) as [path|] eqn:Hoff.
    2:{ pose proof (v8_request_handler_undefined s sock r request Hk Hr Hoff) as Hu.
        rewrite Hrun in Hu. discriminate Hu. }
    rewrite (v8_request_handler_run s sock r request path Hk Hr Hoff) in Hrun.
    assert (Hoff1 : str_offset (req_route request)
                               (base_size (st_v8 (after_read s sock r request path)))
                    = Some path).
    { unfold after_read. cbn. destruct (app_init (st_v8 s)); exact Hoff. }
    destruct (route_loop_shape (actions (st_v8 s)) 0 _ request
                (v8_response_create v8_request_create sock) path Hoff1)
      as (evs & Hsnd & Hevs).
    destruct (route_loop _ _ _ _ _) as [[[i resp]|x| |] s2];
      try discriminate Hrun.
    destruct (nth_error (actions (st_v8 s)) i) as [a|]; [|discriminate Hrun].
    inversion Hrun; subst c s'. clear Hrun. cbn [snd] in Hsnd. subst s2.
    destruct (routing_calls_quiet evs Hevs) as (Q1 & Q2 & Q3 & _).
    destruct (app_init_trace_calls (st_v8 s)) as (_ & _ & I3).
    assert (I2 : destroy_calls (app_init_trace (st_v8 s)) = O
                 /\ closed_fds (app_init_trace (st_v8 s)) = []).
    { unfold app_init_trace. destruct (app_init (st_v8 s)); split; reflexivity. }
    destruct I2 as [I2 I4].
    split; [reflexivity|].
    destruct (method_eqb (act_method a) V8_METHOD_UNKNOWN).
    + exists (EvScgiRead sock r :: app_init_trace (st_v8 s)
                ++ [EvLog LogDebug fmt_request_received
                          [LMethod (req_method request); LStr path]]
                ++ evs
                ++ [EvLog LogWarn fmt_action_not_found [LStr (req_route request)]]
                ++ [EvSend (v8_response_set_status resp V8_STATUS_NOT_FOUND);
                    EvResponseDestroy; EvRequestDestroy; EvClose sock]).
      split; [cbn; list_norm; reflexivity|]. right.
      split; [reflexivity|]. split; [reflexivity|].
      exists (EvScgiRead sock r :: app_init_trace (st_v8 s)
                ++ [EvLog LogDebug fmt_request_received
                          [LMethod (req_method request); LStr path]]
                ++ evs
                ++ [EvLog LogWarn fmt_action_not_found [LStr (req_route request)]]),
             (v8_response_set_status resp V8_STATUS_NOT_FOUND).
      split; [list_norm; reflexivity|].
      cbn [sent_responses destroy_calls closed_fds].
      rewrite !sent_responses_app, !destroy_calls_app, !closed_fds_app,
        I3, I2, I4, Q1, Q2, Q3.
      repeat split.
    + exists (EvScgiRead sock r :: app_init_trace (st_v8 s)
                ++ [EvLog LogDebug fmt_request_received
                          [LMethod (req_method request); LStr path]]
                ++ evs
                ++ [EvSend resp; EvResponseDestroy; EvRequestDestroy; EvClose sock]).
      split; [cbn; list_norm; reflexivity|]. right.
      split; [reflexivity|]. split; [reflexivity|].
      exists (EvScgiRead sock r :: app_init_trace (st_v8 s)
                ++ [EvLog LogDebug fmt_request_received
                          [LMethod (req_method request); LStr path]]
                ++ evs), resp.
      split; [list_norm; reflexivity|].
      cbn [sent_responses destroy_calls closed_fds].
      rewrite !sent_responses_app, !destroy_calls_app, !closed_fds_app,
        I3, I2, I4, Q1, Q2, Q3.
      repeat split.
Qed.

Lemma request_handler_cleanup_witness :
  v8_request_handler 5 (request_state ping_request)
  = (Ret 0, snd (v8_request_handler 5 (request_state ping_request))) /\
  k_fds (st_kernel (snd (v8_request_handler 5 (request_state ping_request))))
  = [3; 4] /\
  sent_responses (st_trace (snd (v8_request_handler 5 (request_state ping_request))))
  = [mkResponse 5 V8_STATUS_OK "pong"].
Proof.
  assert (H : v8_request_handler 5 (request_state ping_request)
              = (Ret 0, snd (v8_request_handler 5 (request_state ping_request))))
    by reflexivity.
  split; [exact H|].
  destruct (request_handler_cleanup _ _ _ _ H) as (Hfds & _).
  split; [exact Hfds | reflexivity].
Defined.

(** X5. With an application-data initializer configured, a worker whose
    read succeeded calls it exactly once, right after the read and before
    the routing, and [v8_app_data] then returns what the initializer
    returned, whatever becomes of the request afterwards. *)
Theorem app_data_initialized_once :
  forall (s : State) (sock r : Z) (request : V8Request) (init : unit -> Z),
  k_scgi (st_kernel s) = (r, request) ->
  (r <? 0) = false ->
  app_init (st_v8 s) = Some init ->
  exists rest,
    st_trace (snd (v8_request_handler sock s))
    = st_trace s ++ EvScgiRead sock r :: EvAppInit :: rest /\
    app_init_calls rest = O /\
    fst (v8_app_data (snd (v8_request_handler sock s))) = Ret (init tt).
Proof.
  intros s sock r request init Hk Hr Hi.
  destruct (str_offset (req_route request) (base_size (st_v8 s))) as [path|] eqn:Hoff.
  - rewrite (v8_request_handler_run s sock r request path Hk Hr Hoff).
    assert (Hoff1 : str_offset (req_route request)
                               (base_size (st_v8 (after_read s sock r request path)))
                    = Some path).
    { unfold after_read. cbn. destruct (app_init (st_v8 s)); exact Hoff. }
    destruct (route_loop_shape (actions (st_v8 s)) 0 _ request
                (v8_response_create v8_request_create sock) path Hoff1)
      as (evs & Hsnd & Hevs).
    destruct (routing_calls_quiet evs Hevs) as (_ & _ & _ & Q4).
    destruct (route_loop _ _ _ _ _) as [res s2]. cbn [snd] in Hsnd. subst s2.
    unfold after_read, app_init_trace. rewrite Hi.
    destruct res as [[i resp]|x| |];
      [destruct (nth_error (actions (st_v8 s)) i) as [a|];
       [destruct (method_eqb (act_method a) V8_METHOD_UNKNOWN)|]| | |];
      cbn; list_norm; (eexists; split; [reflexivity|]);
      cbn [app_init_calls]; rewrite ?app_init_calls_app, ?Q4; split; reflexivity.
  - rewrite (v8_request_handler_undefined_run s sock r request Hk Hr Hoff).
    unfold app_init_trace. rewrite Hi. cbn.
    exists []. repeat split.
Qed.

Lemma app_data_initialized_once_witness :
  k_scgi (st_kernel init_state) = (0, ping_request) /\
  (0 <? 0) = false /\
  exists rest,
    st_trace (snd (v8_request_handler 5 init_state))
    = st_trace init_state ++ EvScgiRead 5 0 :: EvAppInit :: rest /\
    app_init_calls rest = O /\
    fst (v8_app_data (snd (v8_request_handler 5 init_state))) = Ret 77.
Proof.
  split; [reflexivity|]. split; [reflexivity|].
  exact (app_data_initialized_once init_state 5 0 ping_request (fun _ => 77)
           eq_refl eq_refl eq_refl).
Defined.

(** X6. A request whose method is the unknown method is never routed:
    whatever its path, and whatever the table before the sentinel holds,
    the loop stops at the sentinel without calling a filter or a handler
    and without comparing a path. *)
Theorem unknown_method_not_routed :
  forall (acts : list V8Action) (i j : nat) (s : State) (request : V8Request)
         (response : V8Response),
  req_method request = V8_METHOD_UNKNOWN ->
  sentinel_index acts i = Some j ->
  route_loop acts i request response s = (Ret (j, response), s).
Proof.
  induction acts as [|a acts IH]; intros i j s request response Hm Hs;
    simpl in Hs |- *; [discriminate|].
  destruct (method_eqb (act_method a) V8_METHOD_UNKNOWN) eqn:Ha.
  - inversion Hs; subst. reflexivity.
  - unfold bind at 1, get_v8. unfold bind at 1.
    unfold action_matches, v8_request_method. rewrite Hm.
    assert (Hne : method_eqb V8_METHOD_UNKNOWN (act_method a) = false).
    { destruct (act_method a); try reflexivity; discriminate Ha. }
    rewrite Hne. cbn. apply IH; assumption.
Qed.

Lemma unknown_method_not_routed_witness :
  sentinel_index demo_actions 0 = Some 4%nat /\
  route_loop demo_actions 0 (mkRequest V8_METHOD_UNKNOWN "/app/ping" [])
             (v8_response_create v8_request_create 5) demo_state
  = (Ret (4%nat, v8_response_create v8_request_create 5), demo_state).
Proof.
  split; [reflexivity|].
  apply (unknown_method_not_routed demo_actions 0 4 demo_state
           (mkRequest V8_METHOD_UNKNOWN "/app/ping" [])); reflexivity.
Defined.

(** X7. The routing loop reads nothing past the sentinel, and of the
    sentinel nothing but its method: replacing the sentinel by another
    entry whose method is the unknown method, and the entries behind it by
    anything, changes nothing. *)
Theorem entries_after_sentinel_ignored :
  forall (pre : list V8Action) (sen sen' : V8Action) (post post' : list V8Action)
         (i : nat) (request : V8Request) (response : V8Response) (s : State),
  act_method sen = V8_METHOD_UNKNOWN ->
  act_method sen' = V8_METHOD_UNKNOWN ->
  route_loop (pre ++ sen :: post) i request response s
  = route_loop (pre ++ sen' :: post') i request response s.
Proof.
  induction pre as [|a pre IH]; intros sen sen' post post' i request response s H1 H2;
    simpl.
  - rewrite H1, H2. reflexivity.
  - destruct (method_eqb (act_method a) V8_METHOD_UNKNOWN); [reflexivity|].
    unfold bind at 1 3, get_v8. unfold bind at 1 2.
    destruct (lift_option _ s) as [[[|]|c| |] s1]; try reflexivity.
    apply IH; assumption.
Qed.

Lemma entries_after_sentinel_ignored_witness :
  act_method sentinel = V8_METHOD_UNKNOWN /\
  route_loop ([mkAction V8_METHOD_GET (Some "/x") (Some pong_handler) None]
                ++ sentinel
                :: [mkAction V8_METHOD_GET (Some "/ping") (Some pong_handler) None])
             0 ping_request (v8_response_create v8_request_create 5) demo_state
  = route_loop ([mkAction V8_METHOD_GET (Some "/x") (Some pong_handler) None]
                  ++ sentinel :: [])
               0 ping_request (v8_response_create v8_request_create 5) demo_state.
Proof.
  split; [reflexivity|].
  apply entries_after_sentinel_ignored; reflexivity.
Defined.

(** X8. The router checks the path of an entry for NULL but not its
    handler.  When the candidate has no handler, the call goes through the
    NULL pointer, which is undefined, unless its filter substitutes a
    handler; the filter is called first in either case. *)
Theorem null_handler_needs_filter :
  forall (s : State) (request : V8Request) (response : V8Response) (path : string)
         (i : nat) (a : V8Action),
  str_offset (req_route request) (base_size (st_v8 s)) = Some path ->
  spec_first_match (req_method request) path (actions (st_v8 s)) 0 = Some (i, a) ->
  act_handler a = None ->
  route_loop (actions (st_v8 s)) 0 request response s =
  match act_filter a with
  | Some f =>
      match f_code f request with
      | Some fh => (Ret (i, h_code fh request response),
                    with_events s [EvFilter (f_addr f); EvHandler (h_addr fh)])
      | None => (Undef, with_events s [EvFilter (f_addr f)])
      end
  | None => (Undef, s)
  end.
Proof.
  intros s request response path i a Hoff Hm Hh.
  rewrite (route_loop_spec _ _ _ _ _ _ Hoff), Hm, invoke_action_run, Hh.
  reflexivity.
Qed.

Lemma null_handler_needs_filter_witness :
  str_offset (req_route admin_request) 4 = Some "/admin" /\
  route_loop guarded_actions 0 admin_request (v8_response_create v8_request_create 5)
             (mkState (v8_init demo_config guarded_actions None 3 4 (Some O)) 0
                      demo_kernel [])
  = (Ret (0%nat, mkResponse 5 401 ""),
     with_events (mkState (v8_init demo_config guarded_actions None 3 4 (Some O)) 0
                          demo_kernel [])
                 [EvFilter 10; EvHandler 3]) /\
  fst (route_loop guarded_actions 0 admin_token_request
                  (v8_response_create v8_request_create 5)
                  (mkState (v8_init demo_config guarded_actions None 3 4 (Some O)) 0
                           demo_kernel []))
  = Undef.
Proof.
  split; [reflexivity|].
  split.
  - exact (null_handler_needs_filter
             (mkState (v8_init demo_config guarded_actions None 3 4 (Some O)) 0
                      demo_kernel [])
             admin_request (v8_response_create v8_request_create 5) "/admin" 0
             (mkAction V8_METHOD_GET (Some "/admin") None (Some auth_filter))
             eq_refl eq_refl eq_refl).
  - exact (f_equal fst
             (null_handler_needs_filter
                (mkState (v8_init demo_config guarded_actions None 3 4 (Some O)) 0
                         demo_kernel [])
                admin_token_request (v8_response_create v8_request_create 5)
                "/admin" 0
                (mkAction V8_METHOD_GET (Some "/admin") None (Some auth_filter))
                eq_refl eq_refl eq_refl)).
Defined.

(** ** v8_start *)

Lemma wait_loop_running : forall rs s fuel status_of intr n status,
  k_zombies (st_kernel s) = [] ->
  k_running (st_kernel s) = rs ->
  (List.length rs < fuel)%nat ->
  exists st',
    wait_loop status_of intr fuel n status s =
    (Ret (0, st'),
     mkState (st_v8 s) (wait_errno intr n (map Z.pos rs))
             (set_children (st_kernel s) (k_nfork (st_kernel s)) []
                (skipn (List.length (waited intr n (map Z.pos rs))) rs))
             (st_trace s ++ map EvWaitpid (waited intr n (map Z.pos rs))
                ++ [EvWaitpid (-1)])).
Proof.
  induction rs as [|pid rs IH]; intros s fuel status_of intr n status Hz Hr Hf;
    destruct s as [v e [bl fk nf sq zs rs0 su b sc fds] tr];
    simpl in Hz, Hr; subst zs rs0; (destruct fuel as [|fuel]; [simpl in Hf; lia|]).
  - cbn. eexists. reflexivity.
  - cbn. destruct (intr n) as [err|] eqn:Hi; cbn.
    + eexists. reflexivity.
    + edestruct (IH (mkState v e (mkKernel bl fk nf sq [] rs su b sc fds)
                             (tr ++ [EvWaitpid (Z.pos pid)])) fuel status_of intr
                    (S n) (Some (status_of pid)))
        as (st' & Hrun); [reflexivity | reflexivity | simpl in Hf; lia |].
      cbn in Hrun. rewrite app_cons_assoc in Hrun.
      exists st'. exact Hrun.
Qed.

(** The final wait returns at the first call of [wait] that fails: once no
    child is left, or when a call is interrupted. *)
Lemma wait_loop_run : forall zs s fuel status_of intr n status,
  k_zombies (st_kernel s) = zs ->
  (List.length zs + List.length (k_running (st_kernel s)) < fuel)%nat ->
  let children := zombie_pids zs ++ map Z.pos (k_running (st_kernel s)) in
  exists st',
    wait_loop status_of intr fuel n status s =
    (Ret (0, st'),
     mkState (st_v8 s) (wait_errno intr n children)
             (set_children (st_kernel s) (k_nfork (st_kernel s))
                (skipn (List.length (waited intr n children)) zs)
                (skipn (List.length (waited intr n children) - List.length zs)
                       (k_running (st_kernel s))))
             (st_trace s ++ map EvWaitpid (waited intr n children)
                ++ [EvWaitpid (-1)])).
Proof.
  unfold zombie_pids.
  induction zs as [|[pid st] zs IH]; intros s fuel status_of intr n status Hz Hf.
  - cbn zeta. cbn [map List.app List.length].
    rewrite Nat.sub_0_r, skipn_nil.
    exact (wait_loop_running (k_running (st_kernel s)) s fuel status_of intr n
             status Hz eq_refl Hf).
  - destruct s as [v e [bl fk nf sq zs0 rs su b sc fds] tr].
    simpl in Hz. subst zs0. destruct fuel as [|fuel]; [simpl in Hf; lia|].
    cbn. destruct (intr n) as [err|] eqn:Hi; cbn.
    + eexists. reflexivity.
    + edestruct (IH (mkState v e (mkKernel bl fk nf sq zs rs su b sc fds)
                             (tr ++ [EvWaitpid (Z.pos pid)])) fuel status_of intr
                    (S n) (Some st))
        as (st' & Hrun); [reflexivity | simpl in Hf |- *; lia |].
      cbn in Hrun. rewrite app_cons_assoc in Hrun.
      exists st'. exact Hrun.
Qed.

Lemma waited_all (intr : nat -> option Z) (pids : list Z) : forall n,
  (forall m, intr m = None) -> waited intr n pids = pids.
Proof.
  induction pids as [|p ps IH]; intros n H; simpl; [reflexivity|].
  rewrite H, IH by exact H. reflexivity.
Qed.

(** X9. Once the dispatcher has returned, [v8_start] waits for the
    children of the server, those that have terminated and then those
    still running, until a call of [wait] fails, logs the shutdown and
    returns 0.  When no call is interrupted, every child is waited for and
    none is left.  An interrupted call ends the wait with the remaining
    children left behind, and no failure is logged, whatever the errno:
    [pid] holds the result of the comparison [wait(&status) > 0], which is
    0 when the loop ends. *)
Theorem v8_start_waits_for_children :
  forall (status_of : positive -> Z) (intr : nat -> option Z)
         (add_listener : option nat -> Z -> V8Listener -> M unit)
         (dispatcher_start : option nat -> M unit)
         (fuel : nat) (s s1 : State),
  v8_start_serve add_listener dispatcher_start s = (Ret tt, s1) ->
  (List.length (k_zombies (st_kernel s1))
   + List.length (k_running (st_kernel s1)) < fuel)%nat ->
  let children := zombie_pids (k_zombies (st_kernel s1))
                    ++ map Z.pos (k_running (st_kernel s1)) in
  let done := waited intr 0 children in
  exists s',
    v8_start status_of intr add_listener dispatcher_start fuel s = (Ret 0, s') /\
    st_trace s' =
      st_trace s1
        ++ EvLog LogInfo fmt_waiting_children []
        :: map EvWaitpid done
        ++ [EvWaitpid (-1); EvLog LogInfo fmt_shutting_down []] /\
    st_errno s' = wait_errno intr 0 children /\
    k_zombies (st_kernel s')
    = skipn (List.length done) (k_zombies (st_kernel s1)) /\
    k_running (st_kernel s')
    = skipn (List.length done - List.length (k_zombies (st_kernel s1)))
            (k_running (st_kernel s1)) /\
    st_v8 s' = st_v8 s1 /\
    ((forall n, intr n = None) ->
     done = children /\
     k_zombies (st_kernel s') = [] /\ k_running (st_kernel s') = []).
Proof.
  intros status_of intr add_listener dispatcher_start fuel s s1 Hserve Hf
         children done.
  unfold v8_start, bind at 1. rewrite Hserve.
  destruct (wait_loop_run (k_zombies (st_kernel s1))
              (mkState (st_v8 s1) (st_errno s1) (st_kernel s1)
                       (st_trace s1 ++ [EvLog LogInfo fmt_waiting_children []]))
              fuel status_of intr 0%nat None eq_refl Hf) as (st' & Hrun).
  unfold v8_start_shutdown, bind at 1, v8_log_info, emit at 1.
  unfold bind at 1. cbn in Hrun |- *. rewrite Hrun. cbn.
  fold (zombie_pids (k_zombies (st_kernel s1))). fold children. fold done.
  eexists. split; [reflexivity|]. cbn.
  split; [list_norm; reflexivity|].
  split; [reflexivity|]. split; [reflexivity|]. split; [reflexivity|].
  split; [reflexivity|].
  intros Hn.
  assert (Hd : done = children) by (apply waited_all, Hn).
  split; [exact Hd|]. rewrite Hd. unfold children.
  rewrite length_app, !length_map.
  unfold zombie_pids. rewrite length_map.
  split.
  - apply skipn_all2. lia.
  - apply skipn_all2. lia.
Qed.

Lemma v8_start_waits_for_children_witness :
  let intr := fun n => if Nat.eqb n 1 then Some EINTR else None in
  v8_start_serve (fun _ _ _ => ret tt) (fun _ => ret tt) stopping_state
  = (Ret tt, with_events stopping_state
                         [EvLog LogDebug fmt_waiting_connections []]) /\
  (1 + 2 < 5)%nat /\
  exists s',
    v8_start (fun _ => 0) intr (fun _ _ _ => ret tt) (fun _ => ret tt) 5
             stopping_state
    = (Ret 0, s') /\
    reaped_pids (st_trace s') = [7] /\
    error_logs (st_trace s') = [] /\
    st_errno s' = EINTR /\
    k_zombies (st_kernel s') = [] /\
    k_running (st_kernel s') = [8%positive; 9%positive].
Proof.
  intros intr.
  assert (Hs : v8_start_serve (fun _ _ _ => ret tt) (fun _ => ret tt) stopping_state
               = (Ret tt, with_events stopping_state
                                      [EvLog LogDebug fmt_waiting_connections []]))
    by reflexivity.
  assert (Hf : (1 + 2 < 5)%nat) by lia.
  split; [exact Hs|]. split; [exact Hf|].
  destruct (v8_start_waits_for_children (fun _ => 0) intr _ _ 5 _ _ Hs Hf)
    as (s' & Hrun & Htr & He & Hz & Hr & _).
  exists s'. split; [exact Hrun|]. split; [rewrite Htr; reflexivity|].
  split; [rewrite Htr; reflexivity|]. split; [exact He|].
  split; [exact Hz | exact Hr].
Defined.

(** ** Start-up *)

(** X10. [v8_set_nonblocking] returns 0 exactly when both [fcntl] calls
    succeed; the flags it sets are the flags it read with O_NONBLOCK
    added: that bit is set and every other bit is as it was.  When the
    flags cannot be read, no flags are set. *)
Theorem set_nonblocking_adds_flag : forall (env : SetupEnv) (fd : Z),
  (fst (v8_set_nonblocking env fd) = 0 <->
   e_getfl env <> -1 /\ e_setfl env <> -1) /\
  (fst (v8_set_nonblocking env fd) = 0 \/ fst (v8_set_nonblocking env fd) = -1) /\
  (e_getfl env = -1 ->
   snd (v8_set_nonblocking env fd)
   = [CFcntlGet fd (-1); CLogError fmt_getfl_failed []]) /\
  (e_getfl env <> -1 ->
   exists tail,
     snd (v8_set_nonblocking env fd)
     = CFcntlGet fd (e_getfl env)
       :: CFcntlSet fd (Z.lor (e_getfl env) O_NONBLOCK) (e_setfl env) :: tail /\
     Z.testbit (Z.lor (e_getfl env) O_NONBLOCK) 11 = true /\
     forall n, n <> 11 ->
               Z.testbit (Z.lor (e_getfl env) O_NONBLOCK) n
               = Z.testbit (e_getfl env) n).
Proof.
  intros env fd. unfold v8_set_nonblocking.
  destruct (Z.eqb_spec (e_getfl env) (-1)) as [Hg|Hg];
    [|destruct (Z.eqb_spec (e_setfl env) (-1)) as [Hs|Hs]]; cbn [fst snd].
  - split; [split; [discriminate | intros [H _]; contradiction]|].
    split; [right; reflexivity|]. split; [rewrite Hg; reflexivity|].
    intros H; contradiction.
  - split; [split; [discriminate | intros [_ H]; contradiction]|].
    split; [right; reflexivity|]. split; [intros H; contradiction|].
    intros _. eexists. split; [reflexivity|].
    split.
    + rewrite Z.lor_spec. change (Z.testbit O_NONBLOCK 11) with true.
      apply orb_true_r.
    + intros n Hn. rewrite Z.lor_spec.
      replace (Z.testbit O_NONBLOCK n) with false; [apply orb_false_r|].
      symmetry. change O_NONBLOCK with (2 ^ 11).
      destruct (Z.ltb_spec n 0) as [Hneg|Hpos].
      * apply Z.testbit_neg_r, Hneg.
      * apply Z.pow2_bits_false. lia.
  - split; [split; [intros _; split; assumption | reflexivity]|].
    split; [left; reflexivity|]. split; [intros H; contradiction|].
    intros _. eexists. split; [reflexivity|].
    split.
    + rewrite Z.lor_spec. change (Z.testbit O_NONBLOCK 11) with true.
      apply orb_true_r.
    + intros n Hn. rewrite Z.lor_spec.
      replace (Z.testbit O_NONBLOCK n) with false; [apply orb_false_r|].
      symmetry. change O_NONBLOCK with (2 ^ 11).
      destruct (Z.ltb_spec n 0) as [Hneg|Hpos].
      * apply Z.testbit_neg_r, Hneg.
      * apply Z.pow2_bits_false. lia.
Qed.

Lemma set_nonblocking_adds_flag_witness :
  e_getfl good_env <> -1 /\
  fst (v8_set_nonblocking good_env 3) = 0 /\
  exists tail,
    snd (v8_set_nonblocking good_env 3)
    = CFcntlGet 3 2 :: CFcntlSet 3 2050 0 :: tail.
Proof.
  assert (Hg : e_getfl good_env <> -1) by discriminate.
  split; [exact Hg|].
  destruct (set_nonblocking_adds_flag good_env 3) as (Hok & _ & _ & Hset).
  split; [apply Hok; split; discriminate|].
  destruct (Hset Hg) as (tail & Hs & _). exists tail. exact Hs.
Defined.

Ltac socket_cases env :=
  unfold v8_init_socket, first_failure, v8_set_nonblocking, after_calls,
    socket_cleanup;
  destruct (e_getaddrinfo env =? 0); cbn [negb fst snd];
  [destruct (e_socket env =? -1) eqn:?; cbn [fst snd];
   [|destruct (e_setsockopt env =? -1); cbn [fst snd];
     [|destruct (e_getfl env =? -1); cbn [fst snd];
       [|destruct (e_setfl env =? -1); cbn [fst snd];
         [|change (0 =? -1) with false; cbn [fst snd];
           destruct (e_bind env =? -1); cbn [fst snd];
           [|destruct (e_listen env =? -1); cbn [fst snd]]]]]]|].

Lemma v8_init_socket_result (cfg : list (string * string)) (env : SetupEnv) :
  fst (v8_init_socket cfg env)
  = match first_failure env with
    | None => Ret (e_socket env)
    | Some StListen => Undef
    | Some _ => Ret (-1)
    end.
Proof. socket_cases env; reflexivity. Qed.

(** X11. [v8_init_socket] returns the descriptor [socket] gave it exactly
    when none of its seven calls fails.  On success the socket was made to
    reuse its address and non-blocking before it was bound, the address
    list was freed once, and the socket was not closed.  When one of the
    six calls before [listen] fails, it returns -1.  When [listen] fails it
    returns nothing: the cleanup frees the address list a second time,
    which is undefined. *)
Theorem init_socket_success : forall (cfg : list (string * string)) (env : SetupEnv),
  (first_failure env = None ->
   v8_init_socket cfg env =
   (Ret (e_socket env),
    [CGetaddrinfo (v8_config_str cfg "v8.listen" "127.0.0.1")
                  (v8_config_str cfg "v8.port" "4900") (e_getaddrinfo env);
     CSocket (e_socket env);
     CSetsockopt (e_socket env) (e_setsockopt env);
     CFcntlGet (e_socket env) (e_getfl env);
     CFcntlSet (e_socket env) (Z.lor (e_getfl env) O_NONBLOCK) (e_setfl env);
     CBind (e_socket env) (e_bind env);
     CFreeaddrinfo;
     CListen (e_socket env) (e_listen env)]) /\
   e_socket env <> -1) /\
  (forall step, first_failure env = Some step -> step <> StListen ->
                fst (v8_init_socket cfg env) = Ret (-1)) /\
  (first_failure env = Some StListen -> fst (v8_init_socket cfg env) = Undef).
Proof.
  intros cfg env. split; [|split].
  - socket_cases env; intros H; try discriminate H.
    split; [reflexivity|]. apply Z.eqb_neq. assumption.
  - intros step Hs Hne. rewrite v8_init_socket_result, Hs.
    destruct step; try reflexivity. contradiction.
  - intros Hs. rewrite v8_init_socket_result, Hs. reflexivity.
Qed.

Lemma init_socket_success_witness :
  first_failure good_env = None /\
  first_failure bind_fails_env = Some StBind /\
  first_failure listen_fails_env = Some StListen /\
  fst (v8_init_socket [] good_env) = Ret 3 /\
  fst (v8_init_socket [] bind_fails_env) = Ret (-1) /\
  fst (v8_init_socket [] listen_fails_env) = Undef.
Proof.
  assert (H1 : first_failure good_env = None) by reflexivity.
  assert (H2 : first_failure bind_fails_env = Some StBind) by reflexivity.
  assert (H3 : first_failure listen_fails_env = Some StListen) by reflexivity.
  split; [exact H1|]. split; [exact H2|]. split; [exact H3|].
  split; [|split].
  - exact (f_equal fst (proj1 (proj1 (init_socket_success [] good_env) H1))).
  - apply (proj1 (proj2 (init_socket_success [] bind_fails_env)) StBind H2).
    discriminate.
  - exact (proj2 (proj2 (init_socket_success [] listen_fails_env)) H3).
Defined.

(** X12. Whenever [v8_init_socket] returns -1, which it does when a call
    before [listen] fails, its last call is one [close], and it is the only
    one: of the socket when one was created, and of the invalid descriptor
    -1 when [getaddrinfo] or [socket] itself failed.  When [listen] fails,
    the function does not get as far: its last call is the second
    [freeaddrinfo], and the socket is never closed. *)
Theorem init_socket_failure_closes :
  forall (cfg : list (string * string)) (env : SetupEnv) (step : SocketStep),
  first_failure env = Some step ->
  let fd := match step with
            | StGetaddrinfo | StSocket => -1
            | _ => e_socket env
            end in
  (step <> StListen ->
   fst (v8_init_socket cfg env) = Ret (-1) /\
   setup_closes (snd (v8_init_socket cfg env)) = [fd] /\
   List.last (snd (v8_init_socket cfg env)) CFreeaddrinfo = CClose fd) /\
  (step = StListen ->
   fst (v8_init_socket cfg env) = Undef /\
   setup_closes (snd (v8_init_socket cfg env)) = [] /\
   List.last (snd (v8_init_socket cfg env)) (CClose fd) = CFreeaddrinfo).
Proof.
  intros cfg env step.
  socket_cases env; intros H; inversion H; subst step; cbn zeta;
    try match goal with
        | Hs : (e_socket env =? -1) = true |- _ =>
            apply Z.eqb_eq in Hs; rewrite Hs
        end;
    (split; intros Hstep;
     [try (exfalso; apply Hstep; reflexivity) | try discriminate Hstep]);
    repeat split; reflexivity.
Qed.

Lemma init_socket_failure_closes_witness :
  first_failure bind_fails_env = Some StBind /\
  fst (v8_init_socket [] bind_fails_env) = Ret (-1) /\
  setup_closes (snd (v8_init_socket [] bind_fails_env)) = [3] /\
  List.last (snd (v8_init_socket [] bind_fails_env)) CFreeaddrinfo = CClose 3.
Proof.
  split; [reflexivity|].
  apply (proj1 (init_socket_failure_closes [] bind_fails_env StBind eq_refl)).
  discriminate.
Defined.

(** X13. [v8_init_socket] frees the address list once on every path on
    which [getaddrinfo] succeeded, with one exception: when [listen]
    fails, the list, freed before the call, is freed a second time by the
    cleanup.  When [getaddrinfo] failed, nothing is freed. *)
Theorem init_socket_frees : forall (cfg : list (string * string)) (env : SetupEnv),
  setup_frees (snd (v8_init_socket cfg env)) =
  match first_failure env with
  | Some StGetaddrinfo => 0%nat
  | Some StListen => 2%nat
  | _ => 1%nat
  end.
Proof. intros cfg env. socket_cases env; reflexivity. Qed.

(** X14. Of the failures of [v8_init_socket] only those of [fcntl] and of
    [listen] are logged, with one message each; a failure of
    [getaddrinfo], [socket], [setsockopt] or [bind] leaves no message, and
    so does success. *)
Theorem init_socket_logs : forall (cfg : list (string * string)) (env : SetupEnv),
  setup_logs (snd (v8_init_socket cfg env)) =
  match first_failure env with
  | Some StGetfl => [fmt_getfl_failed]
  | Some StSetfl => [fmt_setfl_failed]
  | Some StListen => [fmt_listen_failed]
  | _ => []
  end.
Proof. intros cfg env. socket_cases env; reflexivity. Qed.

(** ** v8_init_signals and v8_init *)

(** X15. [v8_init_signals] blocks interrupt, quit, terminate, child and
    hang-up and returns the descriptor [signalfd] made for the same five
    signals, non-blocking.  It returns -1 when blocking fails, without
    calling [signalfd] and with the signal mask as it was, and when
    [signalfd] fails, in which case the five signals stay blocked. *)
Theorem init_signals_blocks : forall (env : SetupEnv) (blocked : list Z),
  let r := v8_init_signals env blocked in
  (e_sigprocmask env = -1 ->
   fst (fst r) = -1 /\ snd (fst r) = blocked /\
   snd r = [CSigBlock signal_mask (-1); CLogError fmt_block_failed [e_errno env]]) /\
  (e_sigprocmask env <> -1 ->
   (forall sg, In sg signal_mask -> In sg (snd (fst r))) /\
   (forall sg, In sg blocked -> In sg (snd (fst r))) /\
   (forall sg, In sg (snd (fst r)) -> In sg signal_mask \/ In sg blocked) /\
   fst (fst r) = e_signalfd env /\
   exists tail,
     snd r = CSigBlock signal_mask (e_sigprocmask env)
             :: CSignalfd signal_mask SFD_NONBLOCK (e_signalfd env) :: tail /\
     (e_signalfd env = -1 -> tail = [CLogError fmt_signalfd_failed [e_errno env]]) /\
     (e_signalfd env <> -1 -> tail = [])).
Proof.
  intros env blocked r. subst r. unfold v8_init_signals.
  destruct (Z.eqb_spec (e_sigprocmask env) (-1)) as [Hb|Hb].
  - split; [|intros H; contradiction].
    intros _. rewrite Hb. repeat split.
  - split; [intros H; contradiction|]. intros _.
    change [SIGINT; SIGQUIT; SIGTERM; SIGCHLD; SIGHUP] with signal_mask.
    destruct (Z.eqb_spec (e_signalfd env) (-1)) as [Hs|Hs]; cbn [fst snd].
    + split; [intros sg H; apply in_or_app; left; exact H|].
      split; [intros sg H; apply in_or_app; right; exact H|].
      split; [intros sg H; apply in_app_or, H|].
      split; [symmetry; exact Hs|].
      eexists. split; [reflexivity|]. split; [reflexivity | intros H; contradiction].
    + split; [intros sg H; apply in_or_app; left; exact H|].
      split; [intros sg H; apply in_or_app; right; exact H|].
      split; [intros sg H; apply in_app_or, H|].
      split; [reflexivity|].
      eexists. split; [reflexivity|]. split; [intros H; contradiction | reflexivity].
Qed.

Lemma init_signals_blocks_witness :
  e_sigprocmask good_env <> -1 /\
  fst (fst (v8_init_signals good_env [])) = 4 /\
  (forall sg, In sg signal_mask -> In sg (snd (fst (v8_init_signals good_env [])))).
Proof.
  assert (Hb : e_sigprocmask good_env <> -1) by discriminate.
  split; [exact Hb|].
  destruct (proj2 (init_signals_blocks good_env []) Hb) as (Hm & _ & _ & Hfd & _).
  split; [exact Hfd | exact Hm].
Defined.

Lemma unblock_blocked (blocked : list Z) :
  (forall sg, In sg signal_mask -> ~ In sg blocked) ->
  filter (fun sg => negb (existsb (Z.eqb sg) signal_mask)) (signal_mask ++ blocked)
  = blocked.
Proof.
  intros H. rewrite filter_app.
  change (filter (fun sg => negb (existsb (Z.eqb sg) signal_mask)) signal_mask)
    with (@nil Z).
  cbn [app]. induction blocked as [|x b IH]; [reflexivity|].
  cbn [filter].
  assert (Hx : existsb (Z.eqb x) signal_mask = false).
  { destruct (existsb (Z.eqb x) signal_mask) eqn:E; [|reflexivity].
    apply existsb_exists in E. destruct E as (y & Hy & Exy).
    apply Z.eqb_eq in Exy. subst y. exfalso. apply (H x Hy). left. reflexivity. }
  rewrite Hx. cbn [negb]. f_equal. apply IH.
  intros sg Hsg Hin. apply (H sg Hsg). right. exact Hin.
Qed.

(** X16. The worker undoes what the start-up did to the signal mask: for a
    server started with none of the five signals blocked, the mask of a
    worker whose teardown succeeded is, from then on, the mask the server
    was started with. *)
Theorem worker_restores_signal_mask :
  forall (env : SetupEnv) (blocked : list Z) (s : State) (sock : Z),
  e_sigprocmask env <> -1 ->
  (forall sg, In sg signal_mask -> ~ In sg blocked) ->
  k_blocked (st_kernel s) = snd (fst (v8_init_signals env blocked)) ->
  k_sigunblock (st_kernel s) = None ->
  k_blocked (st_kernel (torn_down s)) = blocked /\
  k_blocked (st_kernel (snd (v8_child_exec sock s))) = blocked.
Proof.
  intros env blocked s sock Hb Hdis Hk Hu.
  assert (Hblk : snd (fst (v8_init_signals env blocked)) = signal_mask ++ blocked).
  { unfold v8_init_signals. apply Z.eqb_neq in Hb. rewrite Hb.
    destruct (e_signalfd env =? -1); reflexivity. }
  assert (Ht : k_blocked (st_kernel (torn_down s)) = blocked).
  { unfold torn_down. cbn [st_kernel k_blocked]. rewrite Hk, Hblk.
    apply unblock_blocked, Hdis. }
  split; [exact Ht|].
  rewrite (v8_child_exec_ok s sock Hu).
  destruct (hr_request_handler sock (torn_down s)) as (_ & _ & _ & _ & _ & _ & Hsame).
  destruct (v8_request_handler sock (torn_down s)) as [res s2].
  cbn [snd] in Hsame.
  destruct res; cbn [snd]; rewrite Hsame; exact Ht.
Qed.

Lemma worker_restores_signal_mask_witness :
  e_sigprocmask good_env <> -1 /\
  (forall sg, In sg signal_mask -> ~ In sg [10]) /\
  k_blocked (st_kernel
               (snd (v8_child_exec 5
                       (with_kernel worker_state
                          (set_blocked (st_kernel worker_state)
                                       (snd (fst (v8_init_signals good_env [10]))))))))
  = [10].
Proof.
  assert (Hb : e_sigprocmask good_env <> -1) by discriminate.
  assert (Hd : forall sg, In sg signal_mask -> ~ In sg [10]).
  { intros sg Hsg [H|[]]. subst sg. cbn in Hsg.
    repeat (destruct Hsg as [Hsg|Hsg]; [discriminate Hsg|]). exact Hsg. }
  split; [exact Hb|]. split; [exact Hd|].
  exact (proj2 (worker_restores_signal_mask good_env [10]
                  (with_kernel worker_state
                     (set_blocked (st_kernel worker_state)
                                  (snd (fst (v8_init_signals good_env [10])))))
                  5 Hb Hd eq_refl eq_refl)).
Defined.

(** X17. [v8_init] reports no failure of its set-up: whenever malloc
    succeeds and [v8_init_socket] returns, it returns a server, and goes on
    to block the signals and to create the dispatcher; when the listening
    socket could not be set up, the server it returns holds -1 as its
    listening socket.  When malloc fails it returns NULL and has made no
    call.  When [listen] fails, [v8_init] does not get past
    [v8_init_socket], whose behaviour is undefined: no signal is blocked
    and no dispatcher is created. *)
Theorem v8_init_hides_failures :
  forall (cfg : list (string * string)) (acts : list V8Action)
         (appinit : option (unit -> Z)) (env : SetupEnv) (blocked : list Z),
  (e_malloc env = false ->
   v8_init_proc cfg acts appinit env blocked = (Ret None, blocked, [])) /\
  (e_malloc env = true -> first_failure env <> Some StListen ->
   exists v8 before,
     fst (fst (v8_init_proc cfg acts appinit env blocked)) = Ret (Some v8) /\
     sockfd v8 = (match first_failure env with
                  | None => e_socket env
                  | Some _ => -1
                  end) /\
     sigfd v8 = fst (fst (v8_init_signals env blocked)) /\
     actions v8 = acts /\ app_data v8 = 0 /\ dispatcher v8 = e_dispatcher env /\
     snd (fst (v8_init_proc cfg acts appinit env blocked))
     = snd (fst (v8_init_signals env blocked)) /\
     snd (v8_init_proc cfg acts appinit env blocked)
     = snd (v8_init_socket cfg env) ++ snd (v8_init_signals env blocked)
       ++ before ++ [CDispatcherCreate]) /\
  (e_malloc env = true -> first_failure env = Some StListen ->
   v8_init_proc cfg acts appinit env blocked
   = (Undef, blocked, snd (v8_init_socket cfg env))).
Proof.
  intros cfg acts appinit env blocked. unfold v8_init_proc.
  split; [|split]; intros Hm; rewrite Hm.
  - reflexivity.
  - intros Hne. cbn zeta. rewrite v8_init_socket_result.
    exists (v8_init cfg acts appinit
                    (match first_failure env with
                     | None => e_socket env
                     | Some _ => -1
                     end)
                    (fst (fst (v8_init_signals env blocked))) (e_dispatcher env)).
    exists [CLogLevel (v8_config_str cfg "v8.log.level" "warning")].
    destruct (first_failure env) as [step|];
      [destruct step; try (exfalso; apply Hne; reflexivity)|];
      cbn [fst snd]; repeat split; reflexivity.
  - intros Hl. cbn zeta. rewrite v8_init_socket_result, Hl. reflexivity.
Qed.

Lemma v8_init_hides_failures_witness :
  e_malloc bind_fails_env = true /\
  first_failure bind_fails_env <> Some StListen /\
  exists v8,
    fst (fst (v8_init_proc [] [] None bind_fails_env [])) = Ret (Some v8) /\
    sockfd v8 = -1 /\ sigfd v8 = 4.
Proof.
  assert (Hne : first_failure bind_fails_env <> Some StListen) by discriminate.
  split; [reflexivity|]. split; [exact Hne|].
  destruct (proj1 (proj2 (v8_init_hides_failures [] [] None bind_fails_env []))
              eq_refl Hne)
    as (v8 & before & Hv & Hs & Hg & _).
  exists v8. split; [exact Hv|]. split; [exact Hs | exact Hg].
Defined.

(** ** The acceptor: children and error messages *)

Lemma error_logs_app (t1 t2 : list Event) :
  error_logs (t1 ++ t2) = error_logs t1 ++ error_logs t2.
Proof.
  induction t1 as [|e t1 IH]; simpl; [reflexivity|].
  destruct e; simpl; rewrite ?IH; try reflexivity.
  destruct lvl; simpl; rewrite ?IH; reflexivity.
Qed.

(** One fork in the parent: the child it adds. *)
Lemma v8_fork_parent_child : forall s sock,
  k_fork (st_kernel s) (k_nfork (st_kernel s)) <> ForkChild ->
  exists s',
    v8_fork sock s
    = (Ret (match k_fork (st_kernel s) (k_nfork (st_kernel s)) with
            | ForkFailed _ => -1 | _ => 0 end), s') /\
    st_v8 s' = st_v8 s /\
    k_backlog (st_kernel s') = k_backlog (st_kernel s) /\
    k_fork (st_kernel s') = k_fork (st_kernel s) /\
    k_nfork (st_kernel s') = S (k_nfork (st_kernel s)) /\
    k_running (st_kernel s')
    = k_running (st_kernel s)
        ++ spawned (k_fork (st_kernel s)) (k_nfork (st_kernel s)) 1 /\
    st_trace s' = st_trace s
                    ++ fork_trace (k_fork (st_kernel s) (k_nfork (st_kernel s))) sock.
Proof.
  intros s sock Hp.
  destruct s as [v e [bl fk nf sq zs rs su b sc fds] tr]. cbn in Hp.
  unfold v8_fork, sys_fork, bind at 1 2, syscall. cbn -[v8_child_exec].
  destruct (fk nf) as [pid| |err] eqn:Hfk; [| contradiction |];
    cbn; eexists; (split; [reflexivity|]); cbn; rewrite ?app_nil_r;
    repeat split; list_norm; reflexivity.
Qed.

Lemma spawned_step (fk : nat -> ForkResult) (n c : nat) :
  spawned fk n (S c) = spawned fk n 1 ++ spawned fk (S n) c.
Proof. simpl. destruct (fk n); reflexivity. Qed.

Lemma fork_errors_step (fk : nat -> ForkResult) (n c : nat) :
  fork_errors fk n (S c) = fork_errors fk n 1 ++ fork_errors fk (S n) c.
Proof. simpl. destruct (fk n); reflexivity. Qed.

(** The accept loop in the parent: the children it leaves running and the
    error messages it logs. *)
Lemma accept_loop_children : forall q s fuel newsock,
  k_backlog (st_kernel s) = q ->
  newsock <> -1 ->
  (forall n, k_fork (st_kernel s) n <> ForkChild) ->
  (List.length q < fuel)%nat ->
  exists s' tr,
    accept_loop fuel newsock s = (Ret tt, s') /\
    st_trace s' = st_trace s ++ tr /\
    st_v8 s' = st_v8 s /\
    k_nfork (st_kernel s')
    = (k_nfork (st_kernel s) + List.length (accepted_prefix q))%nat /\
    k_running (st_kernel s')
    = k_running (st_kernel s)
        ++ spawned (k_fork (st_kernel s)) (k_nfork (st_kernel s))
             (List.length (accepted_prefix q)) /\
    error_logs tr
    = fork_errors (k_fork (st_kernel s)) (k_nfork (st_kernel s))
        (List.length (accepted_prefix q)) ++ stop_error q.
Proof.
  induction q as [|a q IH]; intros s fuel newsock Hq Hns Hp Hf;
    destruct s as [v e [bl fk nf sq zs rs su b sc fds] tr];
    simpl in Hq; subst bl; (destruct fuel as [|fuel]; [simpl in Hf; lia|]);
    apply Z.eqb_neq in Hns.
  - cbn -[Z.eqb]. rewrite Hns. cbn.
    rewrite accept_loop_done.
    eexists; exists [EvAccept (sockfd v) (-1)]. cbn.
    rewrite Nat.add_0_r, app_nil_r. repeat split; reflexivity.
  - destruct a as [c|err].
    + cbn -[Z.eqb v8_fork spawned fork_errors]. rewrite Hns.
      cbn -[Z.eqb v8_fork spawned fork_errors].
      assert (Hc : (Z.of_nat c =? -1) = false) by (apply Z.eqb_neq; lia).
      rewrite Hc. cbn -[Z.eqb v8_fork spawned fork_errors]. unfold bind.
      cbn -[Z.eqb v8_fork spawned fork_errors].
      match goal with
      | |- context [v8_fork ?sock ?s1] =>
          destruct (v8_fork_parent_child s1 sock)
            as (s2 & Hrun & Hv & Hbl & Hfk & Hnf & Hrs & Htr);
            [apply Hp | rewrite Hrun; clear Hrun]
      end.
      cbn -[spawned] in Hv, Hbl, Hfk, Hnf, Hrs, Htr. cbn in Hp.
      rewrite spawned_step, fork_errors_step.
      assert (Hloop : forall s3 ev,
                 st_kernel s3 = st_kernel s2 -> st_v8 s3 = st_v8 s2 ->
                 st_trace s3 = st_trace s2 ++ ev ->
                 error_logs (fork_trace (fk nf) (Z.of_nat c) ++ ev)
                 = fork_errors fk nf 1 ->
                 exists s' tr0,
                   accept_loop fuel (Z.of_nat c) s3 = (Ret tt, s') /\
                   st_trace s' = tr ++ tr0 /\
                   st_v8 s' = v /\
                   k_nfork (st_kernel s')
                   = (nf + S (List.length (accepted_prefix q)))%nat /\
                   k_running (st_kernel s')
                   = rs ++ spawned fk nf 1
                        ++ spawned fk (S nf) (List.length (accepted_prefix q)) /\
                   error_logs tr0
                   = (fork_errors fk nf 1
                        ++ fork_errors fk (S nf) (List.length (accepted_prefix q)))
                       ++ stop_error q).
      { intros s3 ev Hk3 Hv3 Htr3 Herr.
        destruct (IH s3 fuel (Z.of_nat c))
          as (s' & tr2 & Hrun & Htr2 & Hv2 & Hnf2 & Hrs2 & Herr2).
        - rewrite Hk3. exact Hbl.
        - lia.
        - rewrite Hk3, Hfk. exact Hp.
        - simpl in Hf. lia.
        - exists s'.
          exists ([EvAccept (sockfd v) (Z.of_nat c); EvLog LogDebug fmt_accepted []]
                    ++ (fork_trace (fk nf) (Z.of_nat c) ++ ev) ++ tr2).
          split; [exact Hrun|].
          split; [rewrite Htr2, Htr3, Htr; list_norm; reflexivity|].
          split; [rewrite Hv2, Hv3; exact Hv|].
          rewrite Hk3, ?Hfk, Hnf in Hnf2. rewrite Hk3, Hfk, Hnf, Hrs in Hrs2.
          rewrite Hk3, Hfk, Hnf in Herr2.
          split; [rewrite Hnf2; lia|].
          split; [rewrite Hrs2; list_norm; reflexivity|].
          rewrite !error_logs_app, <- error_logs_app, Herr, Herr2.
          cbn [error_logs List.app]. list_norm. reflexivity. }
      specialize (Hp nf). cbn -[Z.eqb accept_loop spawned fork_errors].
      destruct (fk nf) as [pid| |err] eqn:Hfknf; [| contradiction |]; cbn.
      * apply (Hloop _ []); cbn; rewrite ?app_nil_r, ?Hfknf; reflexivity.
      * apply (Hloop _ [EvLog LogError fmt_fail_fork []]);
          cbn; rewrite ?Hfknf; reflexivity.
    + cbn -[Z.eqb]. rewrite Hns. cbn -[Z.eqb].
      change (-1 =? -1) with true. cbn -[Z.eqb]. unfold bind at 1. cbn -[Z.eqb].
      rewrite Nat.add_0_r, app_nil_r.
      match goal with |- context [negb (?a =? ?b)] => destruct (a =? b) end;
        cbn; rewrite accept_loop_done.
      * eexists; exists [EvAccept (sockfd v) (-1)]. repeat split; reflexivity.
      * eexists; exists [EvAccept (sockfd v) (-1);
                         EvLog LogError fmt_fail_accept []].
        split; [reflexivity|]. split; [cbn; list_norm; reflexivity|].
        repeat split; reflexivity.
Qed.

(** X18. The acceptor in the parent, run on a backlog whose first [n]
    connections precede the first failing accept, makes [n] fork calls and
    adds to its running children exactly the children of those that
    succeed, in order.  Its error messages are: for each failed fork, the
    failure with its errno and then "Fail to fork"; and at the end
    "Fail to accept connection", unless the accept that ended the loop
    would have blocked, which is not logged. *)
Theorem acceptor_children_and_errors (s : State) (fuel : nat) (fd : Z) :
  (forall n, k_fork (st_kernel s) n <> ForkChild) ->
  (List.length (k_backlog (st_kernel s)) < fuel)%nat ->
  exists s' tr,
    v8_handle_connection fuel fd s = (Ret tt, s') /\
    st_trace s' = st_trace s ++ tr /\
    k_nfork (st_kernel s')
    = (k_nfork (st_kernel s)
       + List.length (accepted_prefix (k_backlog (st_kernel s))))%nat /\
    k_running (st_kernel s')
    = k_running (st_kernel s)
        ++ spawned (k_fork (st_kernel s)) (k_nfork (st_kernel s))
             (List.length (accepted_prefix (k_backlog (st_kernel s)))) /\
    error_logs tr
    = fork_errors (k_fork (st_kernel s)) (k_nfork (st_kernel s))
        (List.length (accepted_prefix (k_backlog (st_kernel s))))
        ++ stop_error (k_backlog (st_kernel s)).
Proof.
  intros Hp Hf. unfold v8_handle_connection.
  destruct (accept_loop_children (k_backlog (st_kernel s)) s fuel 0
              eq_refl ltac:(discriminate) Hp Hf)
    as (s' & tr & Hrun & Htr & _ & Hnf & Hrs & Herr).
  exists s', tr. repeat split; assumption.
Qed.

Lemma acceptor_children_and_errors_witness :
  (forall n, k_fork (st_kernel crowded_state) n <> ForkChild) /\
  (List.length (k_backlog (st_kernel crowded_state)) < 5)%nat /\
  exists s' tr,
    v8_handle_connection 5 3 crowded_state = (Ret tt, s') /\
    st_trace s' = st_trace crowded_state ++ tr /\
    k_nfork (st_kernel s') = 2%nat /\
    k_running (st_kernel s') = [1%positive] /\
    error_logs tr = [fmt_fork_failed; fmt_fail_fork; fmt_fail_accept].
Proof.
  assert (Hp : forall n, k_fork (st_kernel crowded_state) n <> ForkChild).
  { intros n. unfold crowded_state, with_kernel. cbn [st_kernel k_fork].
    destruct (Nat.eqb n 1); discriminate. }
  assert (Hf : (List.length (k_backlog (st_kernel crowded_state)) < 5)%nat).
  { simpl. lia. }
  split; [exact Hp|]. split; [exact Hf|].
  destruct (acceptor_children_and_errors crowded_state 5 3 Hp Hf)
    as (s' & tr & Hrun & Htr & Hnf & Hrs & Herr).
  exists s', tr. repeat split; assumption.
Defined.
